(** * Bsaraha backend: anonymous messaging, relationships and moderation

    A shallow embedding of the Express route handlers of the Bsaraha
    backend (routes/messages.js, routes/users.js, routes/admin.js), of the
    authentication middleware (middleware/auth.js), of the Mongoose models
    they use and of the e-mail service, followed by the properties of the
    design document that were checked against them.

    Conventions of the embedding.
    - A MongoDB collection with its unique [_id] index is a finite map from
      ObjectIds to documents. The Follow and Block collections carry a
      unique compound index on their pair of user references, so they are
      keyed by that pair.
    - ObjectIds are [positive] numbers. Path parameters and body fields that
      hold an id are taken to be canonical ObjectId strings, so that the
      string comparisons of the handlers ([a.toString() === b]) coincide
      with equality of ids.
    - An [async] handler is a function from the store to an HTTP response
      and a new store. Inside [try { ... } catch], the body is written in a
      small monad with early [return res.status(..).json(..)] and [throw].
    - [new Date()] is the [now] argument of the handler that calls it.
    - Request bodies and query parameters have the types their handlers
      expect; string lengths are [String.length].

    The search, the follower, following and blocked listings, the admin
    lists and statistics, and routes/auth.js, which is not among the
    sources, are not modelled. *)

From stdpp Require Import gmap strings list fin_maps.
From stdpp Require Import sorting.

Open Scope string_scope.

Abbreviation oid := positive.
Abbreviation Time := nat.

(** A document handle: the [_id] of a stored document and its fields. *)
Record Doc (A : Type) := mkDoc { _id : oid; fields : A }.
Arguments mkDoc {A} _ _.
Arguments _id {A} _.
Arguments fields {A} _.

(** ** Models *)

(** models/User.js (the credential, token and date fields, which no modelled
    handler reads, are left out). *)
Module User.

Inductive Status := active | blocked | banned.

Record Settings := mkSettings {
  allowAnonymousMessages : bool;
  emailNotifications : bool;
}.

Record t := mk {
  email : string;
  username : string;
  firstName : string;
  lastName : string;
  bio : string;
  profilePicture : string;
  isVerified : bool;
  isAdmin : bool;
  status : Status;
  messageLink : string;
  settings : Settings;
}.

Definition set_status (s : Status) (u : t) : t :=
  mk (email u) (username u) (firstName u) (lastName u) (bio u)
     (profilePicture u) (isVerified u) (isAdmin u) s (messageLink u)
     (settings u).

Definition set_settings (s : Settings) (u : t) : t :=
  mk (email u) (username u) (firstName u) (lastName u) (bio u)
     (profilePicture u) (isVerified u) (isAdmin u) (status u) (messageLink u)
     s.

(** [Object.assign(user, value)] of PUT /profile: only the keys present in
    the validated body are overwritten. *)
Definition assign_profile (fn ln b pic : option string) (u : t) : t :=
  mk (email u) (username u) (default (firstName u) fn)
     (default (lastName u) ln) (default (bio u) b)
     (default (profilePicture u) pic) (isVerified u) (isAdmin u) (status u)
     (messageLink u) (settings u).

Definition is_active (u : t) : bool :=
  match status u with active => true | _ => false end.

(** The [enum] of the [status] path, as the request carries it. *)
Definition parse_status (s : string) : option Status :=
  if String.eqb s "active" then Some active
  else if String.eqb s "blocked" then Some blocked
  else if String.eqb s "banned" then Some banned
  else None.

End User.

(** models/Message.js. [reply] is a nested path, present on every message:
    its [content] and [createdAt] are unset and its [isPublic] is [false]
    until the recipient replies. *)
Module Message.

Record Reply := mkReply {
  reply_content : option string;
  reply_isPublic : bool;
  reply_createdAt : option Time;
}.

Definition no_reply : Reply := mkReply None false None.

Record t := mk {
  recipient : oid;
  sender : option oid;
  content : string;
  image : option string;
  isAnonymous : bool;
  isRead : bool;
  reply : Reply;
  createdAt : Time;
}.

Definition set_isRead (b : bool) (m : t) : t :=
  mk (recipient m) (sender m) (content m) (image m) (isAnonymous m) b
     (reply m) (createdAt m).

Definition set_reply (r : Reply) (m : t) : t :=
  mk (recipient m) (sender m) (content m) (image m) (isAnonymous m)
     (isRead m) r (createdAt m).

Definition set_sender (s : option oid) (m : t) : t :=
  mk (recipient m) s (content m) (image m) (isAnonymous m)
     (isRead m) (reply m) (createdAt m).

(** [message.reply && message.reply.content]: a non-empty string. *)
Definition has_reply (m : t) : bool :=
  match reply_content (reply m) with
  | Some s => negb (String.eqb s "")
  | None => false
  end.

End Message.

(** models/Report.js. *)
Module Report.

Inductive Status := pending | reviewed | resolved | dismissed.

Inductive Type_ := spam | harassment | inappropriate_content | fake_account | other.

Record t := mk {
  reporter : oid;
  reportedUser : option oid;
  reportedMessage : option oid;
  type : Type_;
  description : string;
  screenshot : option string;
  status : Status;
  adminNotes : option string;
  reviewedBy : option oid;
  reviewedAt : option Time;
  createdAt : Time;
}.

(** The four assignments of the review handler. *)
Definition set_review (s : Status) (notes : option string) (by_ : oid)
    (at_ : Time) (r : t) : t :=
  mk (reporter r) (reportedUser r) (reportedMessage r) (type r)
     (description r) (screenshot r) s notes (Some by_) (Some at_)
     (createdAt r).

Definition parse_type (s : string) : option Type_ :=
  if String.eqb s "spam" then Some spam
  else if String.eqb s "harassment" then Some harassment
  else if String.eqb s "inappropriate_content" then Some inappropriate_content
  else if String.eqb s "fake_account" then Some fake_account
  else if String.eqb s "other" then Some other
  else None.

(** [["reviewed", "resolved", "dismissed"].includes(status)]. *)
Definition parse_review_status (s : string) : option Status :=
  if String.eqb s "reviewed" then Some reviewed
  else if String.eqb s "resolved" then Some resolved
  else if String.eqb s "dismissed" then Some dismissed
  else None.

Definition is_terminal (s : Status) : bool :=
  match s with pending => false | _ => true end.

End Report.

(** utils/emailService.js: what [sendEmail] hands to the transporter. The
    subject and bodies are produced by a template; the template chosen and
    its arguments are recorded. *)
Module Email.

Inductive Template :=
  | Verification (username token : string)
  | PasswordReset (username code : string)
  | NewMessageNotification (recipientName senderName : string) (isAnonymous : bool).

Record t := mk { to : string; template : Template }.

End Email.

(** The e-mail service object. The constructor sets [this.transporter] to
    [null] and calls [init], which assigns it the result of
    [nodemailer.createTransporter(...)]. nodemailer is not among the
    sources, so whether that call yields a transporter is left open: the
    service is a parameter wherever it is used, with or without a
    transporter. A transporter is its [sendMail]: for a given mail the
    promise resolves ([true]) or rejects ([false]). *)
Record EmailService := mkEmailService {
  transporter : option (Email.t → bool);
}.

(** ** The store *)

Record World := mkWorld {
  users : gmap oid User.t;
  follows : gset (oid * oid);               (* (follower, following) *)
  blocks : gmap (oid * oid) (option string); (* (blocker, blocked) ↦ reason *)
  messages : gmap oid Message.t;
  reports : gmap oid Report.t;
  outbox : list Email.t;                     (* mails a transporter has accepted *)
}.

Definition with_users (f : gmap oid User.t → gmap oid User.t) (w : World) : World :=
  mkWorld (f (users w)) (follows w) (blocks w) (messages w) (reports w) (outbox w).

Definition with_follows (f : gset (oid * oid) → gset (oid * oid)) (w : World) : World :=
  mkWorld (users w) (f (follows w)) (blocks w) (messages w) (reports w) (outbox w).

Definition with_blocks
    (f : gmap (oid * oid) (option string) → gmap (oid * oid) (option string))
    (w : World) : World :=
  mkWorld (users w) (follows w) (f (blocks w)) (messages w) (reports w) (outbox w).

Definition with_messages (f : gmap oid Message.t → gmap oid Message.t) (w : World) : World :=
  mkWorld (users w) (follows w) (blocks w) (f (messages w)) (reports w) (outbox w).

Definition with_reports (f : gmap oid Report.t → gmap oid Report.t) (w : World) : World :=
  mkWorld (users w) (follows w) (blocks w) (messages w) (f (reports w)) (outbox w).

Definition with_outbox (f : list Email.t → list Email.t) (w : World) : World :=
  mkWorld (users w) (follows w) (blocks w) (messages w) (reports w) (f (outbox w)).

(** ** HTTP responses *)

(** [error.details[0].message] of a failed Joi validation: the failing key
    and rule, from which Joi renders its text. *)
Inductive JoiError :=
  | string_empty (key : string)
  | string_min (key : string) (limit : nat)
  | string_max (key : string) (limit : nat).

Inductive Msg := NoMsg | Text (s : string) | Detail (e : JoiError).

(** The fields selected by [populate("sender", "username firstName lastName
    profilePicture")]. *)
Record SenderInfo := mkSenderInfo {
  si_id : oid;
  si_username : string;
  si_firstName : string;
  si_lastName : string;
  si_profilePicture : string;
}.

(** One element of [formattedMessages] in GET /inbox. *)
Record InboxItem := mkInboxItem {
  ii_id : oid;
  ii_content : string;
  ii_image : option string;
  ii_isAnonymous : bool;
  ii_isRead : bool;
  ii_sender : option SenderInfo;
  ii_reply : Message.Reply;
  ii_createdAt : Time;
}.

Record Pagination := mkPagination { current : nat; total : nat; count : nat }.

(** [UserSchema.methods.getPublicProfile] (without [createdAt]). *)
Record PublicProfile := mkPublicProfile {
  pp_id : oid;
  pp_username : string;
  pp_firstName : string;
  pp_lastName : string;
  pp_bio : string;
  pp_profilePicture : string;
  pp_messageLink : string;
}.

Inductive Payload :=
  | NoData
  | SendData (messageId : oid) (isAnonymous : bool)
  | InboxData (msgs : list InboxItem) (unreadCount : nat) (pagination : Pagination)
  | ReplyData (reply : Message.Reply)
  | ProfileData (user : PublicProfile) (followersCount followingCount : nat)
      (isFollowing canSendMessage : bool)
  | UserData (user : PublicProfile)
  | SettingsData (s : User.Settings)
  | StatusData (userId : oid) (previousStatus newStatus : User.Status)
      (reason : option string)
  | ReviewData (report : Doc Report.t).

Record Response := mkRes {
  code : nat;
  success : bool;
  message : Msg;
  data : Payload;
}.

(** [res.status(c).json({ success: false, message: m })] *)
Definition failure (c : nat) (m : string) : Response := mkRes c false (Text m) NoData.

(** [res.json({ success: true, message: m })] and its variants with data. *)
Definition ok (m : string) : Response := mkRes 200 true (Text m) NoData.
Definition ok_with (m : string) (d : Payload) : Response := mkRes 200 true (Text m) d.
Definition ok_data (d : Payload) : Response := mkRes 200 true NoMsg d.

(** The error taxonomy of the design document, by HTTP status. *)
Inductive ErrorKind :=
  ValidationError | Unauthorized | Forbidden | NotFound | Conflict | Internal.

Definition kind_of_code (c : nat) : option ErrorKind :=
  match c with
  | 400 => Some ValidationError
  | 401 => Some Unauthorized
  | 403 => Some Forbidden
  | 404 => Some NotFound
  | 409 => Some Conflict
  | 500 => Some Internal
  | _ => None
  end.

Definition fails_with (k : ErrorKind) (r : Response) : Prop :=
  success r = false ∧ kind_of_code (code r) = Some k.

(** ** Handler bodies *)

(** The body of a handler either goes on with a value, has sent its
    response ([return res...json(..)]), or has thrown. *)
Inductive Outcome (A : Type) :=
  | Val (a : A)
  | Sent (r : Response)
  | Thrown.
Arguments Val {A} _.
Arguments Sent {A} _.
Arguments Thrown {A}.

Definition Handler (A : Type) : Type := World → Outcome A * World.

#[global] Instance handler_ret : MRet Handler := λ A a w, (Val a, w).

#[global] Instance handler_bind : MBind Handler := λ A B f m w,
  match m w with
  | (Val a, w') => f a w'
  | (Sent r, w') => (Sent r, w')
  | (Thrown, w') => (Thrown, w')
  end.

Definition send {A} (r : Response) : Handler A := λ w, (Sent r, w).
Definition throw {A} : Handler A := λ w, (Thrown, w).
Definition gets {A} (f : World → A) : Handler A := λ w, (Val (f w), w).
Definition modify (f : World → World) : Handler unit := λ w, (Val tt, f w).

(** [if (c) return res...json(r)] *)
Definition reject_if (c : bool) (r : Response) : Handler unit :=
  if c then send r else mret tt.

(** [const x = await q; if (!x) return res...json(r)] *)
Definition found {A} (q : World → option A) (r : Response) : Handler A := λ w,
  match q w with Some a => (Val a, w) | None => (Sent r, w) end.

(** [const x = await q] where a missing document makes the next property
    access throw a [TypeError]. *)
Definition must {A} (q : World → option A) : Handler A := λ w,
  match q w with Some a => (Val a, w) | None => (Thrown, w) end.

(** [try { body } catch (error) { res.status(500).json({success: false,
    message: m}) }]: the body ends by sending its response. *)
Definition try_catch (body : Handler Response) (m : string) (w : World)
    : Response * World :=
  match body w with
  | (Val r, w') => (r, w')
  | (Sent r, w') => (r, w')
  | (Thrown, w') => (failure 500 m, w')
  end.

(** ** middleware/auth.js *)

(** What [jwt.verify] makes of the bearer token: the signed payload with
    its [userId], a [TokenExpiredError], or any other error. *)
Inductive Token := Signed (userId : oid) | ExpiredToken | InvalidToken.

(** The [Authorization] header is [None] when it is missing or carries no
    token after the scheme. *)
Definition authenticateToken (hdr : option Token) (w : World)
    : Response + Doc User.t :=
  match hdr with
  | None => inl (failure 401 "Access token required")
  | Some (Signed userId) =>
      match users w !! userId with
      | None => inl (failure 401 "Invalid token - user not found")
      | Some user =>
          if User.is_active user then inr (mkDoc userId user)
          else inl (failure 403 "Account is blocked or banned")
      end
  | Some ExpiredToken => inl (failure 401 "Token expired")
  | Some InvalidToken => inl (failure 401 "Invalid token")
  end.

Definition requireAdmin (user : Doc User.t) : option Response :=
  if User.isAdmin (fields user) then None
  else Some (failure 403 "Admin access required").

(** [req.user] after [optionalAuth]: set only for a valid token of an
    active user; every error is ignored. *)
Definition optionalAuth (hdr : option Token) (w : World) : option (Doc User.t) :=
  match hdr with
  | Some (Signed userId) =>
      match users w !! userId with
      | Some user => if User.is_active user then Some (mkDoc userId user) else None
      | None => None
      end
  | _ => None
  end.

Definition Route : Type := World → Response * World.

(** [router.verb(path, authenticateToken, handler)] *)
Definition authenticated (hdr : option Token) (h : Doc User.t → Route) : Route := λ w,
  match authenticateToken hdr w with
  | inl r => (r, w)
  | inr user => h user w
  end.

(** [router.use(authenticateToken, requireAdmin)] of routes/admin.js *)
Definition admin_only (hdr : option Token) (h : Doc User.t → Route) : Route :=
  authenticated hdr (λ user w,
    match requireAdmin user with
    | Some r => (r, w)
    | None => h user w
    end).

(** [router.verb(path, optionalAuth, handler)] *)
Definition optionally_authenticated (hdr : option Token)
    (h : option (Doc User.t) → Route) : Route := λ w,
  h (optionalAuth hdr w) w.

(** ** Queries and saves *)

Definition User_findById (userId : oid) (w : World) : option (Doc User.t) :=
  mkDoc userId <$> users w !! userId.

(** [User.findOne({ _id: userId, status: "active" })] *)
Definition User_findOne_active (userId : oid) (w : World) : option (Doc User.t) :=
  match users w !! userId with
  | Some u => if User.is_active u then Some (mkDoc userId u) else None
  | None => None
  end.

(** [User.findOne({ $or: [{ username: identifier }, { messageLink:
    identifier }], status: "active" })] *)
Definition User_findOne_identifier (identifier : string) (w : World)
    : option (Doc User.t) :=
  (λ p, mkDoc p.1 p.2) <$>
  List.find (λ p, (String.eqb (User.username p.2) identifier
                   || String.eqb (User.messageLink p.2) identifier)
                  && User.is_active p.2)
            (map_to_list (users w)).

(** [Follow.findOne({ follower, following })], as a truth value. *)
Definition Follow_findOne (follower following : oid) (w : World) : bool :=
  bool_decide ((follower, following) ∈ follows w).

(** [Block.findOne({ blocker, blocked })], as a truth value. *)
Definition Block_findOne (blocker blocked : oid) (w : World) : bool :=
  bool_decide (is_Some (blocks w !! (blocker, blocked))).

(** [Block.findOne({ $or: [{ blocker: a, blocked: b }, { blocker: b,
    blocked: a }] })], as a truth value. *)
Definition Block_findOne_either (a b : oid) (w : World) : bool :=
  Block_findOne a b w || Block_findOne b a w.

(** [follow.save()]: the pre-save hook refuses a self-follow and the unique
    index a duplicate pair; both make [save] throw. *)
Definition Follow_save (follower following : oid) : Handler unit := λ w,
  if bool_decide (follower = following) then (Thrown, w)
  else if Follow_findOne follower following w then (Thrown, w)
  else (Val tt, with_follows (λ s, {[ (follower, following) ]} ∪ s) w).

(** [block.save()]: [reason] has [maxlength: 200]; the pre-save hook refuses
    a self-block and the unique index a duplicate pair. *)
Definition Block_save (blocker blocked : oid) (reason : option string)
    : Handler unit := λ w,
  if bool_decide (200 < String.length (default "" reason)) then (Thrown, w)
  else if bool_decide (blocker = blocked) then (Thrown, w)
  else if Block_findOne blocker blocked w then (Thrown, w)
  else (Val tt, with_blocks (λ m, <[ (blocker, blocked) := reason ]> m) w).

(** [Follow.deleteMany({ $or: [{ follower: a, following: b }, { follower: b,
    following: a }] })] *)
Definition Follow_deleteMany_between (a b : oid) : Handler unit :=
  modify (with_follows (λ s, s ∖ {[ (a, b); (b, a) ]})).

Definition getPublicProfile (user : Doc User.t) : PublicProfile :=
  let u := fields user in
  mkPublicProfile (_id user) (User.username u) (User.firstName u)
    (User.lastName u) (User.bio u) (User.profilePicture u) (User.messageLink u).

(** [sendEmail], with the [success] of its result. Without a transporter it
    returns before anything is handed over ("Email service not configured");
    a rejection of [sendMail] is caught and reported in the result. *)
Definition EmailService_sendEmail (this : EmailService) (mail : Email.t)
    : World → bool * World := λ w,
  match transporter this with
  | None => (false, w)
  | Some sendMail =>
      if sendMail mail then (true, with_outbox (λ o, (o ++ [mail])%list) w)
      else (false, w)
  end.

Definition sendNewMessageNotification (this : EmailService)
    (email recipientName senderName : string) (isAnonymous : bool)
    : World → bool * World :=
  EmailService_sendEmail this
    (Email.mk email (Email.NewMessageNotification recipientName senderName isAnonymous)).

(** ** routes/users.js *)

(** Joi: an optional string key with a minimum and a maximum length; the
    empty string is refused unless allowed. *)
Definition joi_string (key : string) (allow_empty : bool) (min : nat)
    (max : option nat) (v : option string) : option JoiError :=
  match v with
  | None => None
  | Some s =>
      if String.eqb s "" then
        (if allow_empty then None else Some (string_empty key))
      else if bool_decide (String.length s < min) then Some (string_min key min)
      else match max with
           | Some hi =>
               if bool_decide (hi < String.length s)
               then Some (string_max key hi) else None
           | None => None
           end
  end.

Record ProfileBody := mkProfileBody {
  pb_firstName : option string;
  pb_lastName : option string;
  pb_bio : option string;
  pb_profilePicture : option string;
}.

(** [updateProfileSchema.validate(req.body)]: the first failing key. *)
Definition updateProfileSchema (b : ProfileBody) : option JoiError :=
  match joi_string "firstName" false 1 (Some 50) (pb_firstName b) with
  | Some e => Some e
  | None =>
  match joi_string "lastName" false 1 (Some 50) (pb_lastName b) with
  | Some e => Some e
  | None =>
  match joi_string "bio" true 0 (Some 200) (pb_bio b) with
  | Some e => Some e
  | None => joi_string "profilePicture" true 0 None (pb_profilePicture b)
  end end end.

(** [if (error) return res.status(400).json({ success: false, message:
    error.details[0].message })] *)
Definition reject_invalid (e : option JoiError) : Handler unit :=
  match e with
  | Some d => send (mkRes 400 false (Detail d) NoData)
  | None => mret tt
  end.

Definition put_users_profile (req_user : Doc User.t) (body : ProfileBody) : Route :=
  try_catch (
    reject_invalid (updateProfileSchema body);;
    user ← must (User_findById (_id req_user));
    let user' := User.assign_profile (pb_firstName body) (pb_lastName body)
                   (pb_bio body) (pb_profilePicture body) (fields user) in
    modify (with_users (λ m, <[ _id user := user' ]> m));;
    mret (ok_with "Profile updated successfully"
            (UserData (getPublicProfile (mkDoc (_id user) user'))))
  ) "Profile update failed".

(** The two body keys of PUT /settings count only when they are booleans. *)
Definition put_users_settings (req_user : Doc User.t)
    (allowAnonymousMessages emailNotifications : option bool) : Route :=
  try_catch (
    user ← must (User_findById (_id req_user));
    let s := User.settings (fields user) in
    let s' := User.mkSettings
                (default (User.allowAnonymousMessages s) allowAnonymousMessages)
                (default (User.emailNotifications s) emailNotifications) in
    modify (with_users (λ m, <[ _id user := User.set_settings s' (fields user) ]> m));;
    mret (ok_with "Settings updated successfully" (SettingsData s'))
  ) "Settings update failed".

(** GET /users/:identifier *)
Definition get_users_identifier (req_user : option (Doc User.t))
    (identifier : string) : Route :=
  try_catch (
    user ← found (User_findOne_identifier identifier) (failure 404 "User not found");
    (* Check if current user is blocked by this user *)
    match req_user with
    | Some viewer =>
        isBlocked ← gets (Block_findOne (_id user) (_id viewer));
        reject_if isBlocked (failure 403 "You are blocked by this user")
    | None => mret tt
    end;;
    followersCount ← gets (λ w, size (filter (λ p, p.2 = _id user) (follows w)));
    followingCount ← gets (λ w, size (filter (λ p, p.1 = _id user) (follows w)));
    isFollowing ← match req_user with
                  | Some viewer => gets (Follow_findOne (_id viewer) (_id user))
                  | None => mret false
                  end;
    mret (ok_data (ProfileData (getPublicProfile user) followersCount
                     followingCount isFollowing
                     (User.allowAnonymousMessages (User.settings (fields user))
                      || bool_decide (is_Some req_user))))
  ) "Failed to fetch user".

(** POST /users/:userId/follow *)
Definition post_users_follow (req_user : Doc User.t) (userId : oid) : Route :=
  try_catch (
    reject_if (bool_decide (userId = _id req_user))
      (failure 400 "Cannot follow yourself");;
    (* Check if user exists and is active *)
    userToFollow ← found (User_findOne_active userId) (failure 404 "User not found");
    (* Check if already following *)
    existingFollow ← gets (Follow_findOne (_id req_user) userId);
    reject_if existingFollow (failure 400 "Already following this user");;
    (* Check if blocked *)
    isBlocked ← gets (Block_findOne_either (_id req_user) userId);
    reject_if isBlocked (failure 403 "Cannot follow this user");;
    Follow_save (_id req_user) userId;;
    mret (ok "Successfully followed user")
  ) "Failed to follow user".

(** DELETE /users/:userId/unfollow *)
Definition delete_users_unfollow (req_user : Doc User.t) (userId : oid) : Route :=
  try_catch (
    result ← gets (Follow_findOne (_id req_user) userId);
    modify (with_follows (λ s, s ∖ {[ (_id req_user, userId) ]}));;
    reject_if (negb result) (failure 400 "Not following this user");;
    mret (ok "Successfully unfollowed user")
  ) "Failed to unfollow user".

(** POST /users/:userId/block *)
Definition post_users_block (req_user : Doc User.t) (userId : oid)
    (reason : option string) : Route :=
  try_catch (
    reject_if (bool_decide (userId = _id req_user))
      (failure 400 "Cannot block yourself");;
    (* Check if user exists *)
    userToBlock ← found (User_findById userId) (failure 404 "User not found");
    (* Check if already blocked *)
    existingBlock ← gets (Block_findOne (_id req_user) userId);
    reject_if existingBlock (failure 400 "User already blocked");;
    Block_save (_id req_user) userId reason;;
    (* Remove follow relationships *)
    Follow_deleteMany_between (_id req_user) userId;;
    mret (ok "User blocked successfully")
  ) "Failed to block user".

(** DELETE /users/:userId/unblock *)
Definition delete_users_unblock (req_user : Doc User.t) (userId : oid) : Route :=
  try_catch (
    result ← gets (Block_findOne (_id req_user) userId);
    modify (with_blocks (λ m, delete (_id req_user, userId) m));;
    reject_if (negb result) (failure 400 "User not blocked");;
    mret (ok "User unblocked successfully")
  ) "Failed to unblock user".

(** ** routes/messages.js *)

Record SendBody := mkSendBody {
  sb_recipientId : oid;
  sb_content : string;
  sb_image : option string;
  sb_isAnonymous : option bool;   (* [Joi.boolean().default(true)] *)
}.

(** [sendMessageSchema.validate(req.body)] on a body whose keys have the
    right types: only the length rule of [content] can fail. *)
Definition sendMessageSchema (b : SendBody) : option JoiError :=
  joi_string "content" false 1 (Some 500) (Some (sb_content b)).

Definition replyMessageSchema (content : string) : option JoiError :=
  joi_string "content" false 1 (Some 500) (Some content).

(** [message.save()] of a new message: [content] is required and has
    [maxlength: 500]; the driver draws an [_id] not in the collection. *)
Definition Message_save (m : Message.t) : Handler oid := λ w,
  if String.eqb (Message.content m) ""
     || bool_decide (500 < String.length (Message.content m))
  then (Thrown, w)
  else let id := fresh (dom (messages w)) in
       (Val id, with_messages (λ ms, <[ id := m ]> ms) w).

(** [Message.findOne({ _id: messageId, recipient })] *)
Definition Message_findOne_owned (messageId recipient : oid) (w : World)
    : option (Doc Message.t) :=
  match messages w !! messageId with
  | Some m =>
      if bool_decide (Message.recipient m = recipient)
      then Some (mkDoc messageId m) else None
  | None => None
  end.

Definition Message_findById (messageId : oid) (w : World) : option (Doc Message.t) :=
  mkDoc messageId <$> messages w !! messageId.

(** [message.save()] of a loaded message. *)
Definition Message_update (m : Doc Message.t) : Handler unit :=
  modify (with_messages (λ ms, <[ _id m := fields m ]> ms)).

(** POST /messages/send *)
Definition post_messages_send (req_user : option (Doc User.t)) (body : SendBody)
    (now : Time) : Route :=
  try_catch (
    reject_invalid (sendMessageSchema body);;
    let recipientId := sb_recipientId body in
    let isAnonymous := default true (sb_isAnonymous body) in
    (* Find recipient *)
    recipient ← found (User_findOne_active recipientId)
                  (failure 404 "Recipient not found");
    (* Check if anonymous messages are allowed *)
    reject_if
      (isAnonymous
       && negb (User.allowAnonymousMessages (User.settings (fields recipient))))
      (failure 403 "This user doesn't accept anonymous messages");;
    (* Check if users are blocked (only if sender is authenticated) *)
    match req_user with
    | Some user =>
        isBlocked ← gets (Block_findOne_either (_id user) recipientId);
        reject_if isBlocked (failure 403 "Cannot send message to this user");;
        (* Don't allow sending to self *)
        reject_if (bool_decide (_id user = recipientId))
          (failure 400 "Cannot send message to yourself")
    | None => mret tt
    end;;
    (* Create message *)
    let message :=
      Message.mk recipientId
        (match req_user with
         | Some user => if isAnonymous then None else Some (_id user)
         | None => None
         end)
        (sb_content body) (sb_image body) isAnonymous false Message.no_reply now in
    messageId ← Message_save message;
    mret (mkRes 201 true (Text "Message sent successfully")
            (SendData messageId (Message.isAnonymous message)))
  ) "Failed to send message".

(** [.sort({ createdAt: -1 })]: newest first. *)
Fixpoint insert_desc (x : oid * Message.t) (l : list (oid * Message.t))
    : list (oid * Message.t) :=
  match l with
  | [] => [x]
  | y :: l' =>
      if bool_decide (Message.createdAt y.2 ≤ Message.createdAt x.2)%nat
      then x :: l else y :: insert_desc x l'
  end.

Definition sort_createdAt_desc (l : list (oid * Message.t)) : list (oid * Message.t) :=
  foldr insert_desc [] l.

(** [parseInt(req.query.x) || d]: [None] is [NaN]; [NaN] and [0] give [d].
    Negative numbers are not modelled. *)
Definition or_default (v : option nat) (d : nat) : nat :=
  match v with
  | Some (S n) => S n
  | _ => d
  end.

(** [Math.ceil(total / limit)] for [limit ≥ 1]. *)
Definition ceil_div (total limit : nat) : nat := (total + (limit - 1)) / limit.

(** A message after [.populate("sender", ...)]: the reference is replaced by
    the selected fields of the user, or by [null] if there is none. *)
Definition populate_sender (w : World) (d : oid * Message.t)
    : oid * Message.t * option SenderInfo :=
  (d, Message.sender d.2 ≫= λ s,
        (λ u, mkSenderInfo s (User.username u) (User.firstName u)
                (User.lastName u) (User.profilePicture u)) <$> users w !! s).

(** The callback of [messages.map(...)] in GET /inbox: format messages to
    hide sender info for anonymous messages. *)
Definition formattedMessage (p : oid * Message.t * option SenderInfo) : InboxItem :=
  let '((id, message), sender) := p in
  mkInboxItem id (Message.content message) (Message.image message)
    (Message.isAnonymous message) (Message.isRead message)
    (if Message.isAnonymous message then None else sender)
    (Message.reply message) (Message.createdAt message).

(** GET /messages/inbox *)
Definition get_messages_inbox (req_user : Doc User.t) (page limit : option nat)
    : Route :=
  try_catch (
    let page := or_default page 1 in
    let limit := or_default limit 20 in
    let skip := (page - 1) * limit in
    mine ← gets (λ w, filter (λ p, Message.recipient p.2 = _id req_user)
                        (map_to_list (messages w)));
    messages ← gets (λ w, populate_sender w <$>
                            take limit (drop skip (sort_createdAt_desc mine)));
    let total := length mine in
    let unreadCount :=
      length (filter (λ p, Message.isRead p.2 = false) mine) in
    let formattedMessages := formattedMessage <$> messages in
    mret (ok_data (InboxData formattedMessages unreadCount
                     (mkPagination page (ceil_div total limit) (length messages))))
  ) "Failed to fetch messages".

(** PUT /messages/:messageId/read *)
Definition put_messages_read (req_user : Doc User.t) (messageId : oid) : Route :=
  try_catch (
    message ← found (Message_findOne_owned messageId (_id req_user))
                (failure 404 "Message not found");
    Message_update (mkDoc (_id message) (Message.set_isRead true (fields message)));;
    mret (ok "Message marked as read")
  ) "Failed to mark message as read".

(** POST /messages/:messageId/reply *)
Definition post_messages_reply (req_user : Doc User.t) (messageId : oid)
    (content : string) (isPublic : option bool) (now : Time) : Route :=
  try_catch (
    reject_invalid (replyMessageSchema content);;
    let isPublic := default false isPublic in
    message ← found (Message_findOne_owned messageId (_id req_user))
                (failure 404 "Message not found");
    reject_if (Message.has_reply (fields message))
      (failure 400 "Message already has a reply");;
    let reply := Message.mkReply (Some content) isPublic (Some now) in
    Message_update
      (mkDoc (_id message)
         (Message.set_isRead true (Message.set_reply reply (fields message))));;
    mret (ok_with "Reply sent successfully" (ReplyData reply))
  ) "Failed to send reply".

(** DELETE /messages/:messageId *)
Definition delete_messages (req_user : Doc User.t) (messageId : oid) : Route :=
  try_catch (
    message ← found (Message_findOne_owned messageId (_id req_user))
                (failure 404 "Message not found");
    modify (with_messages (λ ms, delete messageId ms));;
    mret (ok "Message deleted successfully")
  ) "Failed to delete message".

(** [Report.findOne({ reporter, reportedMessage })], as a truth value. *)
Definition Report_findOne (reporter reportedMessage : oid) (w : World) : bool :=
  bool_decide (map_Exists (λ _ r, Report.reporter r = reporter
                                  ∧ Report.reportedMessage r = Some reportedMessage)
                 (reports w)).

(** [report.save()] of a new report: [type] must be in the enum and
    [description] has [maxlength: 500]. *)
Definition Report_save (reporter : oid) (reportedMessage reportedUser : option oid)
    (type description : string) (screenshot : option string) (now : Time)
    : Handler oid := λ w,
  match Report.parse_type type with
  | None => (Thrown, w)
  | Some ty =>
      if bool_decide (500 < String.length description) then (Thrown, w)
      else
        let id := fresh (dom (reports w)) in
        let r := Report.mk reporter reportedUser reportedMessage ty description
                   screenshot Report.pending None None None now in
        (Val id, with_reports (λ rs, <[ id := r ]> rs) w)
  end.

(** [!x] for a body key that is absent or a string. *)
Definition falsy (v : option string) : bool :=
  match v with
  | Some s => String.eqb s ""
  | None => true
  end.

(** POST /messages/:messageId/report *)
Definition post_messages_report (req_user : Doc User.t) (messageId : oid)
    (type description screenshot : option string) (now : Time) : Route :=
  try_catch (
    reject_if (falsy type || falsy description)
      (failure 400 "Type and description are required");;
    message ← found (Message_findById messageId) (failure 404 "Message not found");
    (* Check if already reported by this user *)
    existingReport ← gets (Report_findOne (_id req_user) (_id message));
    reject_if existingReport (failure 400 "Message already reported");;
    Report_save (_id req_user) (Some (_id message)) (Message.sender (fields message))
      (default "" type) (default "" description) screenshot now;;
    mret (ok "Report submitted successfully")
  ) "Failed to submit report".

(** ** routes/admin.js

    Every handler of this router runs behind [authenticateToken] and
    [requireAdmin] (see [admin_only]). *)

(** PUT /admin/users/:userId/status *)
Definition put_admin_users_status (req_user : Doc User.t) (userId : oid)
    (status : string) (reason : option string) : Route :=
  try_catch (
    status' ← found (λ _, User.parse_status status)
                (failure 400 "Invalid status. Must be 'active', 'blocked', or 'banned'");
    user ← found (User_findById userId) (failure 404 "User not found");
    (* Prevent admin from changing their own status *)
    reject_if (bool_decide (_id user = _id req_user))
      (failure 400 "Cannot change your own status");;
    (* Prevent changing status of other admins *)
    reject_if (User.isAdmin (fields user) && negb (User.isAdmin (fields req_user)))
      (failure 403 "Cannot change status of admin users");;
    let previousStatus := User.status (fields user) in
    modify (with_users (λ m, <[ _id user := User.set_status status' (fields user) ]> m));;
    mret (ok_with ("User status updated to " +:+ status)
            (StatusData (_id user) previousStatus status' reason))
  ) "Failed to update user status".

Definition Report_findById (reportId : oid) (w : World) : option (Doc Report.t) :=
  mkDoc reportId <$> reports w !! reportId.

(** [report.save()] of a loaded report: [adminNotes] has [maxlength: 500]. *)
Definition Report_update (r : Doc Report.t) : Handler unit := λ w,
  if bool_decide (500 < String.length (default "" (Report.adminNotes (fields r))))
  then (Thrown, w)
  else (Val tt, with_reports (λ rs, <[ _id r := fields r ]> rs) w).

(** [User.findByIdAndUpdate(id, { status })]: nothing happens when the user
    does not exist. *)
Definition User_findByIdAndUpdate_status (userId : oid) (s : User.Status)
    : Handler unit :=
  modify (with_users (λ m, alter (User.set_status s) userId m)).

(** The [switch (action.type)] of the review handler, on its report. *)
Definition take_action (type : string) (report : Report.t) : Handler unit :=
  if String.eqb type "delete_message" then
    match Report.reportedMessage report with
    | Some messageId => modify (with_messages (λ ms, delete messageId ms))
    | None => mret tt
    end
  else if String.eqb type "block_user" then
    match Report.reportedUser report with
    | Some userId => User_findByIdAndUpdate_status userId User.blocked
    | None => mret tt
    end
  else if String.eqb type "ban_user" then
    match Report.reportedUser report with
    | Some userId => User_findByIdAndUpdate_status userId User.banned
    | None => mret tt
    end
  else mret tt.

(** PUT /admin/reports/:reportId/review. [action] is [action.type] when the
    body has an [action] with a non-empty [type]. *)
Definition put_admin_reports_review (req_user : Doc User.t) (reportId : oid)
    (status : string) (adminNotes : option string) (action : option string)
    (now : Time) : Route :=
  try_catch (
    status' ← found (λ _, Report.parse_review_status status)
                (failure 400 "Invalid status. Must be 'reviewed', 'resolved', or 'dismissed'");
    report ← found (Report_findById reportId) (failure 404 "Report not found");
    (* Update report *)
    let report' :=
      mkDoc (_id report)
        (Report.set_review status' adminNotes (_id req_user) now (fields report)) in
    Report_update report';;
    (* Take action if specified *)
    (if falsy action then mret tt
     else take_action (default "" action) (fields report'));;
    mret (ok_with "Report reviewed successfully" (ReviewData report'))
  ) "Failed to review report".

(** DELETE /admin/messages/:messageId *)
Definition delete_admin_messages (req_user : Doc User.t) (messageId : oid) : Route :=
  try_catch (
    message ← found (Message_findById messageId) (failure 404 "Message not found");
    modify (with_messages (λ ms, delete messageId ms));;
    mret (ok "Message deleted successfully")
  ) "Failed to delete message".

(** ** The API: one request at a time

    The state-changing routes above (and the two reads the properties speak
    of), each behind the middleware its router mounts. *)
Inductive Request :=
  | PutProfile (hdr : option Token) (body : ProfileBody)
  | PutSettings (hdr : option Token) (allowAnonymousMessages emailNotifications : option bool)
  | GetUser (hdr : option Token) (identifier : string)
  | PostFollow (hdr : option Token) (userId : oid)
  | DeleteUnfollow (hdr : option Token) (userId : oid)
  | PostBlock (hdr : option Token) (userId : oid) (reason : option string)
  | DeleteUnblock (hdr : option Token) (userId : oid)
  | PostSend (hdr : option Token) (body : SendBody) (now : Time)
  | GetInbox (hdr : option Token) (page limit : option nat)
  | PutRead (hdr : option Token) (messageId : oid)
  | PostReply (hdr : option Token) (messageId : oid) (content : string)
      (isPublic : option bool) (now : Time)
  | DeleteMessage (hdr : option Token) (messageId : oid)
  | PostReport (hdr : option Token) (messageId : oid)
      (type description screenshot : option string) (now : Time)
  | PutUserStatus (hdr : option Token) (userId : oid) (status : string)
      (reason : option string)
  | PutReportReview (hdr : option Token) (reportId : oid) (status : string)
      (adminNotes action : option string) (now : Time)
  | AdminDeleteMessage (hdr : option Token) (messageId : oid).

Definition serve (req : Request) : Route :=
  match req with
  | PutProfile hdr body => authenticated hdr (λ u, put_users_profile u body)
  | PutSettings hdr a e => authenticated hdr (λ u, put_users_settings u a e)
  | GetUser hdr identifier =>
      optionally_authenticated hdr (λ u, get_users_identifier u identifier)
  | PostFollow hdr userId => authenticated hdr (λ u, post_users_follow u userId)
  | DeleteUnfollow hdr userId => authenticated hdr (λ u, delete_users_unfollow u userId)
  | PostBlock hdr userId reason =>
      authenticated hdr (λ u, post_users_block u userId reason)
  | DeleteUnblock hdr userId => authenticated hdr (λ u, delete_users_unblock u userId)
  | PostSend hdr body now =>
      optionally_authenticated hdr (λ u, post_messages_send u body now)
  | GetInbox hdr page limit => authenticated hdr (λ u, get_messages_inbox u page limit)
  | PutRead hdr messageId => authenticated hdr (λ u, put_messages_read u messageId)
  | PostReply hdr messageId content isPublic now =>
      authenticated hdr (λ u, post_messages_reply u messageId content isPublic now)
  | DeleteMessage hdr messageId => authenticated hdr (λ u, delete_messages u messageId)
  | PostReport hdr messageId type description screenshot now =>
      authenticated hdr
        (λ u, post_messages_report u messageId type description screenshot now)
  | PutUserStatus hdr userId status reason =>
      admin_only hdr (λ u, put_admin_users_status u userId status reason)
  | PutReportReview hdr reportId status adminNotes action now =>
      admin_only hdr
        (λ u, put_admin_reports_review u reportId status adminNotes action now)
  | AdminDeleteMessage hdr messageId =>
      admin_only hdr (λ u, delete_admin_messages u messageId)
  end.

(** The store after a sequence of requests, served in order. *)
Definition serve_all (reqs : list Request) (w : World) : World :=
  foldl (λ w req, (serve req w).2) w reqs.

(** ** Sample data *)

Definition sample_user (name : string) (admin : bool) (s : User.Status)
    (anon notif : bool) : User.t :=
  User.mk (name +:+ "@example.com") name name "User" "" "" true admin s name
    (User.mkSettings anon notif).

Definition alice : User.t := sample_user "alice" false User.active true true.
Definition bob : User.t := sample_user "bob" false User.active true true.
Definition carol : User.t := sample_user "carol" false User.banned true true.
Definition root : User.t := sample_user "root" true User.active true true.
Definition admin2 : User.t := sample_user "admin2" true User.active true true.

(** alice = 1, bob = 2, carol = 3 (banned), root = 4 and admin2 = 5 (admins). *)
Definition sample_users : gmap oid User.t :=
  <[ 1%positive := alice ]> (<[ 2%positive := bob ]> (<[ 3%positive := carol ]>
  (<[ 4%positive := root ]> (<[ 5%positive := admin2 ]> ∅)))).

Definition world0 : World := mkWorld sample_users ∅ ∅ ∅ ∅ [].

(** alice follows bob and sends him a signed message; bob replies in public
    and reports the message; root resolves the report. *)
Definition world1 : World :=
  serve_all
    [ PostFollow (Some (Signed 1)) 2;
      PostSend (Some (Signed 1)) (mkSendBody 2 "hello" None (Some false)) 10;
      PostReply (Some (Signed 2)) 1 "thanks" (Some true) 11;
      PostReport (Some (Signed 2)) 1 (Some "spam") (Some "junk") None 12;
      PutReportReview (Some (Signed 4)) 1 "resolved" (Some "handled") None 13 ]
    world0.

(** The message of [world2]. *)
Definition notice : Message.t :=
  Message.mk 1 (Some 4%positive) "notice" None false false Message.no_reply 20.

(** The report of [world1]. *)
Definition junk_report : Report.t :=
  Report.mk 2 (Some 1%positive) (Some 1%positive) Report.spam "junk" None
    Report.resolved (Some "handled") (Some 4%positive) (Some 13) 12.

(** The report of [world2]. *)
Definition rude_report : Report.t :=
  Report.mk 1 (Some 4%positive) (Some 1%positive) Report.harassment "rude" None
    Report.pending None None None 21.

(** root sends alice a signed message, alice reports it, and alice blocks
    carol, who is banned. *)
Definition world2 : World :=
  serve_all
    [ PostSend (Some (Signed 4)) (mkSendBody 1 "notice" None (Some false)) 20;
      PostReport (Some (Signed 1)) 1 (Some "harassment") (Some "rude") None 21;
      PostBlock (Some (Signed 1)) 3 None ]
    world0.

(** alice has blocked bob. *)
Definition world3 : World :=
  serve_all [ PostBlock (Some (Signed 1)) 2 None ] world0.

(** bob deletes the message of [world1]; his report of it stays. *)
Definition world4 : World :=
  serve_all [ DeleteMessage (Some (Signed 2)) 1 ] world1.

(** A message to bob that is anonymous and stores [s] as its sender, and the
    store that holds just this message. *)
Definition whisper (s : option oid) : Message.t :=
  Message.mk 2 s "psst" None true false Message.no_reply 5.

Definition world5 (s : option oid) : World :=
  mkWorld sample_users ∅ ∅ {[ 1%positive := whisper s ]} ∅ [].

(** ** Vocabulary of the properties *)

(** A handler body preserves [P] when the store it leaves satisfies [P]
    whenever the store it started from did. *)
Definition preserves {A} (P : World → Prop) (h : Handler A) : Prop :=
  ∀ w, P w → P (h w).2.

(** The caller's messages, as [Message.find({ recipient })] returns them. *)
Definition Message_find_recipient (userId : oid) (w : World) : list (oid * Message.t) :=
  filter (λ p, Message.recipient p.2 = userId) (map_to_list (messages w)).

(** The page of messages that GET /messages/inbox formats. *)
Definition inbox_page (userId : oid) (page limit : option nat) (w : World)
    : list (oid * Message.t) :=
  take (or_default limit 20)
    (drop ((or_default page 1 - 1) * or_default limit 20)
       (sort_createdAt_desc (Message_find_recipient userId w))).

(** Two versions of a stored message that agree on every field, except
    that the sender references they store may differ when the message is
    anonymous. *)
Definition differ_in_hidden_sender (m1 m2 : Message.t) : Prop :=
  Message.set_sender None m1 = Message.set_sender None m2
  ∧ (Message.isAnonymous m1 = false → Message.sender m1 = Message.sender m2).

(** Two stores with the same users and, under every id, versions of the
    same message in the sense above. *)
Definition differ_in_hidden_senders (w1 w2 : World) : Prop :=
  users w1 = users w2
  ∧ map_Forall2 (λ _, differ_in_hidden_sender) (messages w1) (messages w2).

(** Documents with the same id that are versions of the same message. *)
Definition same_document (p q : oid * Message.t) : Prop :=
  p.1 = q.1 ∧ differ_in_hidden_sender p.2 q.2.

Definition no_follow_between (a b : oid) (w : World) : Prop :=
  ((a, b) ∉ follows w) ∧ ((b, a) ∉ follows w).

(** While [a] blocks [b], neither follows the other. *)
Definition block_severs (a b : oid) (w : World) : Prop :=
  is_Some (blocks w !! (a, b)) → no_follow_between a b w.

(** The message that POST /messages/send stores. *)
Definition sent_message (req_user : option (Doc User.t)) (body : SendBody)
    (now : Time) : Message.t :=
  let isAnonymous := default true (sb_isAnonymous body) in
  Message.mk (sb_recipientId body)
    (match req_user with
     | Some user => if isAnonymous then None else Some (_id user)
     | None => None
     end)
    (sb_content body) (sb_image body) isAnonymous false Message.no_reply now.

(** The guards of POST /messages/send, in the order of the handler. *)
Definition send_accepted (req_user : option (Doc User.t)) (body : SendBody)
    (w : World) : bool :=
  bool_decide (sendMessageSchema body = None)
  && match User_findOne_active (sb_recipientId body) w with
     | Some recipient =>
         negb (default true (sb_isAnonymous body)
               && negb (User.allowAnonymousMessages (User.settings (fields recipient))))
     | None => false
     end
  && match req_user with
     | Some user =>
         negb (Block_findOne_either (_id user) (sb_recipientId body) w)
         && negb (bool_decide (_id user = sb_recipientId body))
     | None => true
     end.

#[global] Instance JoiError_eq_dec : EqDecision JoiError.
Proof. solve_decision. Defined.

(** The callers that [optionalAuth] lets through without [req.user]. *)
Inductive unauthenticated (w : World) : option Token → Prop :=
  | no_token : unauthenticated w None
  | invalid_token : unauthenticated w (Some InvalidToken)
  | expired_token : unauthenticated w (Some ExpiredToken)
  | unknown_user userId :
      users w !! userId = None → unauthenticated w (Some (Signed userId))
  | inactive_user userId user :
      users w !! userId = Some user → User.status user ≠ User.active →
      unauthenticated w (Some (Signed userId)).

(** ** routes/messages.js: the read-only routes

    GET /feed, GET /user/:userId and GET /stats change nothing in the store.
    Each is modelled by what it answers: the response that refuses the
    request, or the [data] of its 200 answer. *)






















(** ** Vocabulary of the further properties *)

(** Weakest preconditions of handler bodies: [Q] for the value a body goes
    on with, [S] for the response it has sent, [T] for a throw. *)
Definition wp {A} (h : Handler A) (Q : A → World → Prop)
    (S : Response → World → Prop) (T : World → Prop) (w : World) : Prop :=
  match h w with
  | (Val a, w') => Q a w'
  | (Sent r, w') => S r w'
  | (Thrown, w') => T w'
  end.

(** The [Authorization] header of a request. *)
Definition credentials (req : Request) : option Token :=
  match req with
  | PutProfile hdr _ | PutSettings hdr _ _ | GetUser hdr _ | PostFollow hdr _
  | DeleteUnfollow hdr _ | PostBlock hdr _ _ | DeleteUnblock hdr _
  | PostSend hdr _ _ | GetInbox hdr _ _ | PutRead hdr _ | PostReply hdr _ _ _ _
  | DeleteMessage hdr _ | PostReport hdr _ _ _ _ _ | PutUserStatus hdr _ _ _
  | PutReportReview hdr _ _ _ _ _ | AdminDeleteMessage hdr _ => hdr
  end.

(** The middleware in front of a route: [optionalAuth], [authenticateToken],
    or [authenticateToken] and [requireAdmin]. *)
Inductive Access := Anyone | Member | Admin.

Definition access (req : Request) : Access :=
  match req with
  | GetUser _ _ | PostSend _ _ _ => Anyone
  | PutUserStatus _ _ _ _ | PutReportReview _ _ _ _ _ _ | AdminDeleteMessage _ _ => Admin
  | _ => Member
  end.

(** The bearer token is that of an active user (an admin, when asked). *)
Definition holds_token (w : World) (hdr : option Token) (admin : bool) : Prop :=
  ∃ userId user,
    hdr = Some (Signed userId) ∧ users w !! userId = Some user
    ∧ User.status user = User.active
    ∧ (admin = true → User.isAdmin user = true).

(** The fields of a user that no modelled route writes. *)
Definition same_account (u u' : User.t) : Prop :=
  User.email u' = User.email u ∧ User.username u' = User.username u
  ∧ User.messageLink u' = User.messageLink u
  ∧ User.isVerified u' = User.isVerified u ∧ User.isAdmin u' = User.isAdmin u.

(** [w'] has the users of [w] and no others, each with the same e-mail,
    username, message link, verification and admin flag. *)
Definition accounts_kept (w w' : World) : Prop :=
  ∀ userId, option_Forall2 same_account (users w !! userId) (users w' !! userId).

(** What the reporter filed is as it was, and a reviewed report is not back
    to pending. *)
Definition report_kept (r r' : Report.t) : Prop :=
  Report.reporter r' = Report.reporter r
  ∧ Report.reportedUser r' = Report.reportedUser r
  ∧ Report.reportedMessage r' = Report.reportedMessage r
  ∧ Report.type r' = Report.type r
  ∧ Report.description r' = Report.description r
  ∧ Report.screenshot r' = Report.screenshot r
  ∧ Report.createdAt r' = Report.createdAt r
  ∧ (Report.is_terminal (Report.status r) = true →
     Report.is_terminal (Report.status r') = true).

(** Every report of [w] is still in [w'], kept in the sense above. *)
Definition reports_kept (w w' : World) : Prop :=
  ∀ id r, reports w !! id = Some r →
    ∃ r', reports w' !! id = Some r' ∧ report_kept r r'.

(** At most one report per reporter and message. *)
Definition reports_unique (w : World) : Prop :=
  ∀ i j r r' m,
    reports w !! i = Some r → reports w !! j = Some r' →
    Report.reporter r = Report.reporter r' →
    Report.reportedMessage r = Some m → Report.reportedMessage r' = Some m →
    i = j.

(** What the sender wrote is as it was; the read flag was not cleared and a
    reply that was there is unchanged. *)
Definition message_kept (m m' : Message.t) : Prop :=
  Message.recipient m' = Message.recipient m
  ∧ Message.sender m' = Message.sender m
  ∧ Message.content m' = Message.content m
  ∧ Message.image m' = Message.image m
  ∧ Message.isAnonymous m' = Message.isAnonymous m
  ∧ Message.createdAt m' = Message.createdAt m
  ∧ (Message.isRead m = true → Message.isRead m' = true)
  ∧ (Message.has_reply m = true → Message.reply m' = Message.reply m).

(** A message of [w] that is still in [w'] is kept in the sense above. *)
Definition messages_kept (w w' : World) : Prop :=
  ∀ id m m', messages w !! id = Some m → messages w' !! id = Some m' →
    message_kept m m'.

(** No stored message is anonymous and carries a sender reference. *)
Definition anonymity_consistent (w : World) : Prop :=
  ∀ id m, messages w !! id = Some m →
    Message.isAnonymous m = true → Message.sender m = None.

(** A reply is absent altogether, or has a text of 1 to 500 characters and
    a date. *)
Definition reply_complete (r : Message.Reply) : Prop :=
  match Message.reply_content r with
  | None => Message.reply_isPublic r = false ∧ Message.reply_createdAt r = None
  | Some c =>
      c ≠ "" ∧ (String.length c ≤ 500)%nat ∧ is_Some (Message.reply_createdAt r)
  end.

(** Every stored message satisfies the bounds of its schema and has a
    complete reply. *)
Definition messages_valid (w : World) : Prop :=
  ∀ id m, messages w !! id = Some m →
    Message.content m ≠ "" ∧ (String.length (Message.content m) ≤ 500)%nat
    ∧ reply_complete (Message.reply m).

(** Nobody follows or blocks themself. *)
Definition irreflexive_edges (w : World) : Prop :=
  (∀ a, (a, a) ∉ follows w) ∧ (∀ a, blocks w !! (a, a) = None).

(** The relationship graph is well formed: no loops, and no follow edge
    between two users one of whom blocks the other. *)
Definition graph_wf (w : World) : Prop :=
  irreflexive_edges w ∧ ∀ a b, block_severs a b w.

(** The message that a request of its recipient acts on. *)
Definition touches_message (req : Request) : option oid :=
  match req with
  | PutRead _ messageId | PostReply _ messageId _ _ _ | DeleteMessage _ messageId =>
      Some messageId
  | _ => None
  end.


(** ** The rules for a username: utils/validation.js and models/User.js *)

Definition is_digit (c : Ascii.ascii) : bool :=
  (48 <=? Ascii.nat_of_ascii c)%nat && (Ascii.nat_of_ascii c <=? 57)%nat.

Definition is_upper (c : Ascii.ascii) : bool :=
  (65 <=? Ascii.nat_of_ascii c)%nat && (Ascii.nat_of_ascii c <=? 90)%nat.

Definition is_lower (c : Ascii.ascii) : bool :=
  (97 <=? Ascii.nat_of_ascii c)%nat && (Ascii.nat_of_ascii c <=? 122)%nat.

(** [a-zA-Z0-9], the characters of Joi's [alphanum()]. *)
Definition is_alphanum (c : Ascii.ascii) : bool := is_lower c || is_upper c || is_digit c.

(** The character [_]. *)
Definition underscore : Ascii.ascii := Ascii.ascii_of_nat 95.

(** [a-zA-Z0-9_], the class in the [match] of the [username] path. *)
Definition is_word (c : Ascii.ascii) : bool := is_alphanum c || Ascii.eqb c underscore.

(** [schemas.username], [Joi.string().alphanum().min(3).max(20).required()]:
    whether a string passes. [Joi.string()] refuses the empty string. *)
Definition schemas_username (s : string) : bool :=
  negb (String.eqb s "")
  && forallb is_alphanum (String.list_ascii_of_string s)
  && (3 <=? String.length s)%nat
  && (String.length s <=? 20)%nat.

(** The validators of the [username] path of [UserSchema]: [required],
    [minlength: 3], [maxlength: 20], [match: /^[a-zA-Z0-9_]+$/]. *)
Definition UserSchema_username (s : string) : bool :=
  negb (String.eqb s "")
  && (3 <=? String.length s)%nat
  && (String.length s <=? 20)%nat
  && (negb (String.eqb s "") && forallb is_word (String.list_ascii_of_string s)).

(** * Properties *)

(** ** Scenarios *)

(** alice sends bob an anonymous message: it is stored without a sender and
    bob's inbox shows it unread, with a null sender. *)
Example anonymous_message_scenario :
  let w := serve_all
             [ PostSend (Some (Signed 1)) (mkSendBody 2 "hello" None (Some true)) 10 ]
             world0 in
  messages w !! 1%positive
  = Some (Message.mk 2 None "hello" None true false Message.no_reply 10)
  ∧ serve (GetInbox (Some (Signed 2)) None None) w
    = (ok_data
         (InboxData
            [ mkInboxItem 1 "hello" None true false None Message.no_reply 10 ]
            1 (mkPagination 1 1 1)),
       w).
Proof. vm_compute. split; reflexivity. Qed.

(** bob's inbox in [world1] shows the sender of alice's signed message; the
    message is read, because bob replied to it. *)
Example signed_message_scenario :
  data (serve (GetInbox (Some (Signed 2)) (Some 1) (Some 10)) world1).1
  = InboxData
      [ mkInboxItem 1 "hello" None false true
          (Some (mkSenderInfo 1 "alice" "alice" "User" ""))
          (Message.mkReply (Some "thanks") true (Some 11)) 10 ]
      0 (mkPagination 1 1 1).
Proof. vm_compute. reflexivity. Qed.

(** A banned user is turned away by [authenticateToken] with 403, and a
    non-admin by [requireAdmin]. *)
Example status_gate_scenario :
  serve (PostFollow (Some (Signed 3)) 1) world0
  = (failure 403 "Account is blocked or banned", world0)
  ∧ serve (PutUserStatus (Some (Signed 1)) 2 "banned" None) world0
    = (failure 403 "Admin access required", world0)
  ∧ serve (PutUserStatus (Some (Signed 4)) 4 "banned" None) world0
    = (failure 400 "Cannot change your own status", world0).
Proof. vm_compute. repeat split. Qed.

(** ** Invariants of handler bodies

    A property of the store is preserved by a handler body when each of
    its steps preserves it; early responses and exceptions keep the store
    of the step that raised them. *)
Section Preservation.
Variable P : World → Prop.

Lemma preserves_ret {A} (a : A) : preserves P (mret a).
Proof. by intros w. Qed.

Lemma preserves_bind {A B} (m : Handler A) (f : A → Handler B) :
  preserves P m → (∀ a, preserves P (f a)) → preserves P (m ≫= f).
Proof.
  intros Hm Hf w Hw. specialize (Hm w Hw).
  unfold mbind, handler_bind. destruct (m w) as [[a|r|] w']; simpl in *; auto.
  by apply Hf.
Qed.

Lemma preserves_send {A} r : preserves P (@send A r).
Proof. by intros w. Qed.

Lemma preserves_throw {A} : preserves P (@throw A).
Proof. by intros w. Qed.

Lemma preserves_gets {A} (f : World → A) : preserves P (gets f).
Proof. by intros w. Qed.

Lemma preserves_found {A} (q : World → option A) r : preserves P (found q r).
Proof. intros w Hw. unfold found. by destruct (q w). Qed.

Lemma preserves_must {A} (q : World → option A) : preserves P (must q).
Proof. intros w Hw. unfold must. by destruct (q w). Qed.

Lemma preserves_reject_if c r : preserves P (reject_if c r).
Proof. destruct c; by intros w. Qed.

Lemma preserves_reject_invalid e : preserves P (reject_invalid e).
Proof. destruct e; by intros w. Qed.

Lemma preserves_modify f : (∀ w, P w → P (f w)) → preserves P (modify f).
Proof. intros Hf w Hw. by apply Hf. Qed.

Lemma preserves_try_catch body m w :
  preserves P body → P w → P (try_catch body m w).2.
Proof.
  intros Hb Hw. specialize (Hb w Hw). unfold try_catch.
  by destruct (body w) as [[a|r|] w'].
Qed.

End Preservation.

(** One step along a handler body. *)
Ltac preserve_step :=
  lazymatch goal with
  | |- preserves _ (mbind _ _) => apply preserves_bind; [| intros ?]
  | |- preserves _ (mret _) => apply preserves_ret
  | |- preserves _ (send _) => apply preserves_send
  | |- preserves _ throw => apply preserves_throw
  | |- preserves _ (gets _) => apply preserves_gets
  | |- preserves _ (found _ _) => apply preserves_found
  | |- preserves _ (must _) => apply preserves_must
  | |- preserves _ (reject_if _ _) => apply preserves_reject_if
  | |- preserves _ (reject_invalid _) => apply preserves_reject_invalid
  | |- preserves _ (modify _) => apply preserves_modify
  | |- preserves _ (match ?x with _ => _ end) => destruct x
  end.

Ltac preserve := cbv zeta; repeat preserve_step.

(** Unfolds the primitives of handler bodies, to evaluate a handler whose
    guards are known. *)
Ltac run := unfold try_catch, found, must, gets, modify, send, throw, reject_if,
  reject_invalid, mbind, handler_bind, mret, handler_ret; simpl.

Lemma post_users_follow_severs a b u userId w :
  block_severs a b w → block_severs a b (post_users_follow u userId w).2.
Proof.
  intros Hw. unfold post_users_follow, Follow_save. run.
  destruct (bool_decide (userId = _id u)); simpl; [done|].
  destruct (User_findOne_active userId w); simpl; [|done].
  destruct (Follow_findOne (_id u) userId w) eqn:Hex; simpl; [done|].
  destruct (Block_findOne_either (_id u) userId w) eqn:Hblk; simpl; [done|].
  destruct (bool_decide (_id u = userId)); simpl; [done|].
  rewrite Hex; simpl.
  unfold Block_findOne_either, Block_findOne in Hblk.
  apply orb_false_elim in Hblk as [H1 H2].
  apply bool_decide_eq_false in H1, H2.
  intros Hs. simpl in *. specialize (Hw Hs). unfold no_follow_between in *. simpl.
  destruct Hw as [Hab Hba].
  split; rewrite elem_of_union, elem_of_singleton; intros [[= -> ->]|Hin]; auto.
Qed.

Lemma delete_users_unfollow_severs a b u userId w :
  block_severs a b w → block_severs a b (delete_users_unfollow u userId w).2.
Proof.
  apply preserves_try_catch. unfold delete_users_unfollow. preserve.
  intros w' Hw' Hs. destruct (Hw' Hs) as [Hab Hba].
  split; simpl; rewrite elem_of_difference; tauto.
Qed.

Lemma post_users_block_severs a b u userId reason w :
  block_severs a b w → block_severs a b (post_users_block u userId reason w).2.
Proof.
  intros Hw. unfold post_users_block, Block_save, Follow_deleteMany_between. run.
  destruct (bool_decide (userId = _id u)); simpl; [done|].
  destruct (User_findById userId w); simpl; [|done].
  destruct (Block_findOne (_id u) userId w) eqn:Hex; simpl; [done|].
  destruct (bool_decide (200 < _)); simpl; [done|].
  destruct (bool_decide (_id u = userId)); simpl; [done|].
  rewrite Hex; simpl.
  intros Hs. simpl in *. unfold no_follow_between in *. simpl.
  destruct (decide ((_id u, userId) = (a, b))) as [[= -> ->]|Hne].
  - split; rewrite elem_of_difference, elem_of_union, !elem_of_singleton; tauto.
  - rewrite lookup_insert_ne in Hs by done. destruct (Hw Hs) as [Hab Hba].
    split; rewrite elem_of_difference; tauto.
Qed.

Lemma delete_users_unblock_severs a b u userId w :
  block_severs a b w → block_severs a b (delete_users_unblock u userId w).2.
Proof.
  apply preserves_try_catch. unfold delete_users_unblock. preserve.
  intros w' Hw' Hs. simpl in *. apply Hw'.
  destruct (decide ((_id u, userId) = (a, b))) as [[= <- <-]|Hne].
  - rewrite lookup_delete_eq in Hs. by destruct Hs.
  - by rewrite lookup_delete_ne in Hs.
Qed.

Section Middleware.
Variable P : World → Prop.

Lemma authenticated_preserves hdr h w :
  (∀ u, P w → P (h u w).2) → P w → P (authenticated hdr h w).2.
Proof. intros Hh Hw. unfold authenticated. destruct (authenticateToken hdr w); auto. Qed.

Lemma admin_only_preserves hdr h w :
  (∀ u, P w → P (h u w).2) → P w → P (admin_only hdr h w).2.
Proof.
  intros Hh Hw. unfold admin_only. apply authenticated_preserves; [|done].
  intros u _. destruct (requireAdmin u); auto.
Qed.

Lemma optionally_authenticated_preserves hdr h w :
  (∀ u, P w → P (h u w).2) → P w → P (optionally_authenticated hdr h w).2.
Proof. intros Hh Hw. unfold optionally_authenticated. auto. Qed.

End Middleware.

(** Handlers that leave the Follow and Block collections and the outbox
    alone preserve every property that only reads these three. *)
Section Frame.
Variable P : World → Prop.
Hypothesis P_social : ∀ w w',
  follows w' = follows w → blocks w' = blocks w → outbox w' = outbox w →
  P w → P w'.

Lemma Message_save_frame m : preserves P (Message_save m).
Proof.
  intros w Hw. unfold Message_save.
  destruct (_ || _); simpl; [done|]. by apply (P_social w).
Qed.

Lemma Message_update_frame m : preserves P (Message_update m).
Proof. apply preserves_modify. intros w. by apply P_social. Qed.

Lemma Report_save_frame a b c d e f g : preserves P (Report_save a b c d e f g).
Proof.
  intros w Hw. unfold Report_save.
  destruct (Report.parse_type d); [|done].
  destruct (bool_decide _); simpl; [done|]. by apply (P_social w).
Qed.

Lemma Report_update_frame r : preserves P (Report_update r).
Proof.
  intros w Hw. unfold Report_update.
  destruct (bool_decide _); simpl; [done|]. by apply (P_social w).
Qed.

Lemma take_action_frame t r : preserves P (take_action t r).
Proof.
  unfold take_action, User_findByIdAndUpdate_status.
  repeat case_match; first [apply preserves_ret | apply preserves_modify];
    intros w; by apply P_social.
Qed.

Lemma with_users_frame f : ∀ w, P w → P (with_users f w).
Proof. intros w. by apply P_social. Qed.

Lemma with_messages_frame f : ∀ w, P w → P (with_messages f w).
Proof. intros w. by apply P_social. Qed.

End Frame.

Lemma block_severs_social a b w w' :
  follows w' = follows w → blocks w' = blocks w → outbox w' = outbox w →
  block_severs a b w → block_severs a b w'.
Proof. unfold block_severs, no_follow_between. by intros -> -> _. Qed.

Ltac frame_step HP :=
  lazymatch goal with
  | |- preserves _ (Message_save _) => apply Message_save_frame, HP
  | |- preserves _ (Message_update _) => apply Message_update_frame, HP
  | |- preserves _ (Report_save _ _ _ _ _ _ _) => apply Report_save_frame, HP
  | |- preserves _ (Report_update _) => apply Report_update_frame, HP
  | |- preserves _ (take_action _ _) => apply take_action_frame, HP
  | |- preserves _ (modify (with_users _)) => apply preserves_modify, with_users_frame, HP
  | |- preserves _ (modify (with_messages _)) => apply preserves_modify, with_messages_frame, HP
  | |- _ => preserve_step
  end.

Ltac frame_route h HP :=
  intros ?; unfold h; apply preserves_try_catch; [cbv zeta; repeat frame_step HP | assumption].

Lemma serve_preserves a b req w :
  block_severs a b w → block_severs a b (serve req w).2.
Proof.
  pose proof (block_severs_social a b) as HP.
  destruct req; simpl;
    first [ apply admin_only_preserves
          | apply authenticated_preserves
          | apply optionally_authenticated_preserves ]; intros u.
  - frame_route put_users_profile HP.
  - frame_route put_users_settings HP.
  - frame_route get_users_identifier HP.
  - apply post_users_follow_severs.
  - apply delete_users_unfollow_severs.
  - apply post_users_block_severs.
  - apply delete_users_unblock_severs.
  - frame_route post_messages_send HP.
  - frame_route get_messages_inbox HP.
  - frame_route put_messages_read HP.
  - frame_route post_messages_reply HP.
  - frame_route delete_messages HP.
  - frame_route post_messages_report HP.
  - frame_route put_admin_users_status HP.
  - frame_route put_admin_reports_review HP.
  - frame_route delete_admin_messages HP.
Qed.

Lemma serve_all_preserves a b reqs w :
  block_severs a b w → block_severs a b (serve_all reqs w).
Proof.
  revert w. induction reqs as [|req reqs IH]; intros w Hw; [done|].
  apply IH. by apply serve_preserves.
Qed.

(** ** Authentication *)

Lemma authenticateToken_id hdr w user :
  authenticateToken hdr w = inr user →
  ∃ uid, hdr = Some (Signed uid) ∧ _id user = uid
         ∧ users w !! uid = Some (fields user)
         ∧ User.is_active (fields user) = true.
Proof.
  unfold authenticateToken. intros H.
  destruct hdr as [[uid| |]|]; try done.
  destruct (users w !! uid) as [u|] eqn:Hu; [|done].
  destruct (User.is_active u) eqn:Hact; [|done].
  injection H as <-. by exists uid.
Qed.

Lemma authenticateToken_rejects_data hdr w e :
  authenticateToken hdr w = inl e → data e = NoData.
Proof.
  unfold authenticateToken.
  destruct hdr as [[uid| |]|]; [|by intros [= <-]..].
  destruct (users w !! uid) as [u|]; [|by intros [= <-]].
  destruct (User.is_active u); [done|by intros [= <-]].
Qed.

Lemma authenticateToken_rejects hdr w e :
  authenticateToken hdr w = inl e → success e = false.
Proof.
  unfold authenticateToken.
  destruct hdr as [[uid| |]|]; [|by intros [= <-]..].
  destruct (users w !! uid) as [u|]; [|by intros [= <-]].
  destruct (User.is_active u); [done|by intros [= <-]].
Qed.

(** ** Blocking and following *)

(** What POST /users/:userId/follow answers while a block edge stands
    between the two users and neither follows the other. *)
Lemma post_users_follow_blocked req_user userId w :
  userId ≠ _id req_user →
  Follow_findOne (_id req_user) userId w = false →
  Block_findOne_either (_id req_user) userId w = true →
  post_users_follow req_user userId w =
    (match User_findOne_active userId w with
     | Some _ => failure 403 "Cannot follow this user"
     | None => failure 404 "User not found"
     end, w).
Proof.
  intros Hne Hf Hb. unfold post_users_follow. run.
  rewrite bool_decide_false by done. simpl.
  destruct (User_findOne_active userId w); simpl; [|done].
  by rewrite Hf, Hb.
Qed.

Lemma post_users_block_success req_user userId reason w :
  success (post_users_block req_user userId reason w).1 = true →
  userId ≠ _id req_user ∧
  block_severs (_id req_user) userId (post_users_block req_user userId reason w).2 ∧
  is_Some (blocks (post_users_block req_user userId reason w).2 !! (_id req_user, userId)).
Proof.
  unfold post_users_block, Block_save, Follow_deleteMany_between. run.
  destruct (bool_decide (userId = _id req_user)) eqn:Hself; simpl; [done|].
  destruct (User_findById userId w); simpl; [|done].
  destruct (Block_findOne (_id req_user) userId w) eqn:Hex; simpl; [done|].
  destruct (bool_decide (200 < _)); simpl; [done|].
  destruct (bool_decide (_id req_user = userId)); simpl; [done|].
  rewrite Hex; simpl. intros _.
  apply bool_decide_eq_false in Hself. split; [done|]. split.
  - intros _. split; simpl; rewrite elem_of_difference, elem_of_union, !elem_of_singleton; tauto.
  - rewrite lookup_insert_eq. by eexists.
Qed.

(** C2 (amended). After a successful Block(a,b) no follow edge exists between
    a and b in either direction. While the block edge exists, whatever
    requests were served in between, there is still no follow edge between
    them, and a Follow(a,b) or Follow(b,a) by the authenticated user fails and
    leaves the store as it is: with Forbidden (403) when the user to follow
    is active, with NotFound (404) when that user is not active, because the
    handler looks the target up among active users before it consults the
    block edges. *)
Theorem block_severs_follow_and_refuses_it w a b reason :
  success (serve (PostBlock (Some (Signed a)) b reason) w).1 = true →
  let w1 := (serve (PostBlock (Some (Signed a)) b reason) w).2 in
  no_follow_between a b w1 ∧
  ∀ reqs, let w2 := serve_all reqs w1 in
    is_Some (blocks w2 !! (a, b)) →
    no_follow_between a b w2 ∧
    ∀ x y user, (x = a ∧ y = b) ∨ (x = b ∧ y = a) →
      authenticateToken (Some (Signed x)) w2 = inr user →
      serve (PostFollow (Some (Signed x)) y) w2 =
        (match User_findOne_active y w2 with
         | Some _ => failure 403 "Cannot follow this user"
         | None => failure 404 "User not found"
         end, w2).
Proof.
  cbv zeta. unfold serve, authenticated.
  destruct (authenticateToken (Some (Signed a)) w) as [e|actor] eqn:Hauth.
  { intros Hs. apply authenticateToken_rejects in Hauth. simpl in Hs. congruence. }
  apply authenticateToken_id in Hauth as (uid & [= <-] & Hid & _).
  intros Hs. apply post_users_block_success in Hs as (Hne & Hsev & Hblk).
  rewrite Hid in *. split; [by apply Hsev|].
  intros reqs Hb2.
  pose proof (serve_all_preserves a b reqs _ Hsev Hb2) as [Hab Hba].
  split; [done|].
  intros x y user Hxy Hauth2. rewrite Hauth2.
  apply authenticateToken_id in Hauth2 as (? & [= <-] & Hidx & _).
  apply post_users_follow_blocked; rewrite Hidx.
  - destruct Hxy as [[-> ->]|[-> ->]]; done.
  - unfold Follow_findOne. apply bool_decide_eq_false.
    destruct Hxy as [[-> ->]|[-> ->]]; done.
  - unfold Block_findOne_either, Block_findOne.
    destruct Hxy as [[-> ->]|[-> ->]].
    + by rewrite (bool_decide_true _ Hb2).
    + rewrite (bool_decide_true _ Hb2). apply orb_true_r.
Qed.

(** In [world1] alice follows bob. Once she blocks him the edge is gone and
    bob's attempt to follow her is forbidden. *)
Lemma block_severs_follow_witness :
  let w1 := (serve (PostBlock (Some (Signed 1)) 2 None) world1).2 in
  success (serve (PostBlock (Some (Signed 1)) 2 None) world1).1 = true
  ∧ Follow_findOne 1 2 world1 = true
  ∧ no_follow_between 1 2 w1
  ∧ serve (PostFollow (Some (Signed 2)) 1) w1
    = (failure 403 "Cannot follow this user", w1).
Proof.
  cbv zeta.
  assert (success (serve (PostBlock (Some (Signed 1)) 2 None) world1).1 = true)
    as Hok by (vm_compute; reflexivity).
  destruct (block_severs_follow_and_refuses_it world1 1 2 None Hok) as [Hsev Hlater].
  split; [exact Hok|]. split; [vm_compute; reflexivity|]. split; [exact Hsev|].
  destruct (Hlater []) as [_ Hfollow].
  { vm_compute. eexists. reflexivity. }
  etrans.
  - apply (Hfollow 2%positive 1%positive (mkDoc 2%positive bob)).
    + right. split; reflexivity.
    + vm_compute. reflexivity.
  - vm_compute. reflexivity.
Defined.

(** C2, as stated, fails: Block only requires that the target exists, so
    alice can block carol, who is banned; her Follow(alice, carol) is then
    answered NotFound, not Forbidden, while the block edge exists. *)
Lemma follow_after_block_can_be_not_found :
  let w1 := (serve (PostBlock (Some (Signed 1)) 3 None) world0).2 in
  success (serve (PostBlock (Some (Signed 1)) 3 None) world0).1 = true
  ∧ is_Some (blocks w1 !! (1%positive, 3%positive))
  ∧ kind_of_code (code (serve (PostFollow (Some (Signed 1)) 3) w1).1) = Some NotFound
  ∧ ¬ fails_with Forbidden (serve (PostFollow (Some (Signed 1)) 3) w1).1.
Proof.
  vm_compute. split; [done|]. split; [by eexists|]. split; [done|].
  intros [_ [=]].
Qed.

(** ** Status changes by an admin *)

Lemma put_admin_users_status_other actor userId target status s reason w :
  users w !! userId = Some target →
  userId ≠ _id actor →
  User.isAdmin (fields actor) = true →
  User.parse_status status = Some s →
  put_admin_users_status actor userId status reason w =
    (ok_with ("User status updated to " +:+ status)
       (StatusData userId (User.status target) s reason),
     with_users (λ m, <[ userId := User.set_status s target ]> m) w).
Proof.
  intros Ht Hne Hadm Hs. unfold put_admin_users_status, User_findById. run.
  rewrite Hs, Ht. simpl. rewrite bool_decide_false by done. simpl.
  rewrite Hadm, andb_false_r. reflexivity.
Qed.

Lemma admin_only_admin hdr h actor w :
  authenticateToken hdr w = inr actor →
  User.isAdmin (fields actor) = true →
  admin_only hdr h w = h actor w.
Proof.
  intros Ha Hadm. unfold admin_only, authenticated, requireAdmin.
  by rewrite Ha, Hadm.
Qed.

(** Behind [requireAdmin] the actor is an admin, so the guard "prevent
    changing status of other admins" ([user.isAdmin && !req.user.isAdmin])
    cannot fire: the status of any other user, admin or not, is changed. *)
Lemma admin_status_guard_never_fires hdr actor userId target status s reason w :
  authenticateToken hdr w = inr actor →
  User.isAdmin (fields actor) = true →
  users w !! userId = Some target →
  userId ≠ _id actor →
  User.parse_status status = Some s →
  let '(res, w') := serve (PutUserStatus hdr userId status reason) w in
  code res = 200 ∧ success res = true
  ∧ users w' !! userId = Some (User.set_status s target).
Proof.
  intros Ha Hadm Ht Hne Hs. unfold serve.
  rewrite (admin_only_admin _ _ actor) by done.
  rewrite (put_admin_users_status_other _ _ target _ s) by done.
  repeat split. simpl. apply lookup_insert_eq.
Qed.

(** C1. The claim does not hold of the code: root and admin2 are both admins,
    and root's request to ban admin2 is answered 200, not Forbidden, and
    admin2's status goes from active to banned. *)
Theorem admin_bans_another_admin :
  User.isAdmin root = true ∧ User.isAdmin admin2 = true ∧
  let '(res, w') := serve (PutUserStatus (Some (Signed 4)) 5 "banned" None) world0 in
  code res = 200
  ∧ kind_of_code (code res) = None
  ∧ User.status <$> users world0 !! 5%positive = Some User.active
  ∧ User.status <$> users w' !! 5%positive = Some User.banned.
Proof. vm_compute. repeat split. Qed.

(** ** Reviews *)

Lemma take_action_val type r w : (take_action type r w).1 = Val tt.
Proof.
  unfold take_action, User_findByIdAndUpdate_status, modify.
  by repeat case_match.
Qed.

Lemma put_admin_reports_review_accepted actor reportId r status s notes action now w :
  reports w !! reportId = Some r →
  Report.parse_review_status status = Some s →
  (String.length (default "" notes) ≤ 500)%nat →
  let r' := Report.set_review s notes (_id actor) now r in
  let w1 := with_reports (λ rs, <[ reportId := r' ]> rs) w in
  put_admin_reports_review actor reportId status notes action now w =
    (ok_with "Report reviewed successfully" (ReviewData (mkDoc reportId r')),
     if falsy action then w1
     else (take_action (default "" action) r' w1).2).
Proof.
  intros Hr Hs Hn. unfold put_admin_reports_review, Report_findById, Report_update. run.
  rewrite Hs, Hr. simpl. rewrite bool_decide_false by lia. simpl.
  destruct (falsy action); simpl; [done|].
  match goal with |- context [take_action ?t ?x ?y] =>
    pose proof (take_action_val t x y) as Ht; destruct (take_action t x y) as [o w2]
  end.
  simpl in Ht. by rewrite Ht.
Qed.

Lemma take_action_reports type r w : reports (take_action type r w).2 = reports w.
Proof.
  unfold take_action, User_findByIdAndUpdate_status, modify.
  by repeat case_match.
Qed.

Lemma parse_review_status_terminal status s :
  Report.parse_review_status status = Some s → Report.is_terminal s = true.
Proof.
  unfold Report.parse_review_status.
  repeat case_match; by intros [= <-].
Qed.

(** C3 (amended). For every report whose status is reviewed, resolved or
    dismissed, a further review call by an admin with a valid status (and
    admin notes of at most 500 characters) succeeds and overwrites status,
    adminNotes, reviewedBy and reviewedAt with the values of the call. The
    new status is again one of the three: a report moves between the
    non-pending states but never back to pending. *)
Theorem review_of_terminal_report_overwrites
    hdr actor reportId r status s notes action now w :
  authenticateToken hdr w = inr actor →
  User.isAdmin (fields actor) = true →
  reports w !! reportId = Some r →
  Report.is_terminal (Report.status r) = true →
  Report.parse_review_status status = Some s →
  (String.length (default "" notes) ≤ 500)%nat →
  let '(res, w') := serve (PutReportReview hdr reportId status notes action now) w in
  success res = true
  ∧ reports w' !! reportId = Some (Report.set_review s notes (_id actor) now r)
  ∧ Report.is_terminal s = true.
Proof.
  intros Ha Hadm Hr _ Hs Hn. unfold serve.
  rewrite (admin_only_admin _ _ actor) by done.
  rewrite (put_admin_reports_review_accepted _ _ r _ s) by done.
  split; [done|]. split; [|by eapply parse_review_status_terminal].
  destruct (falsy action); [|rewrite take_action_reports]; apply lookup_insert_eq.
Qed.

(** admin2 dismisses the report that root had resolved in [world1]. *)
Lemma review_of_terminal_report_witness :
  reports world1 !! 1%positive = Some junk_report
  ∧ Report.is_terminal (Report.status junk_report) = true
  ∧ let '(res, w') :=
      serve (PutReportReview (Some (Signed 5)) 1 "dismissed" None None 30) world1 in
    success res = true
    ∧ reports w' !! 1%positive
      = Some (Report.set_review Report.dismissed None 5 30 junk_report)
    ∧ Report.is_terminal Report.dismissed = true.
Proof.
  split; [vm_compute; reflexivity|]. split; [reflexivity|].
  apply (review_of_terminal_report_overwrites (Some (Signed 5))
           (mkDoc 5%positive admin2) 1 junk_report "dismissed" Report.dismissed
           None None 30 world1).
  - vm_compute. reflexivity.
  - reflexivity.
  - vm_compute. reflexivity.
  - reflexivity.
  - reflexivity.
  - vm_compute. lia.
Defined.

(** C3, as stated, fails: the report of [world1] is resolved, and a second
    review by another admin succeeds and changes its status, notes, reviewer
    and review time. *)
Lemma resolved_report_is_reviewed_again :
  let '(res, w') :=
    serve (PutReportReview (Some (Signed 5)) 1 "dismissed"
             (Some "on second thought") None 30) world1 in
  reports world1 !! 1%positive = Some junk_report
  ∧ Report.status junk_report = Report.resolved
  ∧ success res = true
  ∧ Report.status <$> reports w' !! 1%positive = Some Report.dismissed
  ∧ Report.adminNotes <$> reports w' !! 1%positive = Some (Some "on second thought")
  ∧ Report.reviewedBy <$> reports w' !! 1%positive = Some (Some 5%positive)
  ∧ Report.reviewedAt <$> reports w' !! 1%positive = Some (Some 30).
Proof. vm_compute. repeat split. Qed.

Lemma take_action_block_user r target w :
  Report.reportedUser r = Some target →
  (take_action "block_user" r w).2 = with_users (alter (User.set_status User.blocked) target) w
  ∧ (take_action "ban_user" r w).2 = with_users (alter (User.set_status User.banned) target) w.
Proof. intros Hr. unfold take_action. simpl. by rewrite Hr. Qed.

(** C10. A review with action block_user or ban_user of a report whose
    reportedUser is an existing user sets that user's status to blocked or
    banned: afterwards the stored status is the new one, every other field
    of the user is as before, and no other user is touched. Nothing is asked
    of the target: it may be an admin, and it may be the reviewing admin
    (compare [put_admin_users_status_self] for the direct endpoint). The
    review is one that the handler accepts: a valid status, an existing
    report, admin notes within the schema's 500 characters. *)
Theorem review_cascade_ignores_status_guards
    hdr actor reportId r status s notes action st target u now w :
  authenticateToken hdr w = inr actor →
  User.isAdmin (fields actor) = true →
  reports w !! reportId = Some r →
  Report.parse_review_status status = Some s →
  (String.length (default "" notes) ≤ 500)%nat →
  Report.reportedUser r = Some target →
  users w !! target = Some u →
  (action = Some "block_user" ∧ st = User.blocked)
  ∨ (action = Some "ban_user" ∧ st = User.banned) →
  let '(res, w') := serve (PutReportReview hdr reportId status notes action now) w in
  success res = true
  ∧ users w' !! target = Some (User.set_status st u)
  ∧ (∃ u', users w' !! target = Some u'
       ∧ User.status u' = st
       ∧ User.email u' = User.email u
       ∧ User.username u' = User.username u
       ∧ User.firstName u' = User.firstName u
       ∧ User.lastName u' = User.lastName u
       ∧ User.bio u' = User.bio u
       ∧ User.profilePicture u' = User.profilePicture u
       ∧ User.isVerified u' = User.isVerified u
       ∧ User.isAdmin u' = User.isAdmin u
       ∧ User.messageLink u' = User.messageLink u
       ∧ User.settings u' = User.settings u)
  ∧ (∀ j, j ≠ target → users w' !! j = users w !! j).
Proof.
  intros Ha Hadm Hr Hs Hn Ht Hu Hact. unfold serve.
  rewrite (admin_only_admin _ _ actor) by done.
  rewrite (put_admin_reports_review_accepted _ _ r _ s) by done.
  split; [done|].
  set (r' := Report.set_review s notes (_id actor) now r).
  assert (Report.reportedUser r' = Some target) as Ht' by done.
  destruct (take_action_block_user r' target
              (with_reports (λ rs, <[reportId:=r']> rs) w) Ht') as [Hblock Hban].
  assert (∀ st' w0, users w0 = users w →
            users (with_users (alter (User.set_status st') target) w0) !! target
              = Some (User.set_status st' u)
            ∧ (∃ u', users (with_users (alter (User.set_status st') target) w0) !! target
                     = Some u'
                 ∧ User.status u' = st'
                 ∧ User.email u' = User.email u
                 ∧ User.username u' = User.username u
                 ∧ User.firstName u' = User.firstName u
                 ∧ User.lastName u' = User.lastName u
                 ∧ User.bio u' = User.bio u
                 ∧ User.profilePicture u' = User.profilePicture u
                 ∧ User.isVerified u' = User.isVerified u
                 ∧ User.isAdmin u' = User.isAdmin u
                 ∧ User.messageLink u' = User.messageLink u
                 ∧ User.settings u' = User.settings u)
            ∧ (∀ j, j ≠ target →
                 users (with_users (alter (User.set_status st') target) w0) !! j
                 = users w !! j)) as Hset.
  { intros st' w0 Hw0. unfold with_users. cbn [users]. rewrite Hw0.
    rewrite lookup_alter_eq, Hu. split; [done|]. split.
    - exists (User.set_status st' u). by repeat split.
    - intros j Hj. by rewrite lookup_alter_ne. }
  destruct Hact as [[-> ->]|[-> ->]]; simpl.
  - rewrite Hblock. by apply Hset.
  - rewrite Hban. by apply Hset.
Qed.

(** In [world2] the reported user is root, an active admin; root reviews
    the report with ban_user and is banned by the cascade, still an admin. *)
Lemma review_cascade_witness :
  User.isAdmin root = true
  ∧ User.status root = User.active
  ∧ Report.reportedUser rude_report = Some 4%positive
  ∧ users world2 !! 4%positive = Some root
  ∧ let '(res, w') :=
      serve (PutReportReview (Some (Signed 4)) 1 "resolved" None (Some "ban_user") 30)
        world2 in
    success res = true
    ∧ User.status <$> users w' !! 4%positive = Some User.banned
    ∧ User.isAdmin <$> users w' !! 4%positive = Some true
    ∧ (∀ j, j ≠ 4%positive → users w' !! j = users world2 !! j).
Proof.
  split; [reflexivity|]. split; [reflexivity|]. split; [reflexivity|].
  split; [vm_compute; reflexivity|].
  pose proof (review_cascade_ignores_status_guards (Some (Signed 4))
                (mkDoc 4%positive root) 1 rude_report "resolved" Report.resolved None
                (Some "ban_user") User.banned 4 root 30 world2) as H.
  destruct (serve _ world2) as [res w'].
  destruct H as (Hok & _ & (u' & Hu' & Hst & _ & _ & _ & _ & _ & _ & _ & Hadm & _) & Hother).
  - vm_compute. reflexivity.
  - reflexivity.
  - vm_compute. reflexivity.
  - reflexivity.
  - vm_compute. lia.
  - reflexivity.
  - vm_compute. reflexivity.
  - right. split; reflexivity.
  - rewrite Hu'. simpl. rewrite Hst, Hadm. by repeat split.
Defined.

Lemma put_admin_users_status_self actor status reason w :
  users w !! _id actor = Some (fields actor) →
  is_Some (User.parse_status status) →
  put_admin_users_status actor (_id actor) status reason w =
    (failure 400 "Cannot change your own status", w).
Proof.
  intros Hu [s Hs]. unfold put_admin_users_status, User_findById. run.
  rewrite Hs, Hu. simpl. by rewrite bool_decide_true.
Qed.

(** ** Reading a message *)

Lemma put_messages_read_owned req_user messageId m w :
  messages w !! messageId = Some m →
  Message.recipient m = _id req_user →
  put_messages_read req_user messageId w =
    (ok "Message marked as read",
     with_messages (λ ms, <[ messageId := Message.set_isRead true m ]> ms) w).
Proof.
  intros Hm Hr. unfold put_messages_read, Message_findOne_owned, Message_update. run.
  rewrite Hm. by rewrite bool_decide_true.
Qed.

Lemma put_messages_read_not_owned req_user messageId w :
  Message_findOne_owned messageId (_id req_user) w = None →
  put_messages_read req_user messageId w = (failure 404 "Message not found", w).
Proof. intros Hm. unfold put_messages_read. run. by rewrite Hm. Qed.

(** C8. For the authenticated caller, marking one of their own messages read
    answers success and sets [isRead]; every other field of the message and
    every other message is as before; a second call gives the same answer and
    the same store. On a message that is not theirs (or does not exist) the
    call fails with NotFound and changes nothing. *)
Theorem read_is_idempotent hdr user messageId w :
  authenticateToken hdr w = inr user →
  (∀ m, messages w !! messageId = Some m → Message.recipient m = _id user →
     let '(res, w1) := serve (PutRead hdr messageId) w in
     res = ok "Message marked as read"
     ∧ w1 = with_messages (λ ms, <[ messageId := Message.set_isRead true m ]> ms) w
     ∧ (∃ m', messages w1 !! messageId = Some m'
          ∧ Message.isRead m' = true
          ∧ Message.recipient m' = Message.recipient m
          ∧ Message.sender m' = Message.sender m
          ∧ Message.content m' = Message.content m
          ∧ Message.image m' = Message.image m
          ∧ Message.isAnonymous m' = Message.isAnonymous m
          ∧ Message.reply m' = Message.reply m
          ∧ Message.createdAt m' = Message.createdAt m)
     ∧ (∀ j, j ≠ messageId → messages w1 !! j = messages w !! j)
     ∧ serve (PutRead hdr messageId) w1 = (res, w1))
  ∧ (Message_findOne_owned messageId (_id user) w = None →
     let '(res, w1) := serve (PutRead hdr messageId) w in
     fails_with NotFound res ∧ w1 = w).
Proof.
  intros Ha. split.
  - intros m Hm Hr. unfold serve, authenticated. rewrite Ha.
    rewrite (put_messages_read_owned _ _ m) by done.
    split; [done|]. split; [done|]. split; [|split].
    + exists (Message.set_isRead true m). simpl. rewrite lookup_insert_eq.
      by repeat split.
    + intros j Hj. simpl. by rewrite lookup_insert_ne.
    + change (authenticateToken hdr (with_messages _ w)) with (authenticateToken hdr w).
      rewrite Ha.
      rewrite (put_messages_read_owned _ _ (Message.set_isRead true m)).
      * unfold with_messages. simpl. by rewrite insert_insert_eq.
      * simpl. apply lookup_insert_eq.
      * done.
  - intros Hm. unfold serve, authenticated. rewrite Ha.
    rewrite put_messages_read_not_owned by done. by repeat split.
Qed.

(** alice reads the message of [world2]; message 7 does not exist. *)
Lemma read_is_idempotent_witness :
  authenticateToken (Some (Signed 1)) world2 = inr (mkDoc 1%positive alice)
  ∧ messages world2 !! 1%positive = Some notice
  ∧ (let '(res, w1) := serve (PutRead (Some (Signed 1)) 1) world2 in
     res = ok "Message marked as read"
     ∧ serve (PutRead (Some (Signed 1)) 1) w1 = (res, w1))
  ∧ (let '(res, w1) := serve (PutRead (Some (Signed 1)) 7) world2 in
     fails_with NotFound res ∧ w1 = world2).
Proof.
  assert (authenticateToken (Some (Signed 1)) world2 = inr (mkDoc 1%positive alice))
    as Ha by (vm_compute; reflexivity).
  assert (messages world2 !! 1%positive = Some notice)
    as Hm by (vm_compute; reflexivity).
  split; [exact Ha|]. split; [exact Hm|].
  destruct (read_is_idempotent _ _ 1%positive _ Ha) as [Howned _].
  destruct (read_is_idempotent _ _ 7%positive _ Ha) as [_ Hmissing].
  split.
  - specialize (Howned notice Hm eq_refl).
    destruct (serve (PutRead (Some (Signed 1)) 1) world2) as [res w1].
    destruct Howned as (Hres & _ & _ & _ & Hagain). by split.
  - apply Hmissing. vm_compute. reflexivity.
Defined.

(** ** Sending *)

Lemma sendMessageSchema_valid body :
  sendMessageSchema body = None →
  String.eqb (sb_content body) "" = false
  ∧ bool_decide (500 < String.length (sb_content body)) = false.
Proof.
  unfold sendMessageSchema, joi_string.
  destruct (String.eqb (sb_content body) ""); [done|].
  destruct (bool_decide (String.length (sb_content body) < 1)); [done|].
  by destruct (bool_decide (500 < String.length (sb_content body))).
Qed.

Lemma post_messages_send_spec req_user body now w :
  post_messages_send req_user body now w =
    if send_accepted req_user body w then
      let id := fresh (dom (messages w)) in
      (mkRes 201 true (Text "Message sent successfully")
         (SendData id (default true (sb_isAnonymous body))),
       with_messages (λ ms, <[ id := sent_message req_user body now ]> ms) w)
    else ((post_messages_send req_user body now w).1, w).
Proof.
  unfold send_accepted.
  destruct (sendMessageSchema body) as [e|] eqn:Hv.
  { unfold post_messages_send. run. by rewrite Hv. }
  destruct (sendMessageSchema_valid body Hv) as [Hne Hlen].
  rewrite bool_decide_true by done.
  unfold post_messages_send, Message_save. run. rewrite Hv. simpl.
  destruct (User_findOne_active (sb_recipientId body) w) as [recipient|]; simpl; [|done].
  destruct (default true (sb_isAnonymous body)
            && negb (User.allowAnonymousMessages (User.settings (fields recipient))));
    simpl; [done|].
  destruct req_user as [user|]; simpl.
  - destruct (Block_findOne_either (_id user) (sb_recipientId body) w); simpl; [done|].
    destruct (bool_decide (_id user = sb_recipientId body)); simpl; [done|].
    by rewrite Hne, Hlen.
  - by rewrite Hne, Hlen.
Qed.

Lemma post_messages_send_rejected req_user body now w :
  send_accepted req_user body w = false →
  success (post_messages_send req_user body now w).1 = false.
Proof.
  unfold send_accepted.
  destruct (sendMessageSchema body) as [e|] eqn:Hv.
  { intros _. unfold post_messages_send. run. by rewrite Hv. }
  rewrite bool_decide_true by done.
  unfold post_messages_send. run. rewrite Hv. simpl.
  destruct (User_findOne_active (sb_recipientId body) w) as [recipient|]; simpl; [|done].
  destruct (default true (sb_isAnonymous body)
            && negb (User.allowAnonymousMessages (User.settings (fields recipient))));
    simpl; [done|].
  destruct req_user as [user|]; simpl; [|done].
  destruct (Block_findOne_either (_id user) (sb_recipientId body) w); simpl; [done|].
  by destruct (bool_decide (_id user = sb_recipientId body)).
Qed.

(** ** The inbox *)

Lemma insert_desc_perm x l : insert_desc x l ≡ₚ x :: l.
Proof.
  induction l as [|y l IH]; simpl; [done|].
  case_bool_decide; [done|]. rewrite IH. apply Permutation_swap.
Qed.

Lemma sort_createdAt_desc_perm l : sort_createdAt_desc l ≡ₚ l.
Proof.
  induction l as [|x l IH]; simpl; [done|].
  rewrite insert_desc_perm. by f_equiv.
Qed.

Lemma inbox_page_sublist userId page limit w :
  inbox_page userId page limit w
    `sublist_of` sort_createdAt_desc (Message_find_recipient userId w).
Proof. unfold inbox_page. etrans; [apply sublist_take|apply sublist_drop]. Qed.

Lemma inbox_page_stored userId page limit w id m :
  (id, m) ∈ inbox_page userId page limit w →
  messages w !! id = Some m ∧ Message.recipient m = userId.
Proof.
  intros Hin.
  assert ((id, m) ∈ Message_find_recipient userId w) as Hmine.
  { rewrite <- sort_createdAt_desc_perm.
    eapply elem_of_sublist; [exact Hin|apply inbox_page_sublist]. }
  apply list_elem_of_filter in Hmine as [Hr Hm%elem_of_map_to_list]. by split.
Qed.

Lemma get_messages_inbox_eq req_user page limit w :
  get_messages_inbox req_user page limit w =
    (ok_data
       (InboxData
          (formattedMessage <$> (populate_sender w <$>
             inbox_page (_id req_user) page limit w))
          (length (filter (λ p, Message.isRead p.2 = false)
                     (Message_find_recipient (_id req_user) w)))
          (mkPagination (or_default page 1)
             (ceil_div (length (Message_find_recipient (_id req_user) w))
                (or_default limit 20))
             (length (inbox_page (_id req_user) page limit w)))),
     w).
Proof.
  unfold get_messages_inbox, inbox_page, Message_find_recipient. run.
  by rewrite length_fmap.
Qed.

(** ** Stores that differ in hidden senders *)

Lemma differ_in_hidden_sender_fields m1 m2 :
  differ_in_hidden_sender m1 m2 →
  Message.recipient m1 = Message.recipient m2
  ∧ Message.content m1 = Message.content m2
  ∧ Message.image m1 = Message.image m2
  ∧ Message.isAnonymous m1 = Message.isAnonymous m2
  ∧ Message.isRead m1 = Message.isRead m2
  ∧ Message.reply m1 = Message.reply m2
  ∧ Message.createdAt m1 = Message.createdAt m2.
Proof.
  intros [Heq _]. destruct m1, m2. unfold Message.set_sender in Heq. simpl in *.
  injection Heq as -> -> -> -> -> -> ->. by repeat split.
Qed.

Lemma map_to_list_Forall2 (m1 m2 : gmap oid Message.t) :
  map_Forall2 (λ _, differ_in_hidden_sender) m1 m2 →
  Forall2 same_document (map_to_list m1) (map_to_list m2).
Proof.
  intros Hm.
  assert (m1 = fst <$> map_zip m1 m2) as H1.
  { symmetry. apply fst_map_zip. intros k [x Hx]. specialize (Hm k).
    rewrite Hx in Hm. inversion Hm. by eexists. }
  assert (m2 = snd <$> map_zip m1 m2) as H2.
  { symmetry. apply snd_map_zip. intros k [x Hx]. specialize (Hm k).
    rewrite Hx in Hm. inversion Hm. by eexists. }
  rewrite H1 at 1. rewrite H2 at 2. rewrite !map_to_list_fmap.
  apply Forall2_fmap, Forall_Forall2_diag, Forall_forall.
  intros [k [x y]] Hk%elem_of_map_to_list. split; [done|]. simpl.
  apply map_lookup_zip_Some in Hk as [Hx Hy]. specialize (Hm k).
  rewrite Hx, Hy in Hm. by inversion Hm.
Qed.

Lemma insert_desc_Forall2 x y l k :
  same_document x y → Forall2 same_document l k →
  Forall2 same_document (insert_desc x l) (insert_desc y k).
Proof.
  intros Hxy Hlk. induction Hlk as [|a b l k Hab Hlk IH]; simpl.
  - constructor; [done|constructor].
  - destruct Hxy as [Hid Hxy], Hab as [Hid' Hab].
    pose proof (differ_in_hidden_sender_fields _ _ Hxy) as (_&_&_&_&_&_&Hx).
    pose proof (differ_in_hidden_sender_fields _ _ Hab) as (_&_&_&_&_&_&Ha).
    rewrite Hx, Ha. case_bool_decide.
    + constructor; [done|]. by constructor.
    + by constructor.
Qed.

Lemma sort_createdAt_desc_Forall2 l k :
  Forall2 same_document l k →
  Forall2 same_document (sort_createdAt_desc l) (sort_createdAt_desc k).
Proof.
  induction 1; simpl; [constructor|]. by apply insert_desc_Forall2.
Qed.

Lemma Message_find_recipient_Forall2 userId w1 w2 :
  differ_in_hidden_senders w1 w2 →
  Forall2 same_document (Message_find_recipient userId w1)
    (Message_find_recipient userId w2).
Proof.
  intros [_ Hm]. unfold Message_find_recipient.
  apply Forall2_filter; [|by apply map_to_list_Forall2].
  intros p q [_ Hpq].
  pose proof (differ_in_hidden_sender_fields _ _ Hpq) as (Hr&_). by rewrite Hr.
Qed.

Lemma formattedMessage_Forall2 w1 w2 p q :
  users w1 = users w2 → same_document p q →
  formattedMessage (populate_sender w1 p) = formattedMessage (populate_sender w2 q).
Proof.
  intros Hu [Hid Hpq]. destruct p as [i m1], q as [j m2]. simpl in *. subst j.
  pose proof (differ_in_hidden_sender_fields _ _ Hpq) as (_&Hc&Hi&Ha&Hr&Hrep&Ht).
  destruct Hpq as [_ Hs].
  rewrite Hc, Hi, Ha, Hr, Hrep, Ht, Hu.
  destruct (Message.isAnonymous m2); [done|]. rewrite Hs; [done|]. by rewrite Ha.
Qed.

Lemma get_messages_inbox_hidden_senders req_user page limit w1 w2 :
  differ_in_hidden_senders w1 w2 →
  (get_messages_inbox req_user page limit w1).1
  = (get_messages_inbox req_user page limit w2).1.
Proof.
  intros Hw. rewrite !get_messages_inbox_eq. cbn [fst].
  pose proof (Message_find_recipient_Forall2 (_id req_user) _ _ Hw) as Hmine.
  assert (Forall2 same_document (inbox_page (_id req_user) page limit w1)
            (inbox_page (_id req_user) page limit w2)) as Hpage.
  { unfold inbox_page. by apply Forall2_take, Forall2_drop, sort_createdAt_desc_Forall2. }
  f_equal. f_equal; [| |f_equal].
  - rewrite <- !list_fmap_compose. apply list_eq_Forall2, Forall2_fmap.
    eapply Forall2_impl; [exact Hpage|]. intros p q Hpq. simpl.
    apply formattedMessage_Forall2; [apply Hw|done].
  - eapply Forall2_length, Forall2_filter; [|exact Hmine].
    intros p q [_ Hpq].
    pose proof (differ_in_hidden_sender_fields _ _ Hpq) as (_&_&_&_&Hr&_).
    by rewrite Hr.
  - f_equal. by eapply Forall2_length.
  - by eapply Forall2_length.
Qed.

Lemma formattedMessage_stored w userId page limit item :
  item ∈ formattedMessage <$> (populate_sender w <$> inbox_page userId page limit w) →
  ∃ m, messages w !! ii_id item = Some m
       ∧ Message.recipient m = userId
       ∧ ii_content item = Message.content m
       ∧ ii_image item = Message.image m
       ∧ ii_isAnonymous item = Message.isAnonymous m
       ∧ ii_isRead item = Message.isRead m
       ∧ ii_reply item = Message.reply m
       ∧ ii_createdAt item = Message.createdAt m
       ∧ ii_sender item =
           if Message.isAnonymous m then None
           else Message.sender m ≫= λ s,
                  (λ u, mkSenderInfo s (User.username u) (User.firstName u)
                          (User.lastName u) (User.profilePicture u)) <$> users w !! s.
Proof.
  intros (p & -> & (d & -> & Hd)%list_elem_of_fmap)%list_elem_of_fmap.
  destruct d as [id m]. apply inbox_page_stored in Hd as [Hm Hr].
  exists m. by repeat split.
Qed.

(** C5. (1) Whoever the caller is, a send with the anonymity flag requested
    (or left to its default) that succeeds stores a new message whose sender
    is null and whose flag is true. (2) An authenticated caller is answered
    with an inbox, and every item of an inbox answer shows the stored
    message of its id, with the flag and the content of that message, and
    its sender is null whenever the flag of the stored message is true.
    (3) The inbox projection of an anonymous message does not
    depend on the sender reference that is stored. (4) Two stores with the
    same users whose messages differ only in the sender references stored
    with anonymous messages give the same inbox answer to every request. *)
Theorem anonymous_sender_is_hidden :
  (∀ w hdr body now,
     default true (sb_isAnonymous body) = true →
     let '(res, w') := serve (PostSend hdr body now) w in
     success res = true →
     ∃ id m, data res = SendData id true
             ∧ messages w !! id = None
             ∧ messages w' = <[ id := m ]> (messages w)
             ∧ Message.sender m = None
             ∧ Message.isAnonymous m = true)
  ∧ (∀ w hdr user page limit,
       authenticateToken hdr w = inr user →
       ∃ items unread pg,
         serve (GetInbox hdr page limit) w = (ok_data (InboxData items unread pg), w))
  ∧ (∀ w hdr page limit items unread pg,
       data (serve (GetInbox hdr page limit) w).1 = InboxData items unread pg →
       Forall (λ item,
                 (ii_isAnonymous item = true → ii_sender item = None)
                 ∧ ∃ m, messages w !! ii_id item = Some m
                        ∧ ii_isAnonymous item = Message.isAnonymous m
                        ∧ ii_content item = Message.content m
                        ∧ (Message.isAnonymous m = true → ii_sender item = None))
              items)
  ∧ (∀ w id m s,
       Message.isAnonymous m = true →
       formattedMessage (populate_sender w (id, Message.set_sender s m))
       = formattedMessage (populate_sender w (id, m)))
  ∧ (∀ w1 w2 hdr page limit,
       differ_in_hidden_senders w1 w2 →
       (serve (GetInbox hdr page limit) w1).1 = (serve (GetInbox hdr page limit) w2).1).
Proof.
  split; [|split; [|split; [|split]]].
  - intros w hdr body now Hanon. unfold serve, optionally_authenticated.
    rewrite post_messages_send_spec.
    destruct (send_accepted (optionalAuth hdr w) body w) eqn:Hacc.
    + intros _. exists (fresh (dom (messages w))), (sent_message (optionalAuth hdr w) body now).
      rewrite Hanon. repeat split.
      * apply not_elem_of_dom, is_fresh.
      * unfold sent_message. rewrite Hanon. simpl. by destruct (optionalAuth hdr w).
      * unfold sent_message. by rewrite Hanon.
    + intros Hs. by rewrite post_messages_send_rejected in Hs.
  - intros w hdr user page limit Ha. unfold serve, authenticated.
    rewrite Ha, get_messages_inbox_eq. by eexists _, _, _.
  - intros w hdr page limit items unread pg. unfold serve, authenticated.
    destruct (authenticateToken hdr w) as [e|user] eqn:Ha.
    + apply authenticateToken_rejects_data in Ha. simpl. by rewrite Ha.
    + rewrite get_messages_inbox_eq. simpl. intros [= <- _ _].
      apply Forall_forall. intros item Hitem.
      apply formattedMessage_stored in Hitem
        as (m & Hm & _ & Hc & _ & Ha' & _ & _ & _ & Hs).
      split.
      * rewrite Ha'. intros Hanon. by rewrite Hs, Hanon.
      * exists m. repeat split; [done..|]. intros Hanon. by rewrite Hs, Hanon.
  - intros w id m s Hanon. unfold populate_sender, formattedMessage. simpl.
    by rewrite Hanon.
  - intros w1 w2 hdr page limit Hw. unfold serve, authenticated.
    assert (authenticateToken hdr w1 = authenticateToken hdr w2) as ->.
    { unfold authenticateToken. by rewrite (proj1 Hw). }
    destruct (authenticateToken hdr w2) as [e|user]; [done|].
    by apply get_messages_inbox_hidden_senders.
Qed.

(** alice, authenticated, sends bob a message without an [isAnonymous] key.
    bob's inbox in [world5], whose anonymous message stores alice as its
    sender, shows one item without a sender, and it is the answer he gets
    when the message stores no sender. *)
Lemma anonymous_sender_witness :
  (let '(res, w') :=
     serve (PostSend (Some (Signed 1)) (mkSendBody 2 "psst" None None) 5) world0 in
   success res = true →
   ∃ id m, data res = SendData id true
           ∧ messages world0 !! id = None
           ∧ messages w' = <[ id := m ]> (messages world0)
           ∧ Message.sender m = None
           ∧ Message.isAnonymous m = true)
  ∧ success (serve (PostSend (Some (Signed 1)) (mkSendBody 2 "psst" None None) 5)
               world0).1 = true
  ∧ (∃ items unread pg,
       data (serve (GetInbox (Some (Signed 2)) None None) (world5 (Some 1%positive))).1
         = InboxData items unread pg
       ∧ ii_sender <$> items = [None]
       ∧ Forall (λ item,
                   (ii_isAnonymous item = true → ii_sender item = None)
                   ∧ ∃ m, messages (world5 (Some 1%positive)) !! ii_id item = Some m
                          ∧ ii_isAnonymous item = Message.isAnonymous m
                          ∧ ii_content item = Message.content m
                          ∧ (Message.isAnonymous m = true → ii_sender item = None))
                items)
  ∧ formattedMessage
      (populate_sender world0
         (1%positive, Message.set_sender (Some 1%positive) (whisper None)))
    = formattedMessage (populate_sender world0 (1%positive, whisper None))
  ∧ (serve (GetInbox (Some (Signed 2)) None None) (world5 (Some 1%positive))).1
    = (serve (GetInbox (Some (Signed 2)) None None) (world5 None)).1.
Proof.
  destruct anonymous_sender_is_hidden as (Hsend & _ & Hinbox & Hproj & Hsame).
  split; [|split; [|split; [|split]]].
  - apply (Hsend world0 (Some (Signed 1)) (mkSendBody 2 "psst" None None) 5).
    reflexivity.
  - vm_compute. reflexivity.
  - eexists _, _, _. split; [vm_compute; reflexivity|]. split; [reflexivity|].
    eapply (Hinbox (world5 (Some 1%positive)) (Some (Signed 2)) None None).
    vm_compute. reflexivity.
  - apply Hproj. reflexivity.
  - apply Hsame. split; [reflexivity|]. unfold world5. cbn [messages].
    apply map_Forall2_singleton. split; [reflexivity|]. discriminate.
Defined.

Lemma optionalAuth_unauthenticated w hdr :
  unauthenticated w hdr → optionalAuth hdr w = None.
Proof.
  intros H. inversion H as [ | | |uid Hu|uid u Hu Hs]; subst; simpl; try done.
  - by rewrite Hu.
  - rewrite Hu. unfold User.is_active. by destruct (User.status u).
Qed.

(** C9. When [optionalAuth] leaves [req.user] unset (no token, an invalid or
    expired token, the token of an unknown or non-active user), neither the
    block check nor the self-send check runs: an anonymous send with a valid
    body to an active recipient who accepts anonymous messages is answered
    201 and stored with a null sender, whatever block edges the store
    holds. *)
Theorem unauthenticated_send_skips_block_check w hdr body now recipient :
  unauthenticated w hdr →
  users w !! sb_recipientId body = Some recipient →
  User.status recipient = User.active →
  User.allowAnonymousMessages (User.settings recipient) = true →
  sendMessageSchema body = None →
  sb_isAnonymous body ≠ Some false →
  let '(res, w') := serve (PostSend hdr body now) w in
  code res = 201 ∧ success res = true
  ∧ ∃ id, data res = SendData id true
          ∧ messages w !! id = None
          ∧ messages w' =
              <[ id := Message.mk (sb_recipientId body) None (sb_content body)
                         (sb_image body) true false Message.no_reply now ]>
                (messages w)
          ∧ blocks w' = blocks w.
Proof.
  intros Hun Hr Hact Hallow Hv Hanon. unfold serve, optionally_authenticated.
  rewrite (optionalAuth_unauthenticated _ _ Hun), post_messages_send_spec.
  assert (default true (sb_isAnonymous body) = true) as Hd.
  { destruct (sb_isAnonymous body) as [[]|]; done. }
  unfold send_accepted, User_findOne_active, User.is_active, sent_message.
  rewrite Hv, Hr, Hact, Hd. simpl. rewrite Hallow. simpl.
  repeat split. exists (fresh (dom (messages w))). repeat split.
  apply not_elem_of_dom, is_fresh.
Qed.

(** In [world2] alice has blocked carol, who is banned. With her token carol
    still delivers an anonymous message to alice. *)
Lemma unauthenticated_send_witness :
  unauthenticated world2 (Some (Signed 3))
  ∧ Block_findOne_either 3 1 world2 = true
  ∧ let '(res, w') :=
      serve (PostSend (Some (Signed 3)) (mkSendBody 1 "boo" None (Some true)) 40)
        world2 in
    code res = 201 ∧ success res = true
    ∧ ∃ id, data res = SendData id true
            ∧ messages world2 !! id = None
            ∧ messages w' =
                <[ id := Message.mk 1 None "boo" None true false Message.no_reply 40 ]>
                  (messages world2)
            ∧ blocks w' = blocks world2.
Proof.
  assert (unauthenticated world2 (Some (Signed 3))) as Hun.
  { apply (inactive_user world2 3%positive carol).
    - vm_compute. reflexivity.
    - discriminate. }
  split; [exact Hun|]. split; [vm_compute; reflexivity|].
  apply (unauthenticated_send_skips_block_check world2 (Some (Signed 3))
           (mkSendBody 1 "boo" None (Some true)) 40 alice Hun).
  - vm_compute. reflexivity.
  - reflexivity.
  - reflexivity.
  - vm_compute. reflexivity.
  - discriminate.
Defined.

(** ** Looking a profile up *)

Lemma get_users_identifier_viewer viewer identifier target w :
  User_findOne_identifier identifier w = Some target →
  (get_users_identifier (Some viewer) identifier w).1 =
    if Block_findOne (_id target) (_id viewer) w
    then failure 403 "You are blocked by this user"
    else ok_data
           (ProfileData (getPublicProfile target)
              (size (filter (λ p, p.2 = _id target) (follows w)))
              (size (filter (λ p, p.1 = _id target) (follows w)))
              (Follow_findOne (_id viewer) (_id target) w)
              (User.allowAnonymousMessages (User.settings (fields target)) || true)).
Proof.
  intros Ht. unfold get_users_identifier. run. rewrite Ht. simpl.
  by destruct (Block_findOne (_id target) (_id viewer) w).
Qed.

(** C4 (amended). For an authenticated viewer and the user that the lookup
    finds, the profile lookup fails with Forbidden whenever the target has
    blocked the viewer; when the target has not blocked the viewer the lookup
    succeeds, also if the viewer has blocked the target. *)
Theorem profile_lookup_forbidden_only_when_blocked_by_target
    w hdr viewer identifier target :
  optionalAuth hdr w = Some viewer →
  User_findOne_identifier identifier w = Some target →
  let res := (serve (GetUser hdr identifier) w).1 in
  (is_Some (blocks w !! (_id target, _id viewer)) → fails_with Forbidden res)
  ∧ (blocks w !! (_id target, _id viewer) = None →
     code res = 200 ∧ success res = true).
Proof.
  intros Hv Ht. cbv zeta. unfold serve, optionally_authenticated.
  rewrite Hv, (get_users_identifier_viewer _ _ target) by done.
  unfold Block_findOne. split.
  - intros Hb. by rewrite bool_decide_true.
  - intros Hb. rewrite bool_decide_false; [done|].
    rewrite Hb. by intros [? ?].
Qed.

(** In [world3], where alice has blocked bob, bob may not look alice up. *)
Lemma profile_lookup_witness :
  optionalAuth (Some (Signed 2)) world3 = Some (mkDoc 2%positive bob)
  ∧ User_findOne_identifier "alice" world3 = Some (mkDoc 1%positive alice)
  ∧ Block_findOne 1 2 world3 = true
  ∧ fails_with Forbidden (serve (GetUser (Some (Signed 2)) "alice") world3).1.
Proof.
  assert (optionalAuth (Some (Signed 2)) world3 = Some (mkDoc 2%positive bob))
    as Hv by (vm_compute; reflexivity).
  assert (User_findOne_identifier "alice" world3 = Some (mkDoc 1%positive alice))
    as Ht by (vm_compute; reflexivity).
  split; [exact Hv|]. split; [exact Ht|]. split; [vm_compute; reflexivity|].
  apply (profile_lookup_forbidden_only_when_blocked_by_target _ _ _ _ _ Hv Ht).
  vm_compute. eexists. reflexivity.
Defined.

(** C4, as stated, fails: alice has blocked bob, a block edge exists between
    the two, and alice's lookup of bob is answered 200 with his profile. *)
Lemma blocker_can_look_blocked_user_up :
  Block_findOne_either 1 2 world3 = true
  ∧ optionalAuth (Some (Signed 1)) world3 = Some (mkDoc 1%positive alice)
  ∧ code (serve (GetUser (Some (Signed 1)) "bob") world3).1 = 200
  ∧ success (serve (GetUser (Some (Signed 1)) "bob") world3).1 = true.
Proof. vm_compute. repeat split. Qed.

(** ** Duplicates *)

Lemma post_users_follow_duplicate req_user userId w :
  (_id req_user, userId) ∈ follows w →
  is_Some (User_findOne_active userId w) →
  ∃ m, post_users_follow req_user userId w = (failure 400 m, w).
Proof.
  intros Hf [u Hu]. unfold post_users_follow. run.
  destruct (bool_decide (userId = _id req_user)); simpl; [by eexists|].
  rewrite Hu. simpl. unfold Follow_findOne. rewrite bool_decide_true by done.
  by eexists.
Qed.

Lemma post_messages_reply_duplicate req_user messageId m content isPublic now w :
  messages w !! messageId = Some m →
  Message.recipient m = _id req_user →
  Message.has_reply m = true →
  ∃ msg, post_messages_reply req_user messageId content isPublic now w
         = (mkRes 400 false msg NoData, w).
Proof.
  intros Hm Hr Hrep. unfold post_messages_reply, Message_findOne_owned. run.
  destruct (replyMessageSchema content); simpl; [by eexists|].
  rewrite Hm. rewrite bool_decide_true by done. simpl. rewrite Hrep.
  by eexists.
Qed.

Lemma post_messages_report_duplicate req_user messageId type description screenshot now w :
  is_Some (messages w !! messageId) →
  Report_findOne (_id req_user) messageId w = true →
  ∃ m, post_messages_report req_user messageId type description screenshot now w
       = (failure 400 m, w).
Proof.
  intros [m Hm] Hrep. unfold post_messages_report, Message_findById. run.
  destruct (falsy type || falsy description); simpl; [by eexists|].
  rewrite Hm. simpl. rewrite Hrep. by eexists.
Qed.

Lemma post_messages_report_missing req_user messageId type description screenshot now w :
  messages w !! messageId = None →
  ∃ m, post_messages_report req_user messageId type description screenshot now w
       = (failure (if falsy type || falsy description then 400 else 404) m, w).
Proof.
  intros Hm. unfold post_messages_report, Message_findById. run.
  destruct (falsy type || falsy description); simpl; [by eexists|].
  rewrite Hm. simpl. by eexists.
Qed.

(** C6 (amended). The three uniqueness violations are answered with status
    400, not 409, and change nothing: a Follow of an active user along an
    edge that exists, a Reply by its recipient to a message that has a reply,
    and a Report of a message that is still stored by a user who has
    reported it. Once the message is gone, a repeated Report is refused
    without a change as well, but with 404 when type and description are
    given: the handler looks the message up before the earlier report. *)
Theorem duplicates_are_answered_400 :
  (∀ w hdr user userId,
     authenticateToken hdr w = inr user →
     (_id user, userId) ∈ follows w →
     is_Some (User_findOne_active userId w) →
     let '(res, w') := serve (PostFollow hdr userId) w in
     code res = 400 ∧ success res = false ∧ w' = w)
  ∧ (∀ w hdr user messageId m content isPublic now,
       authenticateToken hdr w = inr user →
       messages w !! messageId = Some m →
       Message.recipient m = _id user →
       Message.has_reply m = true →
       let '(res, w') := serve (PostReply hdr messageId content isPublic now) w in
       code res = 400 ∧ success res = false ∧ w' = w)
  ∧ (∀ w hdr user messageId type description screenshot now,
       authenticateToken hdr w = inr user →
       is_Some (messages w !! messageId) →
       Report_findOne (_id user) messageId w = true →
       let '(res, w') :=
         serve (PostReport hdr messageId type description screenshot now) w in
       code res = 400 ∧ success res = false ∧ w' = w)
  ∧ (∀ w hdr user messageId type description screenshot now,
       authenticateToken hdr w = inr user →
       messages w !! messageId = None →
       Report_findOne (_id user) messageId w = true →
       let '(res, w') :=
         serve (PostReport hdr messageId type description screenshot now) w in
       code res = (if falsy type || falsy description then 400 else 404)
       ∧ success res = false ∧ w' = w).
Proof.
  split; [|split; [|split]].
  - intros w hdr user userId Ha Hf Hu. unfold serve, authenticated. rewrite Ha.
    by destruct (post_users_follow_duplicate user userId w Hf Hu) as [m ->].
  - intros w hdr user messageId m content isPublic now Ha Hm Hr Hrep.
    unfold serve, authenticated. rewrite Ha.
    by destruct (post_messages_reply_duplicate user messageId m content isPublic
                   now w Hm Hr Hrep) as [msg ->].
  - intros w hdr user messageId type description screenshot now Ha Hm Hrep.
    unfold serve, authenticated. rewrite Ha.
    by destruct (post_messages_report_duplicate user messageId type description
                   screenshot now w Hm Hrep) as [m ->].
  - intros w hdr user messageId type description screenshot now Ha Hm _.
    unfold serve, authenticated. rewrite Ha.
    by destruct (post_messages_report_missing user messageId type description
                   screenshot now w Hm) as [m ->].
Qed.

(** In [world1] alice follows bob already, bob has replied to message 1 and
    has reported it. In [world4] bob has deleted the message since. *)
Lemma duplicates_witness :
  (let '(res, w') := serve (PostFollow (Some (Signed 1)) 2) world1 in
   code res = 400 ∧ success res = false ∧ w' = world1)
  ∧ (let '(res, w') :=
       serve (PostReply (Some (Signed 2)) 1 "again" None 50) world1 in
     code res = 400 ∧ success res = false ∧ w' = world1)
  ∧ (let '(res, w') :=
       serve (PostReport (Some (Signed 2)) 1 (Some "spam") (Some "again") None 51)
         world1 in
     code res = 400 ∧ success res = false ∧ w' = world1)
  ∧ (let '(res, w') :=
       serve (PostReport (Some (Signed 2)) 1 (Some "spam") (Some "again") None 51)
         world4 in
     code res = 404 ∧ success res = false ∧ w' = world4).
Proof.
  destruct duplicates_are_answered_400 as (Hfollow & Hreply & Hreport & Hgone).
  split; [|split; [|split]].
  - apply (Hfollow world1 (Some (Signed 1)) (mkDoc 1%positive alice) 2%positive).
    + vm_compute. reflexivity.
    + apply (bool_decide_unpack _). vm_compute. exact I.
    + vm_compute. eexists. reflexivity.
  - eapply (Hreply world1 (Some (Signed 2)) (mkDoc 2%positive bob) 1%positive).
    + vm_compute. reflexivity.
    + vm_compute. reflexivity.
    + reflexivity.
    + reflexivity.
  - apply (Hreport world1 (Some (Signed 2)) (mkDoc 2%positive bob) 1%positive).
    + vm_compute. reflexivity.
    + vm_compute. eexists. reflexivity.
    + vm_compute. reflexivity.
  - apply (Hgone world4 (Some (Signed 2)) (mkDoc 2%positive bob) 1%positive
             (Some "spam") (Some "again") None 51).
    + vm_compute. reflexivity.
    + vm_compute. reflexivity.
    + vm_compute. reflexivity.
Defined.

(** C6, as stated, fails: none of the three duplicates of [world1] is
    answered 409; they are answered 400, which the taxonomy reads as a
    validation error. Nor is bob's repeated report in [world4], where his
    earlier report of the deleted message is still stored: it is answered
    404. *)
Lemma duplicates_are_not_conflicts :
  code (serve (PostFollow (Some (Signed 1)) 2) world1).1 = 400
  ∧ code (serve (PostReply (Some (Signed 2)) 1 "again" None 50) world1).1 = 400
  ∧ code (serve (PostReport (Some (Signed 2)) 1 (Some "spam") (Some "again")
                   None 51) world1).1 = 400
  ∧ kind_of_code 400 = Some ValidationError
  ∧ Report_findOne 2 1 world4 = true
  ∧ messages world4 !! 1%positive = None
  ∧ code (serve (PostReport (Some (Signed 2)) 1 (Some "spam") (Some "again")
                   None 51) world4).1 = 404.
Proof. vm_compute. repeat split. Qed.

(** ** Mail *)

Lemma outbox_social o w w' :
  follows w' = follows w → blocks w' = blocks w → outbox w' = outbox w →
  outbox w = o → outbox w' = o.
Proof. by intros _ _ ->. Qed.

Lemma Follow_save_outbox o a b : preserves (λ w, outbox w = o) (Follow_save a b).
Proof. intros w Hw. unfold Follow_save. by repeat case_match. Qed.

Lemma Block_save_outbox o a b r : preserves (λ w, outbox w = o) (Block_save a b r).
Proof. intros w Hw. unfold Block_save. by repeat case_match. Qed.

Ltac outbox_step HP :=
  lazymatch goal with
  | |- preserves _ (Follow_save _ _) => apply Follow_save_outbox
  | |- preserves _ (Block_save _ _ _) => apply Block_save_outbox
  | |- preserves _ (Follow_deleteMany_between _ _) =>
      apply preserves_modify; intros ? ?; assumption
  | |- preserves _ (modify _) => apply preserves_modify; intros ? ?; assumption
  | |- _ => frame_step HP
  end.

Ltac outbox_route h HP :=
  intros ?; unfold h; apply preserves_try_catch;
  [cbv zeta; repeat outbox_step HP | assumption].

(** No route hands a mail to the e-mail service. *)
Lemma no_route_sends_mail req w o :
  outbox w = o → outbox (serve req w).2 = o.
Proof.
  pose proof (outbox_social o) as HP.
  destruct req; simpl;
    first [ apply (admin_only_preserves (λ w, outbox w = o))
          | apply (authenticated_preserves (λ w, outbox w = o))
          | apply (optionally_authenticated_preserves (λ w, outbox w = o)) ];
    intros u.
  - outbox_route put_users_profile HP.
  - outbox_route put_users_settings HP.
  - outbox_route get_users_identifier HP.
  - outbox_route post_users_follow HP.
  - outbox_route delete_users_unfollow HP.
  - outbox_route post_users_block HP.
  - outbox_route delete_users_unblock HP.
  - outbox_route post_messages_send HP.
  - outbox_route get_messages_inbox HP.
  - outbox_route put_messages_read HP.
  - outbox_route post_messages_reply HP.
  - outbox_route delete_messages HP.
  - outbox_route post_messages_report HP.
  - outbox_route put_admin_users_status HP.
  - outbox_route put_admin_reports_review HP.
  - outbox_route delete_admin_messages HP.
Qed.

(** A Send hands no mail to the e-mail service, whatever the caller, the
    body and the recipient's [emailNotifications] preference. *)
Lemma send_hands_no_mail_to_the_transporter w hdr body now :
  outbox (serve (PostSend hdr body now) w).2 = outbox w.
Proof.
  unfold serve, optionally_authenticated. rewrite post_messages_send_spec.
  by destruct (send_accepted (optionalAuth hdr w) body w).
Qed.

(** What a call of the notifier would have left behind: with a transporter
    that accepts the mail, the notification is the one mail added to the
    outbox; without a transporter, or when [sendMail] rejects, nothing is. *)
Lemma sendNewMessageNotification_outbox this email recipientName senderName isAnonymous w :
  let mail :=
    Email.mk email (Email.NewMessageNotification recipientName senderName isAnonymous) in
  let '(sent, w') :=
    sendNewMessageNotification this email recipientName senderName isAnonymous w in
  sent = from_option (λ sendMail, sendMail mail) false (transporter this)
  ∧ w' = if sent then with_outbox (λ o, (o ++ [mail])%list) w else w.
Proof.
  unfold sendNewMessageNotification, EmailService_sendEmail.
  destruct (transporter this) as [sendMail|]; simpl; [|done].
  by destruct (sendMail _).
Qed.

(** C7. bob has [emailNotifications] set, alice's message to him is accepted
    and stored, and the outbox is as empty after the request as before it:
    the send handler does not call [sendNewMessageNotification], and bob is
    not notified. Had the notifier been called for bob with a transporter
    that accepts the mail, the notification would be in the outbox. *)
Theorem accepted_send_notifies_nobody :
  let '(res, w') :=
    serve (PostSend (Some (Signed 1)) (mkSendBody 2 "hello" None (Some false)) 7)
      world0 in
  User.emailNotifications (User.settings bob) = true
  ∧ users world0 !! 2%positive = Some bob
  ∧ code res = 201
  ∧ success res = true
  ∧ (∃ id m, messages w' !! id = Some m ∧ Message.recipient m = 2%positive)
  ∧ outbox world0 = []
  ∧ outbox w' = []
  ∧ ∀ this sendMail senderName isAnonymous,
      let mail :=
        Email.mk (User.email bob)
          (Email.NewMessageNotification (User.firstName bob) senderName isAnonymous) in
      transporter this = Some sendMail →
      sendMail mail = true →
      outbox (sendNewMessageNotification this (User.email bob) (User.firstName bob)
                senderName isAnonymous w').2 = [mail].
Proof.
  destruct (serve _ world0) as [res w'] eqn:Hserve.
  assert (outbox w' = []) as Hout.
  { change w' with (res, w').2. rewrite <- Hserve. vm_compute. reflexivity. }
  assert (res = (res, w').1) as Hres by done. rewrite <- Hserve in Hres.
  assert (w' = (res, w').2) as Hw' by done. rewrite <- Hserve in Hw'.
  split; [reflexivity|]. split; [vm_compute; reflexivity|].
  split; [rewrite Hres; vm_compute; reflexivity|].
  split; [rewrite Hres; vm_compute; reflexivity|].
  split; [exists 1%positive; rewrite Hw'; vm_compute; by eexists|].
  split; [reflexivity|]. split; [exact Hout|].
  intros this sendMail senderName isAnonymous mail Ht Hs.
  pose proof (sendNewMessageNotification_outbox this (User.email bob)
                (User.firstName bob) senderName isAnonymous w') as Hn.
  cbv zeta in Hn.
  destruct (sendNewMessageNotification _ _ _ _ _ w') as [sent w2].
  destruct Hn as [-> ->]. subst mail. rewrite Ht. cbn [from_option].
  rewrite Hs. cbn [snd]. unfold with_outbox. cbn [outbox]. by rewrite Hout.
Qed.

(** * Further properties

    Properties of the handlers beyond the design document's, each proved for
    every request of [Request] or for the read-only routes.

    ** Weakest preconditions

    The rules below turn a statement about the answer and the store that a
    handler leaves into one verification condition per path through its
    body, with the outcome of every guard on the path as a hypothesis. *)

Section WP.
Context {A : Type} (Q : A → World → Prop) (S : Response → World → Prop)
  (T : World → Prop) (w : World).

Lemma wp_ret a : Q a w → wp (mret a) Q S T w.
Proof. done. Qed.

Lemma wp_bind {B} (m : Handler B) (f : B → Handler A) :
  wp m (λ b w', wp (f b) Q S T w') S T w → wp (m ≫= f) Q S T w.
Proof.
  unfold wp, mbind, handler_bind. by destruct (m w) as [[b|r|] w'].
Qed.

Lemma wp_send r : S r w → wp (send r) Q S T w.
Proof. done. Qed.

Lemma wp_throw : T w → wp throw Q S T w.
Proof. done. Qed.

Lemma wp_gets (f : World → A) : Q (f w) w → wp (gets f) Q S T w.
Proof. done. Qed.

Lemma wp_found (q : World → option A) r :
  (q w = None → S r w) → (∀ a, q w = Some a → Q a w) → wp (found q r) Q S T w.
Proof. unfold wp, found. destruct (q w); auto. Qed.

Lemma wp_must (q : World → option A) :
  (q w = None → T w) → (∀ a, q w = Some a → Q a w) → wp (must q) Q S T w.
Proof. unfold wp, must. destruct (q w); auto. Qed.

End WP.

Section WPUnit.
Context (Q : unit → World → Prop) (S : Response → World → Prop)
  (T : World → Prop) (w : World).

Lemma wp_modify f : Q tt (f w) → wp (modify f) Q S T w.
Proof. done. Qed.

Lemma wp_reject_if c r :
  (c = true → S r w) → (c = false → Q tt w) → wp (reject_if c r) Q S T w.
Proof. destruct c; unfold wp; simpl; auto. Qed.

Lemma wp_reject_invalid e :
  (∀ d, e = Some d → S (mkRes 400 false (Detail d) NoData) w) →
  (e = None → Q tt w) → wp (reject_invalid e) Q S T w.
Proof. destruct e; unfold wp; simpl; auto. Qed.

Lemma wp_Follow_save a b :
  (a = b ∨ (a, b) ∈ follows w → T w) →
  (a ≠ b → (a, b) ∉ follows w →
   Q tt (with_follows (λ s, {[ (a, b) ]} ∪ s) w)) →
  wp (Follow_save a b) Q S T w.
Proof.
  intros HT HQ. unfold wp, Follow_save, Follow_findOne.
  repeat case_bool_decide; auto.
Qed.

Lemma wp_Block_save a b reason :
  (200 < String.length (default "" reason) ∨ a = b ∨ is_Some (blocks w !! (a, b)) → T w) →
  ((String.length (default "" reason) ≤ 200)%nat → a ≠ b → blocks w !! (a, b) = None →
   Q tt (with_blocks (λ m, <[ (a, b) := reason ]> m) w)) →
  wp (Block_save a b reason) Q S T w.
Proof.
  intros HT HQ. unfold wp, Block_save, Block_findOne.
  repeat case_bool_decide; auto.
  apply HQ; [lia|done|]. by apply eq_None_not_Some.
Qed.

Lemma wp_Report_update r :
  (500 < String.length (default "" (Report.adminNotes (fields r))) → T w) →
  ((String.length (default "" (Report.adminNotes (fields r))) ≤ 500)%nat →
   Q tt (with_reports (λ rs, <[ _id r := fields r ]> rs) w)) →
  wp (Report_update r) Q S T w.
Proof.
  intros HT HQ. unfold wp, Report_update. case_bool_decide; auto. apply HQ. lia.
Qed.

End WPUnit.

Section WPId.
Context (Q : oid → World → Prop) (S : Response → World → Prop)
  (T : World → Prop) (w : World).

Lemma wp_Message_save m :
  (T w) →
  (Message.content m ≠ "" → (String.length (Message.content m) ≤ 500)%nat →
   messages w !! fresh (dom (messages w)) = None →
   Q (fresh (dom (messages w)))
     (with_messages (λ ms, <[ fresh (dom (messages w)) := m ]> ms) w)) →
  wp (Message_save m) Q S T w.
Proof.
  intros HT HQ. unfold wp, Message_save.
  destruct (String.eqb (Message.content m) "") eqn:He; [done|].
  case_bool_decide; [done|]. simpl. apply HQ.
  - by apply String.eqb_neq.
  - lia.
  - apply not_elem_of_dom, is_fresh.
Qed.

Lemma wp_Report_save reporter rm ru type description screenshot now :
  (T w) →
  (∀ ty, Report.parse_type type = Some ty →
   (String.length description ≤ 500)%nat →
   reports w !! fresh (dom (reports w)) = None →
   Q (fresh (dom (reports w)))
     (with_reports
        (λ rs, <[ fresh (dom (reports w)) :=
                   Report.mk reporter ru rm ty description screenshot
                     Report.pending None None None now ]> rs) w)) →
  wp (Report_save reporter rm ru type description screenshot now) Q S T w.
Proof.
  intros HT HQ. unfold wp, Report_save.
  destruct (Report.parse_type type); [|done].
  case_bool_decide; [done|]. apply HQ; [done|lia|]. apply not_elem_of_dom, is_fresh.
Qed.

End WPId.

Lemma wp_try_catch (Φ : Response * World → Prop) body m w :
  wp body (λ r w', Φ (r, w')) (λ r w', Φ (r, w')) (λ w', Φ (failure 500 m, w')) w →
  Φ (try_catch body m w).
Proof. unfold wp, try_catch. by destruct (body w) as [[r|r|] w']. Qed.

Lemma wp_authenticated (Φ : Response * World → Prop) hdr h w :
  (∀ e, authenticateToken hdr w = inl e → Φ (e, w)) →
  (∀ u, authenticateToken hdr w = inr u → Φ (h u w)) →
  Φ (authenticated hdr h w).
Proof. unfold authenticated. destruct (authenticateToken hdr w); auto. Qed.

Lemma wp_admin_only (Φ : Response * World → Prop) hdr h w :
  (∀ e, authenticateToken hdr w = inl e → Φ (e, w)) →
  (∀ u, authenticateToken hdr w = inr u → User.isAdmin (fields u) = false →
        Φ (failure 403 "Admin access required", w)) →
  (∀ u, authenticateToken hdr w = inr u → User.isAdmin (fields u) = true →
        Φ (h u w)) →
  Φ (admin_only hdr h w).
Proof.
  intros He Hn Ha. unfold admin_only. apply wp_authenticated; [done|].
  intros u Hu. unfold requireAdmin.
  destruct (User.isAdmin (fields u)) eqn:Hadm; [by apply Ha|by apply (Hn u)].
Qed.

Lemma wp_optionally_authenticated (Φ : Response * World → Prop) hdr h w :
  (∀ u, optionalAuth hdr w = u → Φ (h u w)) →
  Φ (optionally_authenticated hdr h w).
Proof. unfold optionally_authenticated. auto. Qed.

Ltac wp_step :=
  lazymatch goal with
  | |- wp (mbind _ _) _ _ _ _ => apply wp_bind
  | |- wp (mret _) _ _ _ _ => apply wp_ret
  | |- wp (send _) _ _ _ _ => apply wp_send
  | |- wp throw _ _ _ _ => apply wp_throw
  | |- wp (gets _) _ _ _ _ => apply wp_gets
  | |- wp (found _ _) _ _ _ _ => apply wp_found; [intros ?|intros ? ?]
  | |- wp (must _) _ _ _ _ => apply wp_must; [intros ?|intros ? ?]
  | |- wp (modify _) _ _ _ _ => apply wp_modify
  | |- wp (Message_update _) _ _ _ _ => apply wp_modify
  | |- wp (Follow_deleteMany_between _ _) _ _ _ _ => apply wp_modify
  | |- wp (User_findByIdAndUpdate_status _ _) _ _ _ _ => apply wp_modify
  | |- wp (reject_if _ _) _ _ _ _ => apply wp_reject_if; intros ?
  | |- wp (reject_invalid _) _ _ _ _ => apply wp_reject_invalid; [intros ? ?|intros ?]
  | |- wp (Follow_save _ _) _ _ _ _ => apply wp_Follow_save; [intros ?|intros ? ?]
  | |- wp (Block_save _ _ _) _ _ _ _ =>
      apply wp_Block_save; [intros ?|intros ? ? ?]
  | |- wp (Message_save _) _ _ _ _ => apply wp_Message_save; [|intros ? ? ?]
  | |- wp (Report_save _ _ _ _ _ _ _) _ _ _ _ =>
      apply wp_Report_save; [|intros ? ? ? ?]
  | |- wp (Report_update _) _ _ _ _ => apply wp_Report_update; intros ?
  | |- wp (take_action _ _) _ _ _ _ => unfold take_action
  | |- wp (match ?x with _ => _ end) _ _ _ _ => destruct x eqn:?
  end; cbv beta.

Ltac wp_route h :=
  unfold h; apply wp_try_catch; cbv zeta; repeat wp_step.

Ltac wp_serve req :=
  destruct req; unfold serve;
  first [ apply wp_admin_only; [intros ? ?|intros ? ? ?|intros ? ? ?]
        | apply wp_authenticated; [intros ? ?|intros ? ?]
        | apply wp_optionally_authenticated; intros ? ? ].

(** After [wp_serve]: the goals in which the middleware has refused the
    request are given to [tac]; the goals of the handlers are left. *)
Ltac refused tac :=
  lazymatch goal with
  | H : authenticateToken _ _ = inl _ |- _ => tac H
  | H : User.isAdmin _ = false |- _ => tac H
  | |- _ => idtac
  end.

Lemma with_follows_id f w : f (follows w) = follows w → with_follows f w = w.
Proof. destruct w. unfold with_follows. simpl. by intros ->. Qed.

Lemma with_blocks_id f w : f (blocks w) = blocks w → with_blocks f w = w.
Proof. destruct w. unfold with_blocks. simpl. by intros ->. Qed.

(** X1. A request that is answered without success leaves the store exactly
    as it was, whichever of the routes it went to and whether the
    middleware, a guard or the [catch] refused it. *)
Theorem failed_request_changes_nothing req w :
  success (serve req w).1 = false → (serve req w).2 = w.
Proof.
  pattern (serve req w).
  wp_serve req; refused ltac:(fun _ => by intros _).
  - wp_route put_users_profile; done.
  - wp_route put_users_settings; done.
  - wp_route get_users_identifier; done.
  - wp_route post_users_follow; done.
  - wp_route delete_users_unfollow; try done.
    intros _. apply with_follows_id, difference_disjoint_L.
    match goal with H : negb (Follow_findOne _ _ _) = true |- _ =>
      apply negb_true_iff, bool_decide_eq_false in H end.
    by apply disjoint_singleton_r.
  - wp_route post_users_block; done.
  - wp_route delete_users_unblock; try done.
    intros _. apply with_blocks_id, delete_id.
    match goal with H : negb (Block_findOne _ _ _) = true |- _ =>
      apply negb_true_iff, bool_decide_eq_false in H end.
    by apply eq_None_not_Some.
  - wp_route post_messages_send; done.
  - wp_route get_messages_inbox; done.
  - wp_route put_messages_read; done.
  - wp_route post_messages_reply; done.
  - wp_route delete_messages; done.
  - wp_route post_messages_report; done.
  - wp_route put_admin_users_status; done.
  - wp_route put_admin_reports_review; done.
  - wp_route delete_admin_messages; done.
Qed.

(** bob tries to follow himself. *)
Lemma failed_request_witness :
  success (serve (PostFollow (Some (Signed 2)) 2) world0).1 = false
  ∧ (serve (PostFollow (Some (Signed 2)) 2) world0).2 = world0.
Proof.
  split; [vm_compute; reflexivity|].
  apply failed_request_changes_nothing. vm_compute. reflexivity.
Defined.

(** ** Who may call what *)

Lemma is_active_status u : User.is_active u = true → User.status u = User.active.
Proof. unfold User.is_active. by destruct (User.status u). Qed.

(** X2. A request to a route behind [authenticateToken] succeeds only with
    the token of an active user, and a request to a route of the admin
    router only with the token of an active admin. *)
Theorem success_needs_credentials req w :
  success (serve req w).1 = true →
  match access req with
  | Anyone => True
  | Member => holds_token w (credentials req) false
  | Admin => holds_token w (credentials req) true
  end.
Proof.
  pattern (serve req w).
  wp_serve req;
    refused ltac:(fun H => intros Hs; simpl in Hs;
                           first [ discriminate
                                 | apply authenticateToken_rejects in H; congruence ]).
  all: intros _; simpl; try done.
  all: match goal with H : authenticateToken _ _ = inr ?u |- _ =>
         apply authenticateToken_id in H as (uid & -> & <- & Hu & Hact)
       end.
  all: exists (_id u), (fields u); repeat split;
         [done|by apply is_active_status|try done].
Qed.

(** root, an active admin, bans bob. *)
Lemma success_needs_credentials_witness :
  success (serve (PutUserStatus (Some (Signed 4)) 2 "banned" None) world0).1 = true
  ∧ holds_token world0 (Some (Signed 4)) true.
Proof.
  split; [vm_compute; reflexivity|].
  apply (success_needs_credentials (PutUserStatus (Some (Signed 4)) 2 "banned" None)
           world0).
  vm_compute. reflexivity.
Defined.

(** X3. A request to a route that needs a token, sent without the valid
    token of an active user, is answered 401 or 403 by the middleware and
    changes nothing; it is 403 exactly when the token is that of a stored
    user, who is then blocked or banned. *)
Theorem gate_turns_away req w :
  access req ≠ Anyone →
  unauthenticated w (credentials req) →
  ∃ e, serve req w = (e, w) ∧ success e = false
       ∧ (code e = 401 ∨ code e = 403)
       ∧ (code e = 403 ↔ ∃ userId user, credentials req = Some (Signed userId)
                            ∧ users w !! userId = Some user).
Proof.
  intros Hacc Hun.
  assert (∃ e, authenticateToken (credentials req) w = inl e
               ∧ success e = false ∧ (code e = 401 ∨ code e = 403)
               ∧ (code e = 403 ↔ ∃ userId user,
                    credentials req = Some (Signed userId)
                    ∧ users w !! userId = Some user)) as (e & He & Hrest).
  { inversion Hun as [Hc|Hc|Hc|uid Hu Hc|uid u Hu Hs Hc]; simpl.
    - eexists; split; [done|]. split; [done|]. split; [by left|].
      split; [done|]. by intros (? & ? & ? & _).
    - eexists; split; [done|]. split; [done|]. split; [by left|].
      split; [done|]. by intros (? & ? & ? & _).
    - eexists; split; [done|]. split; [done|]. split; [by left|].
      split; [done|]. by intros (? & ? & ? & _).
    - rewrite Hu. eexists; split; [done|]. split; [done|]. split; [by left|].
      split; [done|]. intros (? & ? & [= <-] & Hu'). congruence.
    - rewrite Hu. assert (User.is_active u = false) as ->.
      { unfold User.is_active. by destruct (User.status u). }
      eexists; split; [done|]. split; [done|]. split; [by right|].
      split; [|done]. intros _. by exists uid, u. }
  exists e. split; [|done].
  destruct req; simpl in *; try done;
    unfold admin_only, authenticated; by rewrite He.
Qed.

(** carol, who is banned, asks for her inbox. *)
Lemma gate_turns_away_witness :
  unauthenticated world0 (Some (Signed 3))
  ∧ ∃ e, serve (GetInbox (Some (Signed 3)) None None) world0 = (e, world0)
         ∧ success e = false
         ∧ (code e = 401 ∨ code e = 403)
         ∧ (code e = 403 ↔ ∃ userId user,
              credentials (GetInbox (Some (Signed 3)) None None) = Some (Signed userId)
              ∧ users world0 !! userId = Some user).
Proof.
  assert (unauthenticated world0 (Some (Signed 3))) as Hun.
  { apply (inactive_user world0 3%positive carol); [vm_compute; reflexivity|discriminate]. }
  split; [exact Hun|].
  apply (gate_turns_away (GetInbox (Some (Signed 3)) None None) world0);
    [discriminate|exact Hun].
Defined.

(** ** Accounts *)

#[local] Instance same_account_refl : Reflexive same_account.
Proof. by intros u. Qed.

#[local] Instance same_account_trans : Transitive same_account.
Proof.
  intros u1 u2 u3 (? & ? & ? & ? & ?) (? & ? & ? & ? & ?).
  repeat split; congruence.
Qed.

#[local] Instance accounts_kept_refl : Reflexive accounts_kept.
Proof. intros w uid. by destruct (users w !! uid); constructor. Qed.

#[local] Instance accounts_kept_trans : Transitive accounts_kept.
Proof.
  intros w1 w2 w3 H12 H23 uid. specialize (H12 uid). specialize (H23 uid).
  destruct H12 as [u1 u2 H12|]; inversion H23; subst; constructor. by etrans.
Qed.

Lemma accounts_kept_insert w w' userId u u' :
  users w !! userId = Some u → same_account u u' →
  users w' = <[ userId := u' ]> (users w) → accounts_kept w w'.
Proof.
  intros Hu Hsame Hw' uid. rewrite Hw'.
  destruct (decide (uid = userId)) as [->|Hne].
  - rewrite lookup_insert_eq, Hu. by constructor.
  - rewrite lookup_insert_ne by done. apply (accounts_kept_refl w).
Qed.

Lemma accounts_kept_alter w w' userId f :
  (∀ u, same_account u (f u)) →
  users w' = alter f userId (users w) → accounts_kept w w'.
Proof.
  intros Hf Hw' uid. rewrite Hw'.
  destruct (decide (uid = userId)) as [->|Hne].
  - rewrite lookup_alter_eq. destruct (users w !! userId); by constructor.
  - rewrite lookup_alter_ne by done. apply (accounts_kept_refl w).
Qed.

Lemma accounts_kept_frame w w' : users w' = users w → accounts_kept w w'.
Proof. intros Hu uid. rewrite Hu. apply (accounts_kept_refl w). Qed.

Lemma User_findById_Some userId w user :
  User_findById userId w = Some user →
  _id user = userId ∧ users w !! userId = Some (fields user).
Proof.
  unfold User_findById. destruct (users w !! userId); intros [= <-]; done.
Qed.

Ltac accounts :=
  cbn [snd];
  first
    [ by apply accounts_kept_frame
    | match goal with H : User_findById _ _ = Some _ |- _ =>
        let Hid := fresh in let Hu := fresh in
        apply User_findById_Some in H as [Hid Hu]; rewrite <- Hid in Hu;
        eapply accounts_kept_insert; [exact Hu| |reflexivity]; done
      end
    | eapply accounts_kept_alter; [|reflexivity]; done ].

Lemma serve_keeps_accounts req w : accounts_kept w (serve req w).2.
Proof.
  pattern (serve req w).
  wp_serve req; refused ltac:(fun _ => reflexivity).
  - wp_route put_users_profile; accounts.
  - wp_route put_users_settings; accounts.
  - wp_route get_users_identifier; accounts.
  - wp_route post_users_follow; accounts.
  - wp_route delete_users_unfollow; accounts.
  - wp_route post_users_block; accounts.
  - wp_route delete_users_unblock; accounts.
  - wp_route post_messages_send; accounts.
  - wp_route get_messages_inbox; accounts.
  - wp_route put_messages_read; accounts.
  - wp_route post_messages_reply; accounts.
  - wp_route delete_messages; accounts.
  - wp_route post_messages_report; accounts.
  - wp_route put_admin_users_status; accounts.
  - wp_route put_admin_reports_review; accounts.
  - wp_route delete_admin_messages; accounts.
Qed.

(** X4. Whatever requests are served, the store keeps exactly the users it
    had, each with the same e-mail, username, message link, verification
    and admin flag: no modelled route creates or deletes an account, renames
    one, or grants or revokes admin rights. *)
Theorem accounts_are_kept reqs w : accounts_kept w (serve_all reqs w).
Proof.
  revert w. induction reqs as [|req reqs IH]; intros w; [reflexivity|].
  simpl. etrans; [apply serve_keeps_accounts|apply IH].
Qed.

(** ** Reports *)

Lemma report_kept_refl r : report_kept r r.
Proof. by repeat split. Qed.

Lemma report_kept_trans r1 r2 r3 :
  report_kept r1 r2 → report_kept r2 r3 → report_kept r1 r3.
Proof.
  intros (? & ? & ? & ? & ? & ? & ? & ?) (? & ? & ? & ? & ? & ? & ? & ?).
  repeat split; try congruence. auto.
Qed.

Lemma reports_kept_frame w w' : reports w' = reports w → reports_kept w w'.
Proof. intros Hr id r Hid. exists r. rewrite Hr. split; [done|apply report_kept_refl]. Qed.

Lemma reports_kept_trans w1 w2 w3 :
  reports_kept w1 w2 → reports_kept w2 w3 → reports_kept w1 w3.
Proof.
  intros H12 H23 id r Hr. destruct (H12 id r Hr) as (r2 & Hr2 & Hk2).
  destruct (H23 id r2 Hr2) as (r3 & Hr3 & Hk3).
  exists r3. split; [done|]. by eapply report_kept_trans.
Qed.

Lemma reports_kept_new w w' id r :
  reports w !! id = None → reports w' = <[ id := r ]> (reports w) →
  reports_kept w w'.
Proof.
  intros Hnew Hw' i ri Hi. exists ri. rewrite Hw'. split; [|apply report_kept_refl].
  rewrite lookup_insert_ne; [done|]. intros ->. congruence.
Qed.

Lemma reports_kept_update w w' id r r' :
  reports w !! id = Some r → report_kept r r' →
  reports w' = <[ id := r' ]> (reports w) → reports_kept w w'.
Proof.
  intros Hr Hk Hw' i ri Hi. rewrite Hw'.
  destruct (decide (i = id)) as [->|Hne].
  - exists r'. rewrite lookup_insert_eq. split; [done|]. congruence.
  - exists ri. rewrite lookup_insert_ne by done. split; [done|apply report_kept_refl].
Qed.

Lemma Report_findById_Some reportId w r :
  Report_findById reportId w = Some r →
  _id r = reportId ∧ reports w !! reportId = Some (fields r).
Proof.
  unfold Report_findById. destruct (reports w !! reportId); intros [= <-]; done.
Qed.

Ltac reports_tac :=
  cbn [snd];
  first
    [ by apply reports_kept_frame
    | by eapply reports_kept_new; [eassumption|reflexivity]
    | match goal with
      | H : Report_findById _ _ = Some _,
        Hs : Report.parse_review_status _ = Some _ |- _ =>
          let Hid := fresh in let Hr := fresh in
          apply Report_findById_Some in H as [Hid Hr]; rewrite <- Hid in Hr;
          apply parse_review_status_terminal in Hs;
          eapply reports_kept_update; [exact Hr| |reflexivity];
          by repeat split
      end ].

Lemma serve_keeps_reports req w : reports_kept w (serve req w).2.
Proof.
  pattern (serve req w).
  wp_serve req; refused ltac:(fun _ => by apply reports_kept_frame).
  - wp_route put_users_profile; reports_tac.
  - wp_route put_users_settings; reports_tac.
  - wp_route get_users_identifier; reports_tac.
  - wp_route post_users_follow; reports_tac.
  - wp_route delete_users_unfollow; reports_tac.
  - wp_route post_users_block; reports_tac.
  - wp_route delete_users_unblock; reports_tac.
  - wp_route post_messages_send; reports_tac.
  - wp_route get_messages_inbox; reports_tac.
  - wp_route put_messages_read; reports_tac.
  - wp_route post_messages_reply; reports_tac.
  - wp_route delete_messages; reports_tac.
  - wp_route post_messages_report; reports_tac.
  - wp_route put_admin_users_status; reports_tac.
  - wp_route put_admin_reports_review; reports_tac.
  - wp_route delete_admin_messages; reports_tac.
Qed.

(** X5. Whatever requests are served, every report stays in the store with
    the reporter, reported user, reported message, type, description,
    screenshot and date it was filed with, and a report that has been
    reviewed is never pending again. *)
Theorem reports_are_kept reqs w : reports_kept w (serve_all reqs w).
Proof.
  revert w. induction reqs as [|req reqs IH]; intros w; [by apply reports_kept_frame|].
  simpl. eapply reports_kept_trans; [apply serve_keeps_reports|apply IH].
Qed.

Lemma reports_unique_frame w w' :
  reports w' = reports w → reports_unique w → reports_unique w'.
Proof. unfold reports_unique. by intros ->. Qed.

Lemma Report_findOne_false reporter m w i r :
  Report_findOne reporter m w = false → reports w !! i = Some r →
  Report.reporter r = reporter → Report.reportedMessage r ≠ Some m.
Proof.
  unfold Report_findOne. intros Hno%bool_decide_eq_false Hi Hrep Hm.
  apply Hno. apply map_Exists_lookup. by exists i, r.
Qed.

Lemma reports_unique_new w w' id r m :
  reports w !! id = None →
  Report.reportedMessage r = Some m →
  Report_findOne (Report.reporter r) m w = false →
  reports w' = <[ id := r ]> (reports w) →
  reports_unique w → reports_unique w'.
Proof.
  intros Hnew Hm Hnone Hw' Hu i j ri rj mm. rewrite Hw'.
  destruct (decide (i = id)) as [->|Hi], (decide (j = id)) as [->|Hj]; [done|..].
  - rewrite lookup_insert_eq, lookup_insert_ne by done.
    intros [= <-] Hrj Hrep Hmi Hmj. exfalso.
    assert (mm = m) as -> by congruence.
    by eapply (Report_findOne_false _ m w j rj).
  - rewrite lookup_insert_eq, lookup_insert_ne by done.
    intros Hri [= <-] Hrep Hmi Hmj. exfalso.
    assert (mm = m) as -> by congruence.
    by eapply (Report_findOne_false _ m w i ri).
  - rewrite !lookup_insert_ne by done. apply Hu.
Qed.

Lemma reports_unique_update w w' id r r' :
  reports w !! id = Some r →
  Report.reporter r' = Report.reporter r →
  Report.reportedMessage r' = Report.reportedMessage r →
  reports w' = <[ id := r' ]> (reports w) →
  reports_unique w → reports_unique w'.
Proof.
  intros Hr Hrep Hmsg Hw' Hu i j ri rj mm. rewrite Hw'.
  destruct (decide (i = id)) as [->|Hi], (decide (j = id)) as [->|Hj]; [done|..].
  - rewrite lookup_insert_eq, lookup_insert_ne by done.
    intros [= <-] Hrj H1 H2 H3. apply (Hu id j r rj mm); congruence.
  - rewrite lookup_insert_eq, lookup_insert_ne by done.
    intros Hri [= <-] H1 H2 H3. apply (Hu i id ri r mm); congruence.
  - rewrite !lookup_insert_ne by done. apply Hu.
Qed.

Ltac unique_tac :=
  cbn [snd];
  first
    [ by apply reports_unique_frame
    | eapply reports_unique_new; [ | | |reflexivity];
      [eassumption|reflexivity|eassumption]
    | match goal with
      | H : Report_findById _ _ = Some _ |- _ =>
          let Hid := fresh in let Hr := fresh in
          apply Report_findById_Some in H as [Hid Hr]; rewrite <- Hid in Hr;
          eapply reports_unique_update; [exact Hr| | |reflexivity]; done
      end ].

Lemma serve_keeps_reports_unique req w :
  reports_unique w → reports_unique (serve req w).2.
Proof.
  pattern (serve req w).
  wp_serve req; refused ltac:(fun _ => done).
  - wp_route put_users_profile; unique_tac.
  - wp_route put_users_settings; unique_tac.
  - wp_route get_users_identifier; unique_tac.
  - wp_route post_users_follow; unique_tac.
  - wp_route delete_users_unfollow; unique_tac.
  - wp_route post_users_block; unique_tac.
  - wp_route delete_users_unblock; unique_tac.
  - wp_route post_messages_send; unique_tac.
  - wp_route get_messages_inbox; unique_tac.
  - wp_route put_messages_read; unique_tac.
  - wp_route post_messages_reply; unique_tac.
  - wp_route delete_messages; unique_tac.
  - wp_route post_messages_report; unique_tac.
  - wp_route put_admin_users_status; unique_tac.
  - wp_route put_admin_reports_review; unique_tac.
  - wp_route delete_admin_messages; unique_tac.
Qed.

(** X6. If no user has two reports of the same message, this stays so
    whatever requests are served: the check of the report handler does the
    work of a unique index on (reporter, reportedMessage). *)
Theorem reports_stay_unique reqs w :
  reports_unique w → reports_unique (serve_all reqs w).
Proof.
  revert w. induction reqs as [|req reqs IH]; intros w Hw; [done|].
  simpl. by apply IH, serve_keeps_reports_unique.
Qed.

Lemma reports_unique_world0 : reports_unique world0.
Proof. intros i j r r' m Hi. unfold world0 in Hi. cbn [reports] in Hi. by rewrite lookup_empty in Hi. Qed.

(** The requests that lead to [world1], and bob's second report. *)
Lemma reports_stay_unique_witness :
  reports_unique world0
  ∧ reports_unique
      (serve_all
         [ PostFollow (Some (Signed 1)) 2;
           PostSend (Some (Signed 1)) (mkSendBody 2 "hello" None (Some false)) 10;
           PostReport (Some (Signed 2)) 1 (Some "spam") (Some "junk") None 12;
           PostReport (Some (Signed 2)) 1 (Some "spam") (Some "again") None 13 ]
         world0).
Proof.
  split; [exact reports_unique_world0|].
  apply reports_stay_unique, reports_unique_world0.
Defined.

(** ** Messages *)

Lemma message_kept_refl m : message_kept m m.
Proof. by repeat split. Qed.

Lemma messages_kept_frame w w' : messages w' = messages w → messages_kept w w'.
Proof. intros Hm id m m' H1 H2. rewrite Hm in H2. simplify_eq. apply message_kept_refl. Qed.

Lemma messages_kept_new w w' id m :
  messages w !! id = None → messages w' = <[ id := m ]> (messages w) →
  messages_kept w w'.
Proof.
  intros Hnew Hw' i mi mi' Hi. rewrite Hw'.
  rewrite lookup_insert_ne by (intros ->; congruence).
  intros Hi'. simplify_eq. apply message_kept_refl.
Qed.

Lemma messages_kept_update w w' id m m' :
  messages w !! id = Some m → message_kept m m' →
  messages w' = <[ id := m' ]> (messages w) → messages_kept w w'.
Proof.
  intros Hm Hk Hw' i mi mi' Hi. rewrite Hw'.
  destruct (decide (i = id)) as [->|Hne].
  - rewrite lookup_insert_eq. intros [= <-]. congruence.
  - rewrite lookup_insert_ne by done. intros Hi'. simplify_eq. apply message_kept_refl.
Qed.

Lemma messages_kept_delete w w' id :
  messages w' = delete id (messages w) → messages_kept w w'.
Proof.
  intros Hw' i mi mi' Hi. rewrite Hw'.
  destruct (decide (i = id)) as [->|Hne].
  - by rewrite lookup_delete_eq.
  - rewrite lookup_delete_ne by done. intros Hi'. simplify_eq. apply message_kept_refl.
Qed.

Lemma Message_findOne_owned_Some messageId recipient w m :
  Message_findOne_owned messageId recipient w = Some m →
  _id m = messageId ∧ messages w !! messageId = Some (fields m)
  ∧ Message.recipient (fields m) = recipient.
Proof.
  unfold Message_findOne_owned. destruct (messages w !! messageId); [|done].
  case_bool_decide; intros [= <-]; done.
Qed.

Ltac messages_tac :=
  cbn [snd];
  first
    [ by apply messages_kept_frame
    | by eapply messages_kept_new; [eassumption|reflexivity]
    | by eapply messages_kept_delete
    | match goal with
      | H : Message_findOne_owned _ _ _ = Some _ |- _ =>
          let Hid := fresh in let Hm := fresh in
          apply Message_findOne_owned_Some in H as (Hid & Hm & _);
          rewrite <- Hid in Hm;
          eapply messages_kept_update; [exact Hm| |reflexivity];
          repeat split; simpl; congruence
      end ].

(** X7. No request rewrites a stored message: a message that is in the
    store before and after a request has the recipient, sender, content,
    image, anonymity flag and date it had; its read flag is not cleared and
    a reply it had is unchanged. *)
Theorem stored_messages_are_not_rewritten req w :
  messages_kept w (serve req w).2.
Proof.
  pattern (serve req w).
  wp_serve req; refused ltac:(fun _ => by apply messages_kept_frame).
  - wp_route put_users_profile; messages_tac.
  - wp_route put_users_settings; messages_tac.
  - wp_route get_users_identifier; messages_tac.
  - wp_route post_users_follow; messages_tac.
  - wp_route delete_users_unfollow; messages_tac.
  - wp_route post_users_block; messages_tac.
  - wp_route delete_users_unblock; messages_tac.
  - wp_route post_messages_send; messages_tac.
  - wp_route get_messages_inbox; messages_tac.
  - wp_route put_messages_read; messages_tac.
  - wp_route post_messages_reply; messages_tac.
  - wp_route delete_messages; messages_tac.
  - wp_route post_messages_report; messages_tac.
  - wp_route put_admin_users_status; messages_tac.
  - wp_route put_admin_reports_review; messages_tac.
  - wp_route delete_admin_messages; messages_tac.
Qed.

Lemma anonymity_frame w w' :
  messages w' = messages w → anonymity_consistent w → anonymity_consistent w'.
Proof. unfold anonymity_consistent. by intros ->. Qed.

Lemma anonymity_insert w w' id m :
  (Message.isAnonymous m = true → Message.sender m = None) →
  messages w' = <[ id := m ]> (messages w) →
  anonymity_consistent w → anonymity_consistent w'.
Proof.
  intros Hm Hw' Hc i mi. rewrite Hw'. destruct (decide (i = id)) as [->|Hne].
  - rewrite lookup_insert_eq. by intros [= <-].
  - rewrite lookup_insert_ne by done. apply Hc.
Qed.

Lemma anonymity_delete w w' id :
  messages w' = delete id (messages w) →
  anonymity_consistent w → anonymity_consistent w'.
Proof.
  intros Hw' Hc i mi. rewrite Hw'. destruct (decide (i = id)) as [->|Hne].
  - by rewrite lookup_delete_eq.
  - rewrite lookup_delete_ne by done. apply Hc.
Qed.

Ltac anonymity_tac :=
  cbn [snd];
  first
    [ by apply anonymity_frame
    | by eapply anonymity_delete
    | match goal with
      | H : Message_findOne_owned _ _ _ = Some _ |- _ =>
          let Hid := fresh in let Hm := fresh in
          apply Message_findOne_owned_Some in H as (Hid & Hm & _);
          intros Hc; eapply anonymity_insert; [|reflexivity|exact Hc];
          simpl; eapply Hc; exact Hm
      end
    | eapply anonymity_insert; [|reflexivity]; simpl;
      repeat case_match; done ].

Lemma serve_keeps_anonymity req w :
  anonymity_consistent w → anonymity_consistent (serve req w).2.
Proof.
  pattern (serve req w).
  wp_serve req; refused ltac:(fun _ => done).
  - wp_route put_users_profile; anonymity_tac.
  - wp_route put_users_settings; anonymity_tac.
  - wp_route get_users_identifier; anonymity_tac.
  - wp_route post_users_follow; anonymity_tac.
  - wp_route delete_users_unfollow; anonymity_tac.
  - wp_route post_users_block; anonymity_tac.
  - wp_route delete_users_unblock; anonymity_tac.
  - wp_route post_messages_send; anonymity_tac.
  - wp_route get_messages_inbox; anonymity_tac.
  - wp_route put_messages_read; anonymity_tac.
  - wp_route post_messages_reply; anonymity_tac.
  - wp_route delete_messages; anonymity_tac.
  - wp_route post_messages_report; anonymity_tac.
  - wp_route put_admin_users_status; anonymity_tac.
  - wp_route put_admin_reports_review; anonymity_tac.
  - wp_route delete_admin_messages; anonymity_tac.
Qed.

(** X8. If no stored message is anonymous and carries a sender reference,
    this stays so whatever requests are served: the anonymity flag and the
    null sender never disagree, so there is no hidden sender for a listing
    to leak. *)
Theorem anonymity_encodings_agree reqs w :
  anonymity_consistent w → anonymity_consistent (serve_all reqs w).
Proof.
  revert w. induction reqs as [|req reqs IH]; intros w Hw; [done|].
  simpl. by apply IH, serve_keeps_anonymity.
Qed.

Lemma anonymity_consistent_world0 : anonymity_consistent world0.
Proof. intros id m Hm. unfold world0 in Hm. cbn [messages] in Hm. by rewrite lookup_empty in Hm. Qed.

(** alice writes to bob anonymously with her token, then signed. *)
Lemma anonymity_encodings_witness :
  anonymity_consistent world0
  ∧ anonymity_consistent
      (serve_all
         [ PostSend (Some (Signed 1)) (mkSendBody 2 "psst" None None) 5;
           PostSend (Some (Signed 1)) (mkSendBody 2 "hello" None (Some false)) 6 ]
         world0).
Proof.
  split; [exact anonymity_consistent_world0|].
  apply anonymity_encodings_agree, anonymity_consistent_world0.
Defined.

(** ** Replies *)

Lemma messages_valid_frame w w' :
  messages w' = messages w → messages_valid w → messages_valid w'.
Proof. unfold messages_valid. by intros ->. Qed.

Lemma messages_valid_insert w w' id m :
  Message.content m ≠ "" → (String.length (Message.content m) ≤ 500)%nat →
  reply_complete (Message.reply m) →
  messages w' = <[ id := m ]> (messages w) →
  messages_valid w → messages_valid w'.
Proof.
  intros H1 H2 H3 Hw' Hv i mi. rewrite Hw'. destruct (decide (i = id)) as [->|Hne].
  - rewrite lookup_insert_eq. by intros [= <-].
  - rewrite lookup_insert_ne by done. apply Hv.
Qed.

Lemma messages_valid_delete w w' id :
  messages w' = delete id (messages w) → messages_valid w → messages_valid w'.
Proof.
  intros Hw' Hv i mi. rewrite Hw'. destruct (decide (i = id)) as [->|Hne].
  - by rewrite lookup_delete_eq.
  - rewrite lookup_delete_ne by done. apply Hv.
Qed.

Lemma replyMessageSchema_valid content :
  replyMessageSchema content = None →
  content ≠ "" ∧ (String.length content ≤ 500)%nat.
Proof.
  unfold replyMessageSchema, joi_string.
  destruct (String.eqb content "") eqn:He; [done|].
  apply String.eqb_neq in He.
  repeat case_bool_decide; try done. intros _. split; [done|lia].
Qed.

Ltac valid_tac :=
  cbn [snd];
  first
    [ by apply messages_valid_frame
    | by eapply messages_valid_delete
    | match goal with
      | H : Message_findOne_owned _ _ _ = Some _ |- _ =>
          let Hid := fresh in let Hm := fresh in let Hv := fresh in
          apply Message_findOne_owned_Some in H as (Hid & Hm & _);
          intros Hv; destruct (Hv _ _ Hm) as (? & ? & ?);
          eapply messages_valid_insert; [| | |reflexivity|exact Hv]; simpl; try done
      end
    | eapply messages_valid_insert; [| | |reflexivity]; simpl; done ].

Lemma serve_keeps_messages_valid req w :
  messages_valid w → messages_valid (serve req w).2.
Proof.
  pattern (serve req w).
  wp_serve req; refused ltac:(fun _ => done).
  - wp_route put_users_profile; valid_tac.
  - wp_route put_users_settings; valid_tac.
  - wp_route get_users_identifier; valid_tac.
  - wp_route post_users_follow; valid_tac.
  - wp_route delete_users_unfollow; valid_tac.
  - wp_route post_users_block; valid_tac.
  - wp_route delete_users_unblock; valid_tac.
  - wp_route post_messages_send; valid_tac.
  - wp_route get_messages_inbox; valid_tac.
  - wp_route put_messages_read; valid_tac.
  - wp_route post_messages_reply; valid_tac.
    match goal with H : replyMessageSchema _ = None |- _ =>
      apply replyMessageSchema_valid in H as [? ?] end.
    unfold reply_complete. simpl. by repeat split.
  - wp_route delete_messages; valid_tac.
  - wp_route post_messages_report; valid_tac.
  - wp_route put_admin_users_status; valid_tac.
  - wp_route put_admin_reports_review; valid_tac.
  - wp_route delete_admin_messages; valid_tac.
Qed.

(** X9. If every stored message has a content of 1 to 500 characters and a
    reply that is either absent altogether (no text, no date, not public) or
    complete (a text of 1 to 500 characters and a date), this stays so
    whatever requests are served. *)
Theorem stored_messages_stay_valid reqs w :
  messages_valid w → messages_valid (serve_all reqs w).
Proof.
  revert w. induction reqs as [|req reqs IH]; intros w Hw; [done|].
  simpl. by apply IH, serve_keeps_messages_valid.
Qed.

Lemma messages_valid_world0 : messages_valid world0.
Proof. intros id m Hm. unfold world0 in Hm. cbn [messages] in Hm. by rewrite lookup_empty in Hm. Qed.

(** alice writes to bob, who replies in public. *)
Lemma stored_messages_stay_valid_witness :
  messages_valid world0
  ∧ messages_valid
      (serve_all
         [ PostSend (Some (Signed 1)) (mkSendBody 2 "hello" None (Some false)) 10;
           PostReply (Some (Signed 2)) 1 "thanks" (Some true) 11 ]
         world0).
Proof.
  split; [exact messages_valid_world0|].
  apply stored_messages_stay_valid, messages_valid_world0.
Defined.

(** ** The relationship graph *)

Lemma irreflexive_frame w w' :
  follows w' = follows w → blocks w' = blocks w →
  irreflexive_edges w → irreflexive_edges w'.
Proof. unfold irreflexive_edges. by intros -> ->. Qed.

Ltac irreflexive_tac :=
  cbn [snd];
  first
    [ by apply irreflexive_frame
    | intros [Hf Hb]; split; intros x; simpl;
      [ try apply Hf | try apply Hb ] ].

Lemma serve_keeps_irreflexive req w :
  irreflexive_edges w → irreflexive_edges (serve req w).2.
Proof.
  pattern (serve req w).
  wp_serve req; refused ltac:(fun _ => done).
  - wp_route put_users_profile; irreflexive_tac.
  - wp_route put_users_settings; irreflexive_tac.
  - wp_route get_users_identifier; irreflexive_tac.
  - wp_route post_users_follow; irreflexive_tac.
    rewrite elem_of_union, elem_of_singleton. intros [[= ? ?]|?]; [congruence|].
    by eapply Hf.
  - wp_route delete_users_unfollow; irreflexive_tac.
    all: rewrite elem_of_difference; intros [? _]; by eapply Hf.
  - wp_route post_users_block; irreflexive_tac.
    + rewrite elem_of_difference. intros [? _]. by eapply Hf.
    + rewrite lookup_insert_ne; [apply Hb|]. intros [= ? ?]. congruence.
  - wp_route delete_users_unblock; irreflexive_tac.
    all: destruct (decide ((_id u, userId) = (x, x))) as [->|?];
      [by rewrite lookup_delete_eq|by rewrite lookup_delete_ne].
  - wp_route post_messages_send; irreflexive_tac.
  - wp_route get_messages_inbox; irreflexive_tac.
  - wp_route put_messages_read; irreflexive_tac.
  - wp_route post_messages_reply; irreflexive_tac.
  - wp_route delete_messages; irreflexive_tac.
  - wp_route post_messages_report; irreflexive_tac.
  - wp_route put_admin_users_status; irreflexive_tac.
  - wp_route put_admin_reports_review; irreflexive_tac.
  - wp_route delete_admin_messages; irreflexive_tac.
Qed.

(** X10. If nobody follows or blocks themself and no follow edge joins two
    users one of whom blocks the other, this stays so whatever requests are
    served. *)
Theorem relationship_graph_stays_wf reqs w :
  graph_wf w → graph_wf (serve_all reqs w).
Proof.
  intros [Hirr Hsev]. split.
  - revert w Hirr Hsev. induction reqs as [|req reqs IH]; intros w Hirr Hsev; [done|].
    simpl. apply IH; [by apply serve_keeps_irreflexive|].
    intros a b. by apply serve_preserves.
  - intros a b. by apply serve_all_preserves.
Qed.

Lemma graph_wf_world0 : graph_wf world0.
Proof.
  split; [split|].
  - intros a. apply not_elem_of_empty.
  - intros a. apply lookup_empty.
  - intros a b [x Hx]. unfold world0 in Hx. cbn [blocks] in Hx.
    by rewrite lookup_empty in Hx.
Qed.

(** alice follows bob, bob blocks alice, alice tries to follow bob again and
    to block herself. *)
Lemma relationship_graph_witness :
  graph_wf world0
  ∧ graph_wf
      (serve_all
         [ PostFollow (Some (Signed 1)) 2;
           PostBlock (Some (Signed 2)) 1 None;
           PostFollow (Some (Signed 1)) 2;
           PostBlock (Some (Signed 1)) 1 None ]
         world0).
Proof.
  split; [exact graph_wf_world0|].
  apply relationship_graph_stays_wf, graph_wf_world0.
Defined.

(** ** Following and blocking, there and back *)

Lemma post_users_follow_accepted req_user userId w :
  userId ≠ _id req_user →
  is_Some (User_findOne_active userId w) →
  (_id req_user, userId) ∉ follows w →
  Block_findOne_either (_id req_user) userId w = false →
  post_users_follow req_user userId w =
    (ok "Successfully followed user",
     with_follows (λ s, {[ (_id req_user, userId) ]} ∪ s) w).
Proof.
  intros Hne [t Ht] Hf Hb. unfold post_users_follow, Follow_save. run.
  rewrite bool_decide_false by done. simpl. rewrite Ht. simpl.
  unfold Follow_findOne. rewrite bool_decide_false by done. simpl.
  rewrite Hb. simpl. rewrite bool_decide_false by done.
  by rewrite bool_decide_false.
Qed.

Lemma delete_users_unfollow_existing req_user userId w :
  (_id req_user, userId) ∈ follows w →
  delete_users_unfollow req_user userId w =
    (ok "Successfully unfollowed user",
     with_follows (λ s, s ∖ {[ (_id req_user, userId) ]}) w).
Proof.
  intros Hf. unfold delete_users_unfollow, Follow_findOne. run.
  by rewrite bool_decide_true.
Qed.

Lemma post_users_follow_inv req_user userId w :
  success (post_users_follow req_user userId w).1 = true →
  post_users_follow req_user userId w =
    (ok "Successfully followed user",
     with_follows (λ s, {[ (_id req_user, userId) ]} ∪ s) w)
  ∧ userId ≠ _id req_user
  ∧ is_Some (User_findOne_active userId w)
  ∧ ((_id req_user, userId) ∉ follows w)
  ∧ Block_findOne_either (_id req_user) userId w = false.
Proof.
  pattern (post_users_follow req_user userId w).
  wp_route post_users_follow; done.
Qed.

Lemma with_follows_with_follows f g w :
  with_follows f (with_follows g w) = with_follows (f ∘ g) w.
Proof. done. Qed.

(** X11. Unfollow undoes Follow: after a Follow that succeeded, the edge is
    new and in the store, and the Unfollow of the same user by the same
    caller succeeds and gives back exactly the store from before the
    Follow. *)
Theorem unfollow_undoes_follow hdr user userId w :
  authenticateToken hdr w = inr user →
  success (serve (PostFollow hdr userId) w).1 = true →
  let w1 := (serve (PostFollow hdr userId) w).2 in
  ((_id user, userId) ∉ follows w)
  ∧ ((_id user, userId) ∈ follows w1)
  ∧ serve (DeleteUnfollow hdr userId) w1 = (ok "Successfully unfollowed user", w).
Proof.
  intros Ha. cbv zeta. unfold serve, authenticated. rewrite Ha.
  intros (-> & Hne & Hact & Hf & Hb)%post_users_follow_inv.
  assert ((_id user, userId) ∈ ({[ (_id user, userId) ]} ∪ follows w : gset _)) as Hin.
  { by apply elem_of_union_l, elem_of_singleton. }
  split; [done|]. simpl. split; [exact Hin|].
  change (authenticateToken hdr (with_follows _ w)) with (authenticateToken hdr w).
  rewrite Ha, delete_users_unfollow_existing by exact Hin.
  f_equal. rewrite with_follows_with_follows. apply with_follows_id. simpl.
  apply set_eq. intros y. rewrite elem_of_difference, elem_of_union, elem_of_singleton.
  split.
  - by intros [[->|?] ?].
  - intros Hy. split; [by right|]. by intros ->.
Qed.

(** alice follows bob and unfollows him. *)
Lemma unfollow_undoes_follow_witness :
  success (serve (PostFollow (Some (Signed 1)) 2) world0).1 = true
  ∧ let w1 := (serve (PostFollow (Some (Signed 1)) 2) world0).2 in
    ((1%positive, 2%positive) ∉ follows world0)
    ∧ ((1%positive, 2%positive) ∈ follows w1)
    ∧ serve (DeleteUnfollow (Some (Signed 1)) 2) w1
      = (ok "Successfully unfollowed user", world0).
Proof.
  split; [vm_compute; reflexivity|].
  apply (unfollow_undoes_follow (Some (Signed 1)) (mkDoc 1%positive alice) 2 world0).
  - vm_compute. reflexivity.
  - vm_compute. reflexivity.
Defined.

Lemma post_users_block_inv req_user userId reason w :
  success (post_users_block req_user userId reason w).1 = true →
  post_users_block req_user userId reason w =
    (ok "User blocked successfully",
     with_follows (λ s, s ∖ {[ (_id req_user, userId); (userId, _id req_user) ]})
       (with_blocks (λ m, <[ (_id req_user, userId) := reason ]> m) w))
  ∧ userId ≠ _id req_user
  ∧ is_Some (users w !! userId)
  ∧ blocks w !! (_id req_user, userId) = None
  ∧ (String.length (default "" reason) ≤ 200)%nat.
Proof.
  pattern (post_users_block req_user userId reason w).
  wp_route post_users_block; try done.
  intros _. repeat split; try done.
  match goal with H : User_findById _ _ = Some _ |- _ =>
    apply User_findById_Some in H as [_ ->] end. by eexists.
Qed.

Lemma delete_users_unblock_existing req_user userId w :
  is_Some (blocks w !! (_id req_user, userId)) →
  delete_users_unblock req_user userId w =
    (ok "User unblocked successfully",
     with_blocks (λ m, delete (_id req_user, userId) m) w).
Proof.
  intros Hb. unfold delete_users_unblock, Block_findOne. run.
  by rewrite bool_decide_true.
Qed.

(** X12. Unblock does not undo Block: after a Block that succeeded, the
    Unblock of the same user by the same caller succeeds and removes the
    block edge, and the store it leaves is the one from before the Block
    without the follow edges between the two users. *)
Theorem unblock_does_not_restore_follows hdr user userId reason w :
  authenticateToken hdr w = inr user →
  success (serve (PostBlock hdr userId reason) w).1 = true →
  let w1 := (serve (PostBlock hdr userId reason) w).2 in
  serve (DeleteUnblock hdr userId) w1 =
    (ok "User unblocked successfully",
     with_follows (λ s, s ∖ {[ (_id user, userId); (userId, _id user) ]}) w).
Proof.
  intros Ha. cbv zeta. unfold serve, authenticated. rewrite Ha.
  intros (-> & Hne & Hu & Hb & Hlen)%post_users_block_inv. simpl.
  change (authenticateToken hdr (with_follows _ (with_blocks _ w)))
    with (authenticateToken hdr w).
  rewrite Ha, delete_users_unblock_existing
    by (simpl; rewrite lookup_insert_eq; by eexists).
  f_equal. destruct w. unfold with_blocks, with_follows. simpl. f_equal.
  simpl in Hb. by apply delete_insert_id.
Qed.

(** In [world1] alice follows bob; bob blocks and unblocks her, and she
    follows him no more. *)
Lemma unblock_does_not_restore_follows_witness :
  ((1%positive, 2%positive) ∈ follows world1)
  ∧ success (serve (PostBlock (Some (Signed 2)) 1 None) world1).1 = true
  ∧ let w1 := (serve (PostBlock (Some (Signed 2)) 1 None) world1).2 in
    serve (DeleteUnblock (Some (Signed 2)) 1) w1 =
      (ok "User unblocked successfully",
       with_follows (λ s, s ∖ {[ (2%positive, 1%positive); (1%positive, 2%positive) ]})
         world1).
Proof.
  split; [apply (bool_decide_unpack _); vm_compute; exact I|].
  split; [vm_compute; reflexivity|].
  apply (unblock_does_not_restore_follows (Some (Signed 2)) (mkDoc 2%positive bob) 1
           None world1).
  - vm_compute. reflexivity.
  - vm_compute. reflexivity.
Defined.

(** ** Sending, continued *)

(** X13. A block edge between an authenticated caller and an active
    recipient, in either direction, stops a message with a valid body,
    anonymous or not: the answer is Forbidden and nothing is stored. *)
Theorem blocked_pair_cannot_message hdr user body now recipient w :
  optionalAuth hdr w = Some user →
  User_findOne_active (sb_recipientId body) w = Some recipient →
  sendMessageSchema body = None →
  Block_findOne_either (_id user) (sb_recipientId body) w = true →
  let '(res, w') := serve (PostSend hdr body now) w in
  fails_with Forbidden res ∧ w' = w.
Proof.
  intros Hu Hr Hv Hb. unfold serve, optionally_authenticated. rewrite Hu.
  unfold post_messages_send. run. rewrite Hv, Hr. simpl.
  destruct (default true (sb_isAnonymous body) && _); simpl; [done|].
  by rewrite Hb.
Qed.

(** In [world3] alice has blocked bob; neither can write to the other with
    their token. *)
Lemma blocked_pair_cannot_message_witness :
  Block_findOne 1 2 world3 = true
  ∧ (let '(res, w') :=
       serve (PostSend (Some (Signed 2)) (mkSendBody 1 "hi" None None) 9) world3 in
     fails_with Forbidden res ∧ w' = world3)
  ∧ (let '(res, w') :=
       serve (PostSend (Some (Signed 1)) (mkSendBody 2 "hi" None (Some false)) 9)
         world3 in
     fails_with Forbidden res ∧ w' = world3).
Proof.
  split; [vm_compute; reflexivity|]. split.
  - apply (blocked_pair_cannot_message (Some (Signed 2)) (mkDoc 2%positive bob)
             (mkSendBody 1 "hi" None None) 9 (mkDoc 1%positive alice) world3);
      vm_compute; reflexivity.
  - apply (blocked_pair_cannot_message (Some (Signed 1)) (mkDoc 1%positive alice)
             (mkSendBody 2 "hi" None (Some false)) 9 (mkDoc 2%positive bob) world3);
      vm_compute; reflexivity.
Defined.

(** X14. A send that succeeds stores exactly one new message, unread and
    without a reply, for the recipient and with the content of the body. The
    sender stored with it is the authenticated caller, and a sender is
    stored only when the caller is authenticated and asked not to be
    anonymous: no body makes the handler store another user as the
    sender. *)
Theorem stored_sender_is_the_caller hdr body now w :
  success (serve (PostSend hdr body now) w).1 = true →
  ∃ id m, messages w !! id = None
    ∧ messages (serve (PostSend hdr body now) w).2 = <[ id := m ]> (messages w)
    ∧ Message.recipient m = sb_recipientId body
    ∧ Message.content m = sb_content body
    ∧ Message.isRead m = false ∧ Message.has_reply m = false
    ∧ ∀ s, Message.sender m = Some s ↔
           (sb_isAnonymous body = Some false
            ∧ ∃ user, optionalAuth hdr w = Some user ∧ _id user = s).
Proof.
  unfold serve, optionally_authenticated. rewrite post_messages_send_spec.
  destruct (send_accepted (optionalAuth hdr w) body w) eqn:Hacc; cbn [fst snd].
  - intros _. exists (fresh (dom (messages w))), (sent_message (optionalAuth hdr w) body now).
    split; [apply not_elem_of_dom, is_fresh|]. do 5 (split; [done|]).
    intros s. unfold sent_message. simpl.
    destruct (optionalAuth hdr w) as [u|].
    + destruct (sb_isAnonymous body) as [[]|]; simpl; split; try done.
      * by intros [[=] _].
      * intros [= <-]. split; [done|]. by exists u.
      * by intros [_ (u' & [= <-] & <-)].
      * by intros [[=] _].
    + split; [done|]. by intros [_ (u & [=] & _)].
  - intros Hs. by rewrite post_messages_send_rejected in Hs.
Qed.

(** alice signs her message to bob. *)
Lemma stored_sender_witness :
  success (serve (PostSend (Some (Signed 1)) (mkSendBody 2 "hello" None (Some false)) 7)
             world0).1 = true
  ∧ ∃ id m, messages world0 !! id = None
      ∧ messages
          (serve (PostSend (Some (Signed 1)) (mkSendBody 2 "hello" None (Some false)) 7)
             world0).2 = <[ id := m ]> (messages world0)
      ∧ Message.recipient m = 2%positive
      ∧ Message.content m = "hello"
      ∧ Message.isRead m = false ∧ Message.has_reply m = false
      ∧ ∀ s, Message.sender m = Some s ↔
             (Some false = Some false
              ∧ ∃ user, optionalAuth (Some (Signed 1)) world0 = Some user ∧ _id user = s).
Proof.
  split; [vm_compute; reflexivity|].
  apply (stored_sender_is_the_caller (Some (Signed 1))
           (mkSendBody 2 "hello" None (Some false)) 7 world0).
  vm_compute. reflexivity.
Defined.

(** ** Ownership of messages *)

(** X15. Marking a message read, replying to it and deleting it succeed
    only for the authenticated recipient of a stored message: nobody else,
    not even its sender, can act on it through these routes. *)
Theorem only_the_recipient_handles_a_message req messageId w :
  touches_message req = Some messageId →
  success (serve req w).1 = true →
  ∃ user m, authenticateToken (credentials req) w = inr user
    ∧ messages w !! messageId = Some m
    ∧ Message.recipient m = _id user.
Proof.
  intros Ht. pattern (serve req w).
  wp_serve req; try discriminate;
    refused ltac:(fun H => intros Hs; simpl in Hs;
                           apply authenticateToken_rejects in H; congruence).
  all: injection Ht as ->.
  - wp_route put_messages_read; try done.
    intros _. match goal with H : Message_findOne_owned _ _ _ = Some ?m |- _ =>
      apply Message_findOne_owned_Some in H as (_ & Hm & Hr); by exists u, (fields m) end.
  - wp_route post_messages_reply; try done.
    intros _. match goal with H : Message_findOne_owned _ _ _ = Some ?m |- _ =>
      apply Message_findOne_owned_Some in H as (_ & Hm & Hr); by exists u, (fields m) end.
  - wp_route delete_messages; try done.
    intros _. match goal with H : Message_findOne_owned _ _ _ = Some ?m |- _ =>
      apply Message_findOne_owned_Some in H as (_ & Hm & Hr); by exists u, (fields m) end.
Qed.

(** In [world2] alice marks the message that root sent her as read. *)
Lemma only_the_recipient_witness :
  touches_message (PutRead (Some (Signed 1)) 1) = Some 1%positive
  ∧ success (serve (PutRead (Some (Signed 1)) 1) world2).1 = true
  ∧ ∃ user m,
      authenticateToken (credentials (PutRead (Some (Signed 1)) 1)) world2 = inr user
      ∧ messages world2 !! 1%positive = Some m
      ∧ Message.recipient m = _id user.
Proof.
  split; [reflexivity|]. split; [vm_compute; reflexivity|].
  apply (only_the_recipient_handles_a_message (PutRead (Some (Signed 1)) 1) 1 world2).
  - reflexivity.
  - vm_compute. reflexivity.
Defined.

(** ** Sorting *)

Section Sort.
Context {A : Type} (key : A → nat).





End Sort.



(** ** The inbox, continued *)



(** ** Moderation, continued *)

(** X17. A report that is accepted adds exactly one report: it names the
    caller as reporter and the message, takes as reported user the sender
    stored with the message at that moment (none for an anonymous message),
    carries the description given, of at most 500 characters, and starts
    pending and unreviewed. *)
Theorem report_snapshots_the_sender hdr user messageId m type description screenshot now w :
  authenticateToken hdr w = inr user →
  messages w !! messageId = Some m →
  success (serve (PostReport hdr messageId type description screenshot now) w).1 = true →
  ∃ id r, reports w !! id = None
    ∧ reports (serve (PostReport hdr messageId type description screenshot now) w).2
      = <[ id := r ]> (reports w)
    ∧ Report.reporter r = _id user
    ∧ Report.reportedMessage r = Some messageId
    ∧ Report.reportedUser r = Message.sender m
    ∧ Report.status r = Report.pending
    ∧ Report.reviewedBy r = None
    ∧ Some (Report.description r) = description
    ∧ (String.length (Report.description r) ≤ 500)%nat.
Proof.
  intros Ha Hm. unfold serve, authenticated. rewrite Ha.
  pattern (post_messages_report user messageId type description screenshot now w).
  wp_route post_messages_report; cbn [fst snd]; try done.
  intros _. eexists _, _. split; [eassumption|]. split; [reflexivity|]. simpl.
  match goal with H : Message_findById _ _ = Some _ |- _ =>
    unfold Message_findById in H; rewrite Hm in H; injection H as <- end.
  repeat split.
  - match goal with H : falsy type || falsy description = false |- _ =>
      apply orb_false_elim in H as [_ Hd] end.
    by destruct description.
  - by destruct description.
Qed.

(** In [world2] root's signed message to alice is reported by root's fellow
    admin, who may see it only through the report. *)
Lemma report_snapshots_witness :
  authenticateToken (Some (Signed 5)) world2 = inr (mkDoc 5%positive admin2)
  ∧ messages world2 !! 1%positive = Some notice
  ∧ success (serve (PostReport (Some (Signed 5)) 1 (Some "other") (Some "odd") None 22)
               world2).1 = true
  ∧ ∃ id r, reports world2 !! id = None
      ∧ reports (serve (PostReport (Some (Signed 5)) 1 (Some "other") (Some "odd")
                          None 22) world2).2
        = <[ id := r ]> (reports world2)
      ∧ Report.reporter r = 5%positive
      ∧ Report.reportedMessage r = Some 1%positive
      ∧ Report.reportedUser r = Message.sender notice
      ∧ Report.status r = Report.pending
      ∧ Report.reviewedBy r = None
      ∧ Some (Report.description r) = Some "odd"
      ∧ (String.length (Report.description r) ≤ 500)%nat.
Proof.
  assert (authenticateToken (Some (Signed 5)) world2 = inr (mkDoc 5%positive admin2))
    as Ha by (vm_compute; reflexivity).
  assert (messages world2 !! 1%positive = Some notice) as Hm by (vm_compute; reflexivity).
  assert (success (serve (PostReport (Some (Signed 5)) 1 (Some "other") (Some "odd")
                            None 22) world2).1 = true) as Hs by (vm_compute; reflexivity).
  split; [exact Ha|]. split; [exact Hm|]. split; [exact Hs|].
  exact (report_snapshots_the_sender _ _ _ _ _ _ _ _ _ Ha Hm Hs).
Defined.

(** X18. The cascade of a review reaches at most the user and the message
    that the report names: every other user and every other message is as
    before, and so are all follow and block edges. A report without a
    reported user, as for an anonymous message, changes no user. *)
Theorem review_cascade_is_confined hdr reportId status adminNotes action now w :
  let w' := (serve (PutReportReview hdr reportId status adminNotes action now) w).2 in
  (∀ userId, (∀ r, reports w !! reportId = Some r →
                   Report.reportedUser r ≠ Some userId) →
             users w' !! userId = users w !! userId)
  ∧ (∀ messageId, (∀ r, reports w !! reportId = Some r →
                        Report.reportedMessage r ≠ Some messageId) →
                  messages w' !! messageId = messages w !! messageId)
  ∧ follows w' = follows w ∧ blocks w' = blocks w.
Proof.
  cbv zeta.
  pattern (serve (PutReportReview hdr reportId status adminNotes action now) w).
  unfold serve. apply wp_admin_only; [intros ? ?|intros ? ? ?|intros ? ? ?]; [done..|].
  wp_route put_admin_reports_review; try done.
  all: match goal with H : Report_findById _ _ = Some _ |- _ =>
         apply Report_findById_Some in H as [_ Hr] end.
  all: cbn [snd]; simpl; split; [|split; [|done]].
  all: try done.
  - intros mid Hmid. apply lookup_delete_ne. intros ->. by eapply Hmid.
  - intros uid Huid. apply lookup_alter_ne. intros ->. by eapply Huid.
  - intros uid Huid. apply lookup_alter_ne. intros ->. by eapply Huid.
Qed.

(** X19. A review with action delete_message that the handler accepts
    removes the reported message, and succeeds without a change to the
    messages when that message is gone already; the report keeps its
    reference to the message, and no user is changed. *)
Theorem review_deletes_the_reported_message
    hdr actor reportId r status s notes messageId now w :
  authenticateToken hdr w = inr actor →
  User.isAdmin (fields actor) = true →
  reports w !! reportId = Some r →
  Report.parse_review_status status = Some s →
  (String.length (default "" notes) ≤ 500)%nat →
  Report.reportedMessage r = Some messageId →
  let '(res, w') :=
    serve (PutReportReview hdr reportId status notes (Some "delete_message") now) w in
  success res = true
  ∧ messages w' = delete messageId (messages w)
  ∧ (messages w !! messageId = None → messages w' = messages w)
  ∧ (Report.reportedMessage <$> reports w' !! reportId) = Some (Some messageId)
  ∧ users w' = users w.
Proof.
  intros Ha Hadm Hr Hs Hn Hm. unfold serve.
  rewrite (admin_only_admin _ _ actor) by done.
  rewrite (put_admin_reports_review_accepted _ _ r _ s) by done.
  simpl. unfold take_action. simpl. rewrite Hm. simpl.
  split; [done|]. split; [done|]. split; [apply delete_id|].
  split; [|done]. rewrite lookup_insert_eq. simpl. by rewrite Hm.
Qed.

(** root reviews the report of [world1] and has its message deleted. *)
Lemma review_deletes_witness :
  reports world1 !! 1%positive = Some junk_report
  ∧ is_Some (messages world1 !! 1%positive)
  ∧ let '(res, w') :=
      serve (PutReportReview (Some (Signed 4)) 1 "resolved" None (Some "delete_message") 30)
        world1 in
    success res = true
    ∧ messages w' = delete 1%positive (messages world1)
    ∧ (messages world1 !! 1%positive = None → messages w' = messages world1)
    ∧ (Report.reportedMessage <$> reports w' !! 1%positive) = Some (Some 1%positive)
    ∧ users w' = users world1.
Proof.
  split; [vm_compute; reflexivity|]. split; [vm_compute; by eexists|].
  apply (review_deletes_the_reported_message (Some (Signed 4)) (mkDoc 4%positive root)
           1 junk_report "resolved" Report.resolved None 1 30 world1).
  - vm_compute. reflexivity.
  - reflexivity.
  - vm_compute. reflexivity.
  - reflexivity.
  - vm_compute. lia.
  - reflexivity.
Defined.

(** ** Settings and status *)

(** X20. PUT /users/settings of an authenticated caller succeeds, answers
    with the new settings and writes them to the caller's user and to no
    other, whose account fields and status stay as they were; a key that
    the body does not give as a boolean keeps its value,
    so an empty body changes nothing; and the same request a second time
    gives the same answer and the same store. *)
Theorem settings_update_is_idempotent hdr user a e w :
  authenticateToken hdr w = inr user →
  let '(res, w') := serve (PutSettings hdr a e) w in
  let old := User.settings (fields user) in
  let new := User.mkSettings (default (User.allowAnonymousMessages old) a)
               (default (User.emailNotifications old) e) in
  res = ok_with "Settings updated successfully" (SettingsData new)
  ∧ users w' = <[ _id user := User.set_settings new (fields user) ]> (users w)
  ∧ (∃ u', users w' !! _id user = Some u'
       ∧ User.settings u' = new
       ∧ same_account (fields user) u'
       ∧ User.status u' = User.status (fields user))
  ∧ (a = None → e = None → w' = w)
  ∧ serve (PutSettings hdr a e) w' = (res, w').
Proof.
  intros Ha.
  apply authenticateToken_id in Ha as Hid. destruct Hid as (uid & -> & Hid & Hu & Hact).
  unfold serve, authenticated. rewrite Ha.
  unfold put_users_settings, User_findById. run. rewrite Hid, Hu. simpl.
  split; [done|]. split; [done|]. split.
  { eexists. rewrite lookup_insert_eq. split; [done|]. by repeat split. }
  split.
  - intros -> ->. simpl. destruct w as [us fs bs ms rs o]. unfold with_users. simpl.
    f_equal. simpl in Hu. apply insert_id. rewrite Hu. f_equal.
    by destruct (fields user) as [? ? ? ? ? ? ? ? ? ? []].
  - rewrite lookup_insert_eq.
    change (User.is_active (User.set_settings _ (fields user)))
      with (User.is_active (fields user)).
    rewrite Hact. simpl. rewrite lookup_insert_eq. simpl.
    f_equal.
    + by destruct a, e.
    + destruct w. unfold with_users. simpl. f_equal. rewrite insert_insert_eq.
      by destruct a, e.
Qed.

(** alice stops accepting anonymous messages. *)
Lemma settings_update_witness :
  authenticateToken (Some (Signed 1)) world0 = inr (mkDoc 1%positive alice)
  ∧ let '(res, w') := serve (PutSettings (Some (Signed 1)) (Some false) None) world0 in
    let old := User.settings alice in
    let new := User.mkSettings (default (User.allowAnonymousMessages old) (Some false))
                 (default (User.emailNotifications old) None) in
    res = ok_with "Settings updated successfully" (SettingsData new)
    ∧ users w' = <[ 1%positive := User.set_settings new alice ]> (users world0)
    ∧ (∃ u', users w' !! 1%positive = Some u'
         ∧ User.settings u' = new
         ∧ same_account alice u'
         ∧ User.status u' = User.status alice)
    ∧ (Some false = None → @None bool = None → w' = world0)
    ∧ serve (PutSettings (Some (Signed 1)) (Some false) None) w' = (res, w').
Proof.
  split; [vm_compute; reflexivity|].
  apply (settings_update_is_idempotent (Some (Signed 1)) (mkDoc 1%positive alice)
           (Some false) None world0).
  vm_compute. reflexivity.
Defined.

(** X21. A status change succeeds only for an admin acting on another
    stored user with one of the three statuses; the answer names the status
    the user had and the one the user has now, and the store differs by that
    status alone. *)
Theorem status_change_reports_both_statuses hdr userId status reason w :
  success (serve (PutUserStatus hdr userId status reason) w).1 = true →
  ∃ actor target new,
    authenticateToken hdr w = inr actor ∧ User.isAdmin (fields actor) = true
    ∧ userId ≠ _id actor
    ∧ users w !! userId = Some target
    ∧ User.parse_status status = Some new
    ∧ data (serve (PutUserStatus hdr userId status reason) w).1
      = StatusData userId (User.status target) new reason
    ∧ (serve (PutUserStatus hdr userId status reason) w).2
      = with_users (λ us, <[ userId := User.set_status new target ]> us) w
    ∧ (∃ u', users (serve (PutUserStatus hdr userId status reason) w).2 !! userId
             = Some u'
         ∧ User.status u' = new
         ∧ same_account target u'
         ∧ User.settings u' = User.settings target).
Proof.
  pattern (serve (PutUserStatus hdr userId status reason) w).
  unfold serve. apply wp_admin_only; [intros e He|intros ? ? ?|intros actor Ha Hadm].
  - intros Hs. apply authenticateToken_rejects in He. simpl in Hs. congruence.
  - done.
  - wp_route put_admin_users_status; cbn [fst snd]; try done.
    intros _.
    match goal with H : User_findById _ _ = Some ?t |- _ =>
      apply User_findById_Some in H as [Hid Hu]; exists actor, (fields t) end.
    eexists. split; [done|]. split; [done|]. rewrite Hid in *. split.
    { by match goal with H : bool_decide _ = false |- _ =>
           apply bool_decide_eq_false in H end. }
    do 4 (split; [done|]).
    eexists. simpl. rewrite lookup_insert_eq. split; [done|]. by repeat split.
Qed.

(** root blocks bob. *)
Lemma status_change_witness :
  success (serve (PutUserStatus (Some (Signed 4)) 2 "blocked" None) world0).1 = true
  ∧ ∃ actor target new,
      authenticateToken (Some (Signed 4)) world0 = inr actor
      ∧ User.isAdmin (fields actor) = true
      ∧ 2%positive ≠ _id actor
      ∧ users world0 !! 2%positive = Some target
      ∧ User.parse_status "blocked" = Some new
      ∧ data (serve (PutUserStatus (Some (Signed 4)) 2 "blocked" None) world0).1
        = StatusData 2 (User.status target) new None
      ∧ (serve (PutUserStatus (Some (Signed 4)) 2 "blocked" None) world0).2
        = with_users (λ us, <[ 2%positive := User.set_status new target ]> us) world0
      ∧ (∃ u', users (serve (PutUserStatus (Some (Signed 4)) 2 "blocked" None)
                        world0).2 !! 2%positive = Some u'
           ∧ User.status u' = new
           ∧ same_account target u'
           ∧ User.settings u' = User.settings target).
Proof.
  split; [vm_compute; reflexivity|].
  apply (status_change_reports_both_statuses (Some (Signed 4)) 2 "blocked" None world0).
  vm_compute. reflexivity.
Defined.

(** ** The read-only routes *)

Section Page.
Context {A : Type} (key : A → nat) (l : list A) (limit skip : nat).





End Page.













(** ** Mail and deletion *)

(** X25. Whatever requests are served, the outbox is as it was: none of the
    routes hands a mail to the e-mail service. *)
Theorem routes_send_no_mail reqs w : outbox (serve_all reqs w) = outbox w.
Proof.
  revert w. induction reqs as [|req reqs IH]; intros w; [done|].
  simpl. rewrite IH. by apply no_route_sends_mail.
Qed.

(** X26. A message is deleted, by its recipient or by an admin, only when
    it is stored, and the deletion removes this message and changes nothing
    else: the reports that name the message stay in the store, with a
    reference to a message that is gone. *)
Theorem delete_removes_the_message_only hdr messageId req w :
  req = DeleteMessage hdr messageId ∨ req = AdminDeleteMessage hdr messageId →
  success (serve req w).1 = true →
  is_Some (messages w !! messageId)
  ∧ (serve req w).2 = with_messages (λ ms, delete messageId ms) w
  ∧ reports (serve req w).2 = reports w.
Proof.
  intros [->| ->].
  - pattern (serve (DeleteMessage hdr messageId) w). unfold serve.
    apply wp_authenticated; [intros e He|intros u Hu].
    + intros Hs. apply authenticateToken_rejects in He. simpl in Hs. congruence.
    + wp_route delete_messages; cbn [fst snd]; try done.
      intros _. split; [|done].
      match goal with H : Message_findOne_owned _ _ _ = Some _ |- _ =>
        apply Message_findOne_owned_Some in H as (_ & Hm & _) end.
      by eexists.
  - pattern (serve (AdminDeleteMessage hdr messageId) w). unfold serve.
    apply wp_admin_only; [intros e He|intros ? ? ?|intros u Hu Hadm].
    + intros Hs. apply authenticateToken_rejects in He. simpl in Hs. congruence.
    + done.
    + wp_route delete_admin_messages; cbn [fst snd]; try done.
      intros _. split; [|done].
      match goal with H : Message_findById _ _ = Some _ |- _ =>
        unfold Message_findById in H end.
      destruct (messages w !! messageId); [by eexists|done].
Qed.

(** In [world1] bob deletes the message he has reported; his report stays,
    as in [world4]. *)
Lemma delete_removes_witness :
  success (serve (DeleteMessage (Some (Signed 2)) 1) world1).1 = true
  ∧ Report.reportedMessage <$> reports world4 !! 1%positive = Some (Some 1%positive)
  ∧ is_Some (messages world1 !! 1%positive)
  ∧ (serve (DeleteMessage (Some (Signed 2)) 1) world1).2
    = with_messages (λ ms, delete 1%positive ms) world1
  ∧ reports (serve (DeleteMessage (Some (Signed 2)) 1) world1).2 = reports world1.
Proof.
  split; [vm_compute; reflexivity|]. split; [vm_compute; reflexivity|].
  apply (delete_removes_the_message_only (Some (Signed 2)) 1
           (DeleteMessage (Some (Signed 2)) 1) world1).
  - by left.
  - vm_compute. reflexivity.
Defined.

(** ** Usernames *)

Lemma is_alphanum_word c : is_alphanum c = true → is_word c = true.
Proof. unfold is_word. by intros ->. Qed.

Lemma is_word_alphanum c : is_word c = true → is_alphanum c = true ∨ c = underscore.
Proof.
  unfold is_word. intros [H|H%Ascii.eqb_eq]%orb_true_iff; [by left|by right].
Qed.

(** X27. The two rules for a username agree up to the underscore: a string
    that [schemas.username] of utils/validation.js lets through passes the
    validators of the [username] path of the User model, and a string that
    passes the validators of the model and is refused by [schemas.username]
    contains an underscore. Both ask for 3 to 20 characters. *)
Theorem username_rules_agree s :
  (schemas_username s = true → UserSchema_username s = true)
  ∧ (UserSchema_username s = true →
     schemas_username s = false → underscore ∈ String.list_ascii_of_string s)
  ∧ (UserSchema_username s = true → (3 ≤ String.length s ≤ 20)%nat).
Proof.
  unfold schemas_username, UserSchema_username. split; [|split].
  - intros [[[Hne Hall]%andb_true_iff Hmin]%andb_true_iff Hmax]%andb_true_iff.
    rewrite Hne, Hmin, Hmax. simpl. rewrite forallb_forall in Hall.
    apply forallb_forall. intros c Hc. by apply is_alphanum_word, Hall.
  - intros [[[Hne Hmin]%andb_true_iff Hmax]%andb_true_iff
             [_ Hall]%andb_true_iff]%andb_true_iff.
    rewrite Hne, Hmin, Hmax, !andb_true_r. simpl. intros Hno.
    rewrite forallb_forall in Hall.
    induction (String.list_ascii_of_string s) as [|c l IH]; [done|].
    simpl in Hno. apply andb_false_iff in Hno as [Hc|Hl].
    + destruct (is_word_alphanum c) as [Hc'| ->].
      * apply Hall. by left.
      * congruence.
      * apply list_elem_of_here.
    + apply list_elem_of_further, IH; [|done].
      intros x Hx. apply Hall. by right.
  - intros [[[_ Hmin]%andb_true_iff Hmax]%andb_true_iff _]%andb_true_iff.
    apply Nat.leb_le in Hmin, Hmax. lia.
Qed.

(** A username with an underscore. *)
Lemma username_rules_witness :
  UserSchema_username "a_b" = true ∧ schemas_username "a_b" = false
  ∧ schemas_username "alice" = true
  ∧ UserSchema_username "alice" = true
  ∧ underscore ∈ String.list_ascii_of_string "a_b".
Proof.
  destruct (username_rules_agree "a_b") as (_ & Hgap & _).
  destruct (username_rules_agree "alice") as (Hsub & _ & _).
  split; [reflexivity|]. split; [reflexivity|]. split; [reflexivity|].
  split; [by apply Hsub|]. by apply Hgap.
Defined.
